(** * ArrowParquetDatasource: sampling estimators, retrying resolver, partitioning

    A shallow embedding of
    [awswrangler/distributed/ray/datasources/arrow_parquet_datasource.py].

    Conventions of the embedding.
    - Python [float] values are idealised as exact rationals ([Q]); the one
      non-number the module can produce, [nan] (from [np.mean] of an empty
      list), is kept as a separate constructor of [pyfloat].
    - A Python exception is a value of [exn], all of them instances of
      [Exception]; a call that may raise returns [result].
    - Logging, sleeping, the random generator and the calls made to the
      external fragment resolver are recorded in an explicit [world] that is
      threaded through the code. *)

From Stdlib Require Import String Ascii.
From Stdlib Require Import ZArith QArith Qround Qpower List Bool Lia Lqa Arith.
From Stdlib Require Import Permutation.
Import ListNotations.

Local Open Scope Z_scope.

(** ** Python exceptions and fallible computations *)

Module Py.

Inductive exn : Type :=
| ZeroDivisionError
| ValueError (msg : string)
| TypeError
| IndexError
| AttributeError
| OSError (msg : string)
| ArrowInvalid (msg : string)
| InvalidFile (msg : string)
| OtherException (tag : nat).

Inductive result (A : Type) : Type :=
| Ok (a : A)
| Raise (e : exn).

Arguments Ok {A} a.
Arguments Raise {A} e.

Definition bind {A B} (m : result A) (k : A -> result B) : result B :=
  match m with
  | Ok a => k a
  | Raise e => Raise e
  end.

Fixpoint mapM {A B} (f : A -> result B) (l : list A) : result (list B) :=
  match l with
  | [] => Ok []
  | x :: tl =>
      bind (f x) (fun y => bind (mapM f tl) (fun ys => Ok (y :: ys)))
  end.

(** A Python [float]: a finite value or [nan]. *)
Inductive pyfloat : Type :=
| Fin (q : Q)
| NaN.

End Py.

Import Py.

Notation "x <- m ;; k" := (Py.bind m (fun x => k))
(at level 61, m at next level, right associativity).

(** ** Module constants *)

Definition PARQUET_READER_ROW_BATCH_SIZE : Z := 10000.
Definition FILE_READING_RETRY : nat := 8.
Definition PARQUET_ENCODING_RATIO_ESTIMATE_DEFAULT : Z := 5.
Definition PARQUET_ENCODING_RATIO_ESTIMATE_LOWER_BOUND : Z := 2.
Definition PARQUET_ENCODING_RATIO_ESTIMATE_SAMPLING_RATIO : Q := 1 # 100.
Definition PARQUET_ENCODING_RATIO_ESTIMATE_MIN_NUM_SAMPLES : Z := 2.
Definition PARQUET_ENCODING_RATIO_ESTIMATE_MAX_NUM_SAMPLES : Z := 10.
Definition PARQUET_ENCODING_RATIO_ESTIMATE_NUM_ROWS : Z := 1024.

(** ** The retrying fragment resolver *)

Section Resolver.

(** [_SerializedFragment] handles and the live fragments they resolve to. *)
Variable handle : Type.
Variable fragment : Type.

(** What [p.deserialize()] does on the [k]-th call of
    [_deserialize_fragments] (counted from 0): the collaborator is external
    and may fail differently at each attempt. *)
Variable deserialize : nat -> handle -> result fragment.

(** The value of the [k]-th call of [random.random()]. *)
Variable random : nat -> Q.

(** One record written by [_logger.exception]. *)
Record log_entry : Type := {
  log_attempt : nat;              (* the "{i + 1}th attempt" *)
  log_retry_after : option Q;     (* "Retry after {min_interval} sec. " *)
  log_dump_handles : bool;        (* the text shown in the 1st retry only *)
  log_exc : exn
}.

Record world : Type := {
  attempts : nat;                 (* calls of _deserialize_fragments so far *)
  draws : nat;                    (* calls of random.random() so far *)
  slept : list Q;                 (* arguments of time.sleep, oldest first *)
  logged : list log_entry         (* records logged, oldest first *)
}.

Definition _deserialize_fragments (serialized_fragments : list handle)
    (w : world) : result (list fragment) * world :=
  (mapM (deserialize (attempts w)) serialized_fragments,
   {| attempts := S (attempts w); draws := draws w;
      slept := slept w; logged := logged w |}).

Definition log_exception (entry : log_entry) (w : world) : world :=
  {| attempts := attempts w; draws := draws w;
     slept := slept w; logged := logged w ++ [entry] |}.

Definition random_random (w : world) : Q * world :=
  (random (draws w),
   {| attempts := attempts w; draws := S (draws w);
      slept := slept w; logged := logged w |}).

Definition time_sleep (secs : Q) (w : world) : world :=
  {| attempts := attempts w; draws := draws w;
     slept := slept w ++ [secs]; logged := logged w |}.

(** The body of [for i in range(FILE_READING_RETRY)], on the indices [idxs]
    still to run, with the loop-carried [min_interval] and
    [final_exception].  Falling out of the loop reaches
    [raise final_exception]; raising [None] is a [TypeError]. *)
Fixpoint retry_loop (serialized_fragments : list handle) (idxs : list nat)
    (min_interval : Q) (final_exception : option exn) (w : world)
    : result (list fragment) * world :=
  match idxs with
  | [] =>
      (match final_exception with
       | Some e => Raise e
       | None => Raise TypeError
       end, w)
  | i :: rest =>
      let (r, w1) := _deserialize_fragments serialized_fragments w in
      match r with
      | Ok frags => (Ok frags, w1)
      | Raise e =>
          let retry_timing :=
            if Nat.eqb i (FILE_READING_RETRY - 1) then None
            else Some min_interval in
          let w2 :=
            log_exception
              {| log_attempt := i + 1; log_retry_after := retry_timing;
                 log_dump_handles := Nat.eqb i 0; log_exc := e |} w1 in
          let (min_interval1, w3) :=
            if Qeq_bool min_interval 0
            then let (u, w') := random_random w2 in ((1 + u)%Q, w')
            else (min_interval, w2) in
          let w4 := time_sleep min_interval1 w3 in
          retry_loop serialized_fragments rest (min_interval1 * 2)%Q (Some e) w4
      end
  end.

(** Used to state the properties of the loop: the outcome of the [k]-th call
    of [_deserialize_fragments]. *)
Definition outcome (serialized_fragments : list handle) (k : nat)
    : result (list fragment) :=
  mapM (deserialize k) serialized_fragments.

(** How many of the [n] calls from the [k]-th on fail before one succeeds. *)
Fixpoint leading_failures (serialized_fragments : list handle) (k n : nat)
    : nat :=
  match n with
  | O => O
  | S n' =>
      match outcome serialized_fragments k with
      | Ok _ => O
      | Raise _ => S (leading_failures serialized_fragments (S k) n')
      end
  end.

(** The waits of a backoff that starts at [x]. *)
Fixpoint doubling (x : Q) (n : nat) : list Q :=
  match n with
  | O => []
  | S n' => x :: doubling (x * 2)%Q n'
  end.

Definition _deserialize_fragments_with_retry
    (serialized_fragments : list handle) (w : world)
    : result (list fragment) * world :=
  retry_loop serialized_fragments (seq 0 FILE_READING_RETRY) 0 None w.

End Resolver.


Arguments _deserialize_fragments {handle fragment} deserialize serialized_fragments w.
Arguments retry_loop {handle fragment} deserialize random serialized_fragments idxs min_interval final_exception w.
Arguments _deserialize_fragments_with_retry {handle fragment} deserialize random serialized_fragments w.
Arguments outcome {handle fragment} deserialize serialized_fragments k.
Arguments leading_failures {handle fragment} deserialize serialized_fragments k n.

(** ** Python and numpy arithmetic used by the estimators *)

(** [a / b] on floats. *)
Definition py_truediv (a b : Q) : result Q :=
  if Qeq_bool b 0 then Raise ZeroDivisionError else Ok (a / b)%Q.

(** [a // b] with a float divisor: the floor of the quotient. *)
Definition py_floordiv (a b : Q) : result Z :=
  if Qeq_bool b 0 then Raise ZeroDivisionError else Ok (Qfloor (a / b)).

(** Truncation toward zero. *)
Definition Qtrunc (q : Q) : Z := Z.quot (Qnum q) (Zpos (Qden q)).

(** [int(x)] on a float: truncation toward zero; [nan] cannot be converted. *)
Definition py_int (x : pyfloat) : result Z :=
  match x with
  | Fin q => Ok (Qtrunc q)
  | NaN => Raise (ValueError "cannot convert float NaN to integer")
  end.

(** [n * x] for an int [n] and a float [x]. *)
Definition py_mul (n : Z) (x : pyfloat) : pyfloat :=
  match x with
  | Fin q => Fin (inject_Z n * q)%Q
  | NaN => NaN
  end.

(** [max(x, lo)]: the first argument is kept unless the second is greater;
    every comparison with [nan] is false, so [nan] is kept. *)
Definition py_max (x : pyfloat) (lo : Q) : pyfloat :=
  match x with
  | Fin q => if Qle_bool lo q then Fin q else Fin lo
  | NaN => NaN
  end.

Definition Qsum (l : list Q) : Q := fold_right Qplus 0%Q l.

(** [np.mean]: [nan] on an empty list. *)
Definition np_mean (l : list Q) : pyfloat :=
  match l with
  | [] => NaN
  | _ :: _ => Fin (Qsum l / inject_Z (Z.of_nat (length l)))%Q
  end.

(** ** Sampling estimators *)

Record _SampleInfo : Type := {
  actual_bytes_per_row : option Q;
  estimated_bytes_per_row : option Q
}.

Definition compute_encoding_ratio (sample_info : _SampleInfo) : result Q :=
  match actual_bytes_per_row sample_info,
        estimated_bytes_per_row sample_info with
  | Some actual, Some estimated => py_truediv actual estimated
  | _, _ => Ok (inject_Z PARQUET_ENCODING_RATIO_ESTIMATE_LOWER_BOUND)
  end.

(** [decoding_size_estimation] is the flag of the current [DataContext]. *)
Definition _estimate_files_encoding_ratio (decoding_size_estimation : bool)
    (sample_infos : list _SampleInfo) : result pyfloat :=
  if negb decoding_size_estimation
  then Ok (Fin (inject_Z PARQUET_ENCODING_RATIO_ESTIMATE_DEFAULT))
  else
    ratios <- mapM compute_encoding_ratio sample_infos ;;
    Ok (py_max (np_mean ratios)
          (inject_Z PARQUET_ENCODING_RATIO_ESTIMATE_LOWER_BOUND)).

(** The ratio of one sample in the words of the specification:
    [actual / estimated] when both are present, else the lower bound. *)
Definition sample_ratio (s : _SampleInfo) : Q :=
  match actual_bytes_per_row s, estimated_bytes_per_row s with
  | Some actual, Some estimated => (actual / estimated)%Q
  | _, _ => 2%Q
  end.

(** [target_max_block_size] is the setting of the current [DataContext]. *)
Definition compute_batch_size_rows (target_max_block_size : Z)
    (sample_info : _SampleInfo) : result Z :=
  match actual_bytes_per_row sample_info with
  | None => Ok PARQUET_READER_ROW_BATCH_SIZE
  | Some actual =>
      let max_parquet_reader_row_batch_size_bytes :=
        target_max_block_size / 10 in
      q <- py_floordiv (inject_Z max_parquet_reader_row_batch_size_bytes)
             actual ;;
      Ok (Z.max 1 (Z.min PARQUET_READER_ROW_BATCH_SIZE q))
  end.

Definition _estimate_default_read_batch_size_rows (target_max_block_size : Z)
    (sample_infos : list _SampleInfo) : result pyfloat :=
  sizes <- mapM (compute_batch_size_rows target_max_block_size) sample_infos ;;
  Ok (np_mean (map inject_Z sizes)).

(** The batch size of one sample, in closed form: 10000 when
    [actual_bytes_per_row] is absent, else the floor of the integer tenth of
    the block size over [actual_bytes_per_row], clamped to [1, 10000]. *)
Definition sample_batch_rows (target_max_block_size : Z) (s : _SampleInfo) : Z :=
  match actual_bytes_per_row s with
  | None => 10000
  | Some actual =>
      Z.max 1 (Z.min 10000
                 (Qfloor (inject_Z (target_max_block_size / 10) / actual)))
  end.

(** The same in the words of the specification, where the tenth of the block
    size is not rounded: [clamp(floor((max_block_bytes / 10) / actual), 1,
    10000)]. *)
Definition spec_batch_rows (max_block_bytes : Z) (s : _SampleInfo) : Z :=
  match actual_bytes_per_row s with
  | None => 10000
  | Some actual =>
      Z.max 1 (Z.min 10000
                 (Qfloor ((inject_Z max_block_bytes / 10) / actual)))
  end.

(** ** Sampling one file *)

(** What the code reads of pyarrow's objects. *)
Record RowGroupMetaData : Type := {
  rg_total_byte_size : Z
}.

Record FileMetaData : Type := {
  num_rows : Z;
  row_groups : list RowGroupMetaData      (* row_group(idx), idx < num_row_groups *)
}.

Record RecordBatch : Type := {
  nbytes : Z;
  batch_num_rows : Z
}.

Section Sampling.

Variable handle : Type.
Variable Columns : Type.
Variable Schema : Type.

(** A live [ParquetFileFragment].  [subset] narrows the row groups the
    fragment views and keeps the metadata of the whole file, as pyarrow does;
    [scan] stands for [to_batches] on the viewed row groups. *)
Record ParquetFileFragment : Type := {
  path : string;
  metadata : FileMetaData;
  row_group_ids : option (list nat);
  scan : option (list nat) -> Columns -> Schema -> Z -> list RecordBatch
}.

Definition subset (fragment : ParquetFileFragment) (ids : list nat)
    : ParquetFileFragment :=
  {| path := path fragment; metadata := metadata fragment;
     row_group_ids := Some ids; scan := scan fragment |}.

Definition to_batches (fragment : ParquetFileFragment) (columns : Columns)
    (schema : Schema) (batch_size : Z) : list RecordBatch :=
  scan fragment (row_group_ids fragment) columns schema batch_size.

Variable deserialize : nat -> handle -> result ParquetFileFragment.
Variable random : nat -> Q.

(** The part of [_sample_fragment] that follows the resolution of the
    handle. *)
Definition sample_resolved (columns : Columns) (schema : Schema)
    (fragment0 : ParquetFileFragment) : result _SampleInfo :=
  let fragment := subset fragment0 [0%nat] in
  let batch_size :=
    Z.max (Z.min (num_rows (metadata fragment))
                 PARQUET_ENCODING_RATIO_ESTIMATE_NUM_ROWS) 1 in
  let batches := to_batches fragment columns schema batch_size in
  match batches with
  | [] =>
      Ok {| actual_bytes_per_row := None; estimated_bytes_per_row := None |}
  | batch :: _ =>
      if 0 <? batch_num_rows batch then
        let metadata := metadata fragment in
        let total_size :=
          fold_left (fun acc rg => acc + rg_total_byte_size rg)
                    (row_groups metadata) 0 in
        actual <- py_truediv (inject_Z (nbytes batch))
                    (inject_Z (batch_num_rows batch)) ;;
        estimated <- py_truediv (inject_Z total_size)
                       (inject_Z (num_rows metadata)) ;;
        Ok {| actual_bytes_per_row := Some actual;
              estimated_bytes_per_row := Some estimated |}
      else
        Ok {| actual_bytes_per_row := None; estimated_bytes_per_row := None |}
  end.

Definition _sample_fragment (columns : Columns) (schema : Schema)
    (file_fragment : handle) (w : world) : result _SampleInfo * world :=
  let (r, w1) :=
    _deserialize_fragments_with_retry deserialize random [file_fragment] w in
  match r with
  | Raise e => (Raise e, w1)
  | Ok [] => (Raise IndexError, w1)
  | Ok (fragment :: _) => (sample_resolved columns schema fragment, w1)
  end.

End Sampling.

Arguments path {Columns Schema} p.
Arguments metadata {Columns Schema} p.
Arguments row_group_ids {Columns Schema} p.
Arguments scan {Columns Schema} p.
Arguments subset {Columns Schema} fragment ids.
Arguments to_batches {Columns Schema} fragment columns schema batch_size.
Arguments sample_resolved {Columns Schema} columns schema fragment0.
Arguments _sample_fragment {handle Columns Schema} deserialize random columns schema file_fragment w.

(** ** numpy and Python list helpers used by the datasource *)

(** [l[i]]: a negative index counts from the end. *)
Definition py_getitem {A} (l : list A) (i : Z) : result A :=
  let n := Z.of_nat (length l) in
  let j := if i <? 0 then i + n else i in
  if (0 <=? j) && (j <? n)
  then match nth_error l (Z.to_nat j) with
       | Some x => Ok x
       | None => Raise IndexError
       end
  else Raise IndexError.

(** [np.linspace(0, stop, num).astype(int).tolist()]: [num] evenly spaced
    points from 0 to [stop], both included, each truncated toward zero. *)
Definition linspace_indices (stop num : Z) : result (list Z) :=
  if num <? 0 then Raise (ValueError "Number of samples must be non-negative")
  else if num =? 1 then Ok [0]
  else Ok (map (fun i => Z.quot (Z.of_nat i * stop) (num - 1))
               (seq 0 (Z.to_nat num))).

(** The consecutive slices of [l] of the given lengths. *)
Fixpoint cut {A} (sizes : list nat) (l : list A) : list (list A) :=
  match sizes with
  | [] => []
  | s :: rest => firstn s l :: cut rest (skipn s l)
  end.

(** The sizes [np.array_split] gives to [Nsections] sections of [Ntotal]
    elements: with [Ntotal = Nsections * q + r] the first [r] sections have
    [q + 1] elements and the others [q]. *)
Definition section_sizes (Ntotal Nsections : nat) : list nat :=
  let Neach_section := (Ntotal / Nsections)%nat in
  let extras := (Ntotal mod Nsections)%nat in
  repeat (S Neach_section) extras
  ++ repeat Neach_section (Nsections - extras).

(** [np.array_split(ary, n)] on a sequence. *)
Definition array_split {A} (ary : list A) (indices_or_sections : Z)
    : result (list (list A)) :=
  if indices_or_sections <=? 0
  then Raise (ValueError "number sections must be larger than 0.")
  else
    let Nsections := Z.to_nat indices_or_sections in
    let Ntotal := length ary in
    Ok (cut (section_sizes Ntotal Nsections) ary).

(** Python's [zip] of three lists stops at the shortest. *)
Fixpoint zip3 {A B C} (la : list A) (lb : list B) (lc : list C)
    : list (A * B * C) :=
  match la, lb, lc with
  | a :: la', b :: lb', c :: lc' => (a, b, c) :: zip3 la' lb' lc'
  | _, _, _ => []
  end.

(** [list(map(list, zip( *rows)))] bound to three names: there is nothing to
    unpack when [rows] is empty. *)
Definition unzip3 {A B C} (rows : list (A * B * C))
    : result (list A * list B * list C) :=
  match rows with
  | [] => Raise (ValueError "not enough values to unpack (expected 3, got 0)")
  | _ :: _ =>
      Ok (map (fun t => fst (fst t)) rows,
          map (fun t => snd (fst t)) rows,
          map snd rows)
  end.

(** [needle in hay] on strings. *)
Fixpoint contains (needle hay : string) : bool :=
  match hay with
  | EmptyString => String.prefix needle EmptyString
  | String _ rest => String.prefix needle hay || contains needle rest
  end.

(** [d.get(key)] on a dict kept as an association list. *)
Fixpoint dict_get {V} (key : string) (d : list (string * V)) : option V :=
  match d with
  | [] => None
  | (k, v) :: rest => if String.eqb k key then Some v else dict_get key rest
  end.

(** The number of files [_sample_fragments] samples out of [num_files].
    [int(num_files * 0.01)] truncates the product. *)
Definition num_samples_of (num_files : Z) : Z :=
  let num_samples :=
    Qtrunc (inject_Z num_files
            * PARQUET_ENCODING_RATIO_ESTIMATE_SAMPLING_RATIO)%Q in
  let min_num_samples :=
    Z.min PARQUET_ENCODING_RATIO_ESTIMATE_MIN_NUM_SAMPLES num_files in
  let max_num_samples :=
    Z.min PARQUET_ENCODING_RATIO_ESTIMATE_MAX_NUM_SAMPLES num_files in
  Z.max (Z.min num_samples max_num_samples) min_num_samples.

(** The sample count as the specification words it, with [round] where the
    code has [int]: Python's [round] goes to the nearest integer and to the
    even one at a tie. *)
Definition py_round (q : Q) : Z :=
  let f := Qfloor q in
  match (q - inject_Z f ?= 1 # 2)%Q with
  | Lt => f
  | Gt => f + 1
  | Eq => if Z.even f then f else f + 1
  end.

Definition spec_num_samples (num_files : Z) : Z :=
  Z.max (Z.min (py_round (inject_Z num_files * (1 # 100))%Q)
               (Z.min 10 num_files))
        (Z.min 2 num_files).

(** The indices of the files that are sampled. *)
Definition sample_indices (num_files : Z) : result (list Z) :=
  linspace_indices (num_files - 1) (num_samples_of num_files).

(** ** The datasource *)

(** One entry of the prefetched per-file metadata. *)
Record PrefetchedMetadata : Type := {
  total_byte_size : Z
}.

(** The [BlockMetadata] returned by the metadata provider. *)
Record BlockMetadata : Type := {
  meta_num_rows : option Z;
  size_bytes : option Z
}.

Section Datasource.

Variable handle : Type.
Variable Schema : Type.
Variable Udf : Type.
Variable ArgValue : Type.

(** [np.random.Generator]: [permutation g n] is the result of
    [g.permutation(n)] and the generator after the call. *)
Variable Generator : Type.
Variable permutation : Generator -> nat -> list nat * Generator.

(** [self._meta_provider(paths, schema, num_fragments=..,
    prefetched_metadata=..)]. *)
Variable meta_provider :
  list string -> Schema -> nat -> list (option PrefetchedMetadata)
  -> BlockMetadata.

Record ArrowParquetDatasource : Type := {
  _supports_distributed_reads : bool;
  _metadata : list (option PrefetchedMetadata);
  _pq_fragments : list handle;
  _pq_paths : list string;
  _inferred_schema : Schema;
  _block_udf : option Udf;
  _columns : option (list string);
  _schema : Schema;
  _arrow_parquet_args : list (string * option ArgValue);
  _file_metadata_shuffler : option Generator;
  _include_paths : bool;
  _path_root : string;
  _encoding_ratio : pyfloat;
  _default_read_batch_size_rows : pyfloat
}.

Definition set_metadata (self : ArrowParquetDatasource)
    (m : list (option PrefetchedMetadata)) : ArrowParquetDatasource :=
  {| _supports_distributed_reads := _supports_distributed_reads self;
     _metadata := m;
     _pq_fragments := _pq_fragments self;
     _pq_paths := _pq_paths self;
     _inferred_schema := _inferred_schema self;
     _block_udf := _block_udf self;
     _columns := _columns self;
     _schema := _schema self;
     _arrow_parquet_args := _arrow_parquet_args self;
     _file_metadata_shuffler := _file_metadata_shuffler self;
     _include_paths := _include_paths self;
     _path_root := _path_root self;
     _encoding_ratio := _encoding_ratio self;
     _default_read_batch_size_rows := _default_read_batch_size_rows self |}.

Definition set_shuffler (self : ArrowParquetDatasource) (g : Generator)
    : ArrowParquetDatasource :=
  {| _supports_distributed_reads := _supports_distributed_reads self;
     _metadata := _metadata self;
     _pq_fragments := _pq_fragments self;
     _pq_paths := _pq_paths self;
     _inferred_schema := _inferred_schema self;
     _block_udf := _block_udf self;
     _columns := _columns self;
     _schema := _schema self;
     _arrow_parquet_args := _arrow_parquet_args self;
     _file_metadata_shuffler := Some g;
     _include_paths := _include_paths self;
     _path_root := _path_root self;
     _encoding_ratio := _encoding_ratio self;
     _default_read_batch_size_rows := _default_read_batch_size_rows self |}.

(** [estimate_inmemory_data_size]: reading [total_byte_size] of a [None]
    entry is an [AttributeError]. *)
Fixpoint sum_total_byte_size (total_size : Z)
    (metadata : list (option PrefetchedMetadata)) : result Z :=
  match metadata with
  | [] => Ok total_size
  | None :: _ => Raise AttributeError
  | Some file_metadata :: rest =>
      sum_total_byte_size (total_size + total_byte_size file_metadata) rest
  end.

(** The annotation is [int | None]: [None] is kept in the type of the
    result, although the only [return] gives the product. *)
Definition estimate_inmemory_data_size (self : ArrowParquetDatasource)
    : result (option pyfloat) :=
  total_size <- sum_total_byte_size 0 (_metadata self) ;;
  Ok (Some (py_mul total_size (_encoding_ratio self))).

(** A [ReadTask]: the arguments bound in its read function and its
    metadata. *)
Record ReadTask : Type := {
  task_block_udf : option Udf;
  task_arrow_parquet_args : list (string * option ArgValue);
  task_default_read_batch_size_rows : pyfloat;
  task_columns : option (list string);
  task_schema : Schema;
  task_path_root : string;
  task_fragments : list handle;
  task_include_paths : bool;
  task_metadata : BlockMetadata
}.

(** The first statements of [get_read_tasks].  [pq_metadata] is the list
    object held in [self._metadata], and [+=] extends that object in place. *)
Definition pad_metadata (self : ArrowParquetDatasource)
    : ArrowParquetDatasource :=
  let pq_metadata := _metadata self in
  if (length pq_metadata <? length (_pq_fragments self))%nat
  then set_metadata self
         (pq_metadata
          ++ repeat None (length (_pq_fragments self) - length pq_metadata))
  else self.

(** The body of the loop over the zipped sections. *)
Definition make_read_task (self : ArrowParquetDatasource)
    (fragments : list handle) (paths : list string)
    (metadata : list (option PrefetchedMetadata)) : result ReadTask :=
  let meta :=
    meta_provider paths (_inferred_schema self) (length fragments) metadata in
  let meta :=
    match dict_get "filter" (_arrow_parquet_args self) with
    | Some (Some _) =>
        {| meta_num_rows := None; size_bytes := size_bytes meta |}
    | _ => meta
    end in
  meta <- match size_bytes meta with
          | Some size =>
              scaled <- py_int (py_mul size (_encoding_ratio self)) ;;
              Ok {| meta_num_rows := meta_num_rows meta;
                    size_bytes := Some scaled |}
          | None => Ok meta
          end ;;
  Ok {| task_block_udf := _block_udf self;
        task_arrow_parquet_args := _arrow_parquet_args self;
        task_default_read_batch_size_rows :=
          _default_read_batch_size_rows self;
        task_columns := _columns self;
        task_schema := _schema self;
        task_path_root := _path_root self;
        task_fragments := fragments;
        task_include_paths := _include_paths self;
        task_metadata := meta |}.

Fixpoint read_tasks_loop (self : ArrowParquetDatasource)
    (sections :
       list (list handle * list string * list (option PrefetchedMetadata)))
    : result (list ReadTask) :=
  match sections with
  | [] => Ok []
  | (fragments, paths, metadata) :: rest =>
      if (length fragments <=? 0)%nat then read_tasks_loop self rest
      else
        task <- make_read_task self fragments paths metadata ;;
        read_tasks <- read_tasks_loop self rest ;;
        Ok (task :: read_tasks)
  end.

(** The fragments, paths and metadata in the order they are split in, and the
    datasource after the generator has been used. *)
Definition ordered_files (self : ArrowParquetDatasource)
    : result (list handle * list string * list (option PrefetchedMetadata))
      * ArrowParquetDatasource :=
  let pq_metadata := _metadata self in
  match _file_metadata_shuffler self with
  | Some g =>
      let files_metadata :=
        zip3 (_pq_fragments self) (_pq_paths self) pq_metadata in
      let (perm, g') := permutation g (length files_metadata) in
      let self' := set_shuffler self g' in
      (shuffled_files_metadata <-
         mapM (fun i => py_getitem files_metadata (Z.of_nat i)) perm ;;
       unzip3 shuffled_files_metadata,
       self')
  | None => (Ok (_pq_fragments self, _pq_paths self, pq_metadata), self)
  end.

Definition get_read_tasks (self : ArrowParquetDatasource) (parallelism : Z)
    : result (list ReadTask) * ArrowParquetDatasource :=
  let self1 := pad_metadata self in
  let (ordered, self2) := ordered_files self1 in
  (files <- ordered ;;
   let '(pq_fragments, pq_paths, pq_metadata) := files in
   fragment_sections <- array_split pq_fragments parallelism ;;
   path_sections <- array_split pq_paths parallelism ;;
   metadata_sections <- array_split pq_metadata parallelism ;;
   read_tasks_loop self2
     (zip3 fragment_sections path_sections metadata_sections),
   self2).

(** The datasource as [get_read_tasks] leaves it: the metadata padded, and
    the generator, when there is one, after one more permutation. *)
Definition after_planning (self : ArrowParquetDatasource)
    : ArrowParquetDatasource :=
  match _file_metadata_shuffler self with
  | None => pad_metadata self
  | Some g =>
      set_shuffler (pad_metadata self)
        (snd (permutation g (length (_pq_fragments self))))
  end.

(** The order in which [get_read_tasks] splits the fragments: the stored
    order, or the stored fragments taken at the indices of the permutation
    drawn from the generator. *)
Definition planned_order (self : ArrowParquetDatasource) : list handle :=
  match _file_metadata_shuffler self with
  | None => _pq_fragments self
  | Some g =>
      flat_map (fun i => match nth_error (_pq_fragments self) i with
                         | Some h => [h]
                         | None => []
                         end)
               (fst (permutation g (length (_pq_fragments self))))
  end.

(** What the constructor establishes and the methods rely on: the paths are
    those of the fragments, and the encoding ratio is a number as soon as
    there is a fragment to sample. *)
Definition constructed (self : ArrowParquetDatasource) : Prop :=
  length (_pq_paths self) = length (_pq_fragments self)
  /\ (_pq_fragments self <> [] -> exists r, _encoding_ratio self = Fin r).

End Datasource.

Arguments _metadata {handle Schema Udf ArgValue Generator} a.
Arguments _pq_fragments {handle Schema Udf ArgValue Generator} a.
Arguments _pq_paths {handle Schema Udf ArgValue Generator} a.
Arguments _schema {handle Schema Udf ArgValue Generator} a.
Arguments _inferred_schema {handle Schema Udf ArgValue Generator} a.
Arguments _encoding_ratio {handle Schema Udf ArgValue Generator} a.
Arguments _default_read_batch_size_rows {handle Schema Udf ArgValue Generator} a.
Arguments _file_metadata_shuffler {handle Schema Udf ArgValue Generator} a.
Arguments _arrow_parquet_args {handle Schema Udf ArgValue Generator} a.
Arguments set_metadata {handle Schema Udf ArgValue Generator} self m.
Arguments set_shuffler {handle Schema Udf ArgValue Generator} self g.
Arguments estimate_inmemory_data_size {handle Schema Udf ArgValue Generator} self.
Arguments sum_total_byte_size total_size metadata : simpl nomatch.
Arguments pad_metadata {handle Schema Udf ArgValue Generator} self.
Arguments constructed {handle Schema Udf ArgValue Generator} self.
Arguments after_planning {handle Schema Udf ArgValue Generator} permutation self.
Arguments planned_order {handle Schema Udf ArgValue Generator} permutation self.
Arguments task_fragments {handle Schema Udf ArgValue} r.
Arguments task_metadata {handle Schema Udf ArgValue} r.
Arguments make_read_task {handle Schema Udf ArgValue Generator} meta_provider self fragments paths metadata.
Arguments read_tasks_loop {handle Schema Udf ArgValue Generator} meta_provider self sections.
Arguments ordered_files {handle Schema Udf ArgValue Generator} permutation self.
Arguments get_read_tasks {handle Schema Udf ArgValue Generator} permutation meta_provider self parallelism.

(** ** Construction of the datasource *)

Section Construction.

Variable handle : Type.
Variable Schema : Type.
Variable Udf : Type.
Variable ArgValue : Type.
Variable Generator : Type.

Definition Fragment : Type := ParquetFileFragment (option (list string)) Schema.

(** What the constructor reads of [pq.ParquetDataset]. *)
Record ParquetDataset : Type := {
  fragments : list Fragment;
  schema : Schema
}.

(** The arguments of [__init__].  [arrow_parquet_args] holds a ["schema"]
    and a ["columns"] entry, which the constructor pops into [arg_schema] and
    [arg_columns]; [arg_parquet_args] is what is left of it once
    ["dataset_kwargs"] is popped too. *)
Record init_args : Type := {
  arg_schema : option Schema;
  arg_columns : option (list string);
  arg_parquet_args : list (string * option ArgValue);
  arg_block_udf : option Udf;
  arg_shuffle_files : bool;                (* shuffle == "files" *)
  arg_include_paths : bool;
  arg_path_root : string
}.

(** The collaborators the constructor calls, each with the outcome of the
    call. *)
Record environment : Type := {
  is_local_scheme : bool;
  ray_client_connected : bool;
  (* pq.ParquetDataset(paths, ..) on the resolved and filtered paths *)
  open_dataset : result ParquetDataset;
  (* the message of the OSError that _handle_read_os_error raises *)
  _handle_read_os_error : string -> string;
  (* pa.schema([schema.field(column) for column in columns], ..) *)
  select_fields : Schema -> list string -> result Schema;
  (* _block_udf(dummy_table).schema.with_metadata(..); None when it raises *)
  udf_schema : Udf -> Schema -> option Schema;
  prefetch_file_metadata :
    list Fragment -> result (option (list PrefetchedMetadata));
  serialize : Fragment -> handle;          (* _SerializedFragment(p) *)
  default_rng : Generator;                 (* np.random.default_rng() *)
  (* the remote run of _sample_fragment on one handle *)
  sample_remote : option (list string) -> Schema -> handle -> result _SampleInfo;
  decoding_size_estimation : bool;
  target_max_block_size : Z
}.

(** The calls made to the collaborators, in order. *)
Inductive init_event : Type :=
| EvOpenDataset
| EvPrefetch
| EvSample (sample : handle).

(** Computations that may raise and that record the calls they make. *)
Definition M (A : Type) : Type := list init_event -> result A * list init_event.

Definition ret {A} (a : A) : M A := fun tr => (Ok a, tr).
Definition raise {A} (e : exn) : M A := fun tr => (Raise e, tr).
Definition lift {A} (r : result A) : M A := fun tr => (r, tr).
Definition emit (ev : init_event) : M unit := fun tr => (Ok tt, tr ++ [ev]).
Definition bindM {A B} (m : M A) (k : A -> M B) : M B :=
  fun tr =>
    match m tr with
    | (Ok a, tr') => k a tr'
    | (Raise e, tr') => (Raise e, tr')
    end.

Notation "x <~ m ;; k" := (bindM m (fun x => k))
  (at level 61, m at next level, right associativity).

Variable env : environment.
Variable args : init_args.

Definition call_open_dataset : M ParquetDataset :=
  _ <~ emit EvOpenDataset ;;
  match open_dataset env with
  | Ok pq_ds => ret pq_ds
  | Raise (OSError msg) => raise (OSError (_handle_read_os_error env msg))
  | Raise e => raise e
  end.

(** The [try] around [meta_provider.prefetch_file_metadata]. *)
Definition call_prefetch (pq_ds : ParquetDataset)
    : M (list (option PrefetchedMetadata)) :=
  _ <~ emit EvPrefetch ;;
  match prefetch_file_metadata env (fragments pq_ds) with
  | Ok (Some fetched) => ret (map Some fetched)
  | Ok None => ret []
  | Raise (OSError msg) => raise (OSError (_handle_read_os_error env msg))
  | Raise (ArrowInvalid msg) =>
      if contains "Parquet file size is 0 bytes" msg
      then raise (InvalidFile ("Invalid Parquet file. " ++ msg))
      else raise (ArrowInvalid msg)
  | Raise e => raise e
  end.

Fixpoint launch_samples (file_samples : list handle) : M unit :=
  match file_samples with
  | [] => ret tt
  | sample :: rest => _ <~ emit (EvSample sample) ;; launch_samples rest
  end.

(** [_sample_fragments], on the fields of the datasource it reads. *)
Definition _sample_fragments (pq_fragments : list handle)
    (columns : option (list string)) (schema : Schema)
    : M (list _SampleInfo) :=
  let num_files := Z.of_nat (length pq_fragments) in
  idxs <~ lift (sample_indices num_files) ;;
  file_samples <~ lift (mapM (py_getitem pq_fragments) idxs) ;;
  _ <~ launch_samples file_samples ;;
  lift (mapM (sample_remote env columns schema) file_samples).

Definition truthy (columns : option (list string)) : bool :=
  match columns with
  | Some (_ :: _) => true
  | _ => false
  end.

(** The schema the datasource reads with: the one given or the one of the
    dataset, restricted to the columns when some are given. *)
Definition select_schema (pq_ds : ParquetDataset) : result Schema :=
  let columns := arg_columns args in
  let schema0 :=
    match arg_schema args with
    | None => schema pq_ds
    | Some s => s
    end in
  if truthy columns
  then select_fields env schema0 (match columns with Some c => c | None => [] end)
  else Ok schema0.

(** The constructor.  The resolution and the filtering of the paths, which
    prepare the argument of [pq.ParquetDataset], are taken as done, and so is
    the choice of the scheduling strategy, which only decorates the remote
    calls. *)
Definition __init__ : M (ArrowParquetDatasource handle Schema Udf ArgValue Generator) :=
  let supports_distributed_reads := negb (is_local_scheme env) in
  if negb supports_distributed_reads && ray_client_connected env
  then raise (ValueError "Because you're using Ray Client, read tasks scheduled on the Ray cluster can't access your local files.")
  else
    pq_ds <~ call_open_dataset ;;
    let columns := arg_columns args in
    schema1 <~ lift (select_schema pq_ds) ;;
    let inferred_schema :=
      match arg_block_udf args with
      | Some udf =>
          match udf_schema env udf schema1 with
          | Some s => s
          | None => schema1
          end
      | None => schema1
      end in
    metadata <~ call_prefetch pq_ds ;;
    let pq_fragments := map (serialize env) (fragments pq_ds) in
    let pq_paths := map (fun p => path p) (fragments pq_ds) in
    let shuffler :=
      if arg_shuffle_files args then Some (default_rng env) else None in
    sample_infos <~ _sample_fragments pq_fragments columns schema1 ;;
    encoding_ratio <~
      lift (_estimate_files_encoding_ratio (decoding_size_estimation env)
              sample_infos) ;;
    default_read_batch_size_rows <~
      lift (_estimate_default_read_batch_size_rows
              (target_max_block_size env) sample_infos) ;;
    ret {| _supports_distributed_reads := supports_distributed_reads;
           _metadata := metadata;
           _pq_fragments := pq_fragments;
           _pq_paths := pq_paths;
           _inferred_schema := inferred_schema;
           _block_udf := arg_block_udf args;
           _columns := columns;
           _schema := schema1;
           _arrow_parquet_args := arg_parquet_args args;
           _file_metadata_shuffler := shuffler;
           _include_paths := arg_include_paths args;
           _path_root := arg_path_root args;
           _encoding_ratio := encoding_ratio;
           _default_read_batch_size_rows := default_read_batch_size_rows |}.

End Construction.

Arguments EvOpenDataset {handle}.
Arguments EvPrefetch {handle}.
Arguments EvSample {handle} sample.
Arguments fragments {Schema} p.
Arguments schema {Schema} p.
Arguments arg_schema {Schema Udf ArgValue} i.
Arguments arg_columns {Schema Udf ArgValue} i.
Arguments arg_parquet_args {Schema Udf ArgValue} i.
Arguments arg_block_udf {Schema Udf ArgValue} i.
Arguments arg_shuffle_files {Schema Udf ArgValue} i.
Arguments arg_include_paths {Schema Udf ArgValue} i.
Arguments arg_path_root {Schema Udf ArgValue} i.
Arguments is_local_scheme {handle Schema Udf Generator} e.
Arguments ray_client_connected {handle Schema Udf Generator} e.
Arguments open_dataset {handle Schema Udf Generator} e.
Arguments _handle_read_os_error {handle Schema Udf Generator} e.
Arguments select_fields {handle Schema Udf Generator} e.
Arguments udf_schema {handle Schema Udf Generator} e.
Arguments prefetch_file_metadata {handle Schema Udf Generator} e.
Arguments serialize {handle Schema Udf Generator} e.
Arguments default_rng {handle Schema Udf Generator} e.
Arguments sample_remote {handle Schema Udf Generator} e.
Arguments decoding_size_estimation {handle Schema Udf Generator} e.
Arguments target_max_block_size {handle Schema Udf Generator} e.
Arguments ret {handle A} a.
Arguments raise {handle A} e.
Arguments lift {handle A} r.
Arguments emit {handle} ev.
Arguments bindM {handle A B} m k.
Arguments call_open_dataset {handle Schema Udf Generator} env.
Arguments call_prefetch {handle Schema Udf Generator} env pq_ds.
Arguments launch_samples {handle} file_samples.
Arguments _sample_fragments {handle Schema Udf Generator} env pq_fragments columns schema.
Arguments select_schema {handle Schema Udf ArgValue Generator} env args pq_ds.
Arguments __init__ {handle Schema Udf ArgValue Generator} env args.

Arguments _supports_distributed_reads {handle Schema Udf ArgValue Generator} a.
Arguments _block_udf {handle Schema Udf ArgValue Generator} a.
Arguments _columns {handle Schema Udf ArgValue Generator} a.
Arguments _include_paths {handle Schema Udf ArgValue Generator} a.
Arguments _path_root {handle Schema Udf ArgValue Generator} a.

(** Whether a row filter is configured:
    [self._arrow_parquet_args.get("filter") is not None]. *)
Definition has_filter {ArgValue : Type}
    (arrow_parquet_args : list (string * option ArgValue)) : bool :=
  match dict_get "filter" arrow_parquet_args with
  | Some (Some _) => true
  | _ => false
  end.

(** ** Reading the fragments of a task *)

(** [d.pop(key, default)] on a dict kept as an association list: the value
    of the key when it is present, and the dict without the key. *)
Fixpoint dict_remove {V} (key : string) (d : list (string * V))
    : list (string * V) :=
  match d with
  | [] => []
  | (k, v) :: rest =>
      if String.eqb k key then dict_remove key rest
      else (k, v) :: dict_remove key rest
  end.

Definition dict_pop {V} (key : string) (d : list (string * V))
    : option V * list (string * V) :=
  (dict_get key d, dict_remove key d).

(** What iterating [_read_fragments] to its end gives: the tables yielded,
    or the failed [assert], or the exception of the resolver. *)
Inductive read_outcome (Table : Type) : Type :=
| Yielded (tables : list Table)
| AssertionError
| Propagated (e : exn).

Arguments Yielded {Table} tables.
Arguments AssertionError {Table}.
Arguments Propagated {Table} e.

Arguments task_block_udf {handle Schema Udf ArgValue} r.
Arguments task_arrow_parquet_args {handle Schema Udf ArgValue} r.
Arguments task_default_read_batch_size_rows {handle Schema Udf ArgValue} r.
Arguments task_columns {handle Schema Udf ArgValue} r.
Arguments task_schema {handle Schema Udf ArgValue} r.
Arguments task_path_root {handle Schema Udf ArgValue} r.
Arguments task_include_paths {handle Schema Udf ArgValue} r.

(** What the reader uses of a live fragment, of pyarrow's tables and of
    [awswrangler._arrow]; these calls are taken to return. *)
Record reader_ops (fragment Schema Udf ArgValue Table Batch Value : Type)
    : Type := {
  fragment_path : fragment -> string;
  (* the items of _get_partition_keys(fragment.partition_expression) *)
  partition_keys : fragment -> list (string * Value);
  (* fragment.to_batches(use_threads=.., columns=.., schema=..,
     batch_size=.., **arrow_parquet_args) *)
  to_batches_with :
    fragment -> option ArgValue + bool -> option (list string) -> Schema
    -> option ArgValue + pyfloat -> list (string * option ArgValue)
    -> list Batch;
  (* pa.Table.from_batches([batch], schema=schema) *)
  from_batches : Batch -> Schema -> Table;
  _add_table_partitions : Table -> string -> string -> Table;
  (* table.set_column(table.schema.get_field_index(col), col,
     pa.array([value] * len(table))) *)
  set_partition_column : Table -> string -> Value -> Table;
  (* table.append_column("path", [[fragment.path]] * len(table)) *)
  append_path_column : Table -> string -> Table;
  table_num_rows : Table -> Z;
  apply_udf : Udf -> Table -> Table
}.

Arguments fragment_path {fragment Schema Udf ArgValue Table Batch Value} r.
Arguments partition_keys {fragment Schema Udf ArgValue Table Batch Value} r.
Arguments to_batches_with {fragment Schema Udf ArgValue Table Batch Value} r.
Arguments from_batches {fragment Schema Udf ArgValue Table Batch Value} r.
Arguments _add_table_partitions {fragment Schema Udf ArgValue Table Batch Value} r.
Arguments set_partition_column {fragment Schema Udf ArgValue Table Batch Value} r.
Arguments append_path_column {fragment Schema Udf ArgValue Table Batch Value} r.
Arguments table_num_rows {fragment Schema Udf ArgValue Table Batch Value} r.
Arguments apply_udf {fragment Schema Udf ArgValue Table Batch Value} r.

(** [columns and col not in columns]: the partition column is passed over. *)
Definition passes_over (columns : option (list string)) (col : string) : bool :=
  match columns with
  | Some (c :: cs) => negb (existsb (String.eqb col) (c :: cs))
  | _ => false
  end.

Section Reading.

Variable handle : Type.
Variable fragment : Type.
Variable Schema : Type.
Variable Udf : Type.
Variable ArgValue : Type.
Variable Table : Type.
Variable Batch : Type.
Variable Value : Type.

Variable deserialize : nat -> handle -> result fragment.
Variable random : nat -> Q.
Variable ops : reader_ops fragment Schema Udf ArgValue Table Batch Value.

(** The loop over [part.items()]. *)
Fixpoint fill_partitions (columns : option (list string))
    (part : list (string * Value)) (table : Table) : Table :=
  match part with
  | [] => table
  | (col, value) :: rest =>
      if passes_over columns col then fill_partitions columns rest table
      else fill_partitions columns rest
             (set_partition_column ops table col value)
  end.

(** The body of [for batch in batches]: the table yielded for the batch, if
    one is. *)
Definition read_batch (block_udf : option Udf)
    (columns : option (list string)) (schema : Schema) (path_root : string)
    (include_paths : bool) (fragment0 : fragment) (batch : Batch)
    : list Table :=
  let table :=
    _add_table_partitions ops (from_batches ops batch schema)
      ("s3://" ++ fragment_path ops fragment0) path_root in
  let table := fill_partitions columns (partition_keys ops fragment0) table in
  let table :=
    if include_paths
    then append_path_column ops table (fragment_path ops fragment0)
    else table in
  if 0 <? table_num_rows ops table then
    match block_udf with
    | Some udf => [apply_udf ops udf table]
    | None => [table]
    end
  else [].

(** The body of [for fragment in fragments]. *)
Definition read_fragment (block_udf : option Udf)
    (arrow_parquet_args : list (string * option ArgValue))
    (use_threads : option ArgValue + bool)
    (batch_size : option ArgValue + pyfloat)
    (columns : option (list string)) (schema : Schema) (path_root : string)
    (include_paths : bool) (fragment0 : fragment) : list Table :=
  flat_map
    (read_batch block_udf columns schema path_root include_paths fragment0)
    (to_batches_with ops fragment0 use_threads columns schema batch_size
       arrow_parquet_args).

(** [_read_fragments], iterated to its end: the outcome, the dict
    [arrow_parquet_args] as the pops leave it, and the world of the
    resolver. *)
Definition _read_fragments (block_udf : option Udf)
    (arrow_parquet_args : list (string * option ArgValue))
    (default_read_batch_size_rows : pyfloat)
    (columns : option (list string)) (schema : Schema) (path_root : string)
    (serialized_fragments : list handle) (include_paths : bool) (w : world)
    : read_outcome Table * list (string * option ArgValue) * world :=
  let (r, w1) :=
    _deserialize_fragments_with_retry deserialize random
      serialized_fragments w in
  match r with
  | Raise e => (Propagated e, arrow_parquet_args, w1)
  | Ok fragments =>
      if (0 <? length fragments)%nat then
        let (popped_threads, args1) :=
          dict_pop "use_threads" arrow_parquet_args in
        let use_threads :=
          match popped_threads with
          | Some v => inl v
          | None => inr false
          end in
        let (popped_size, args2) := dict_pop "batch_size" args1 in
        let batch_size :=
          match popped_size with
          | Some v => inl v
          | None => inr default_read_batch_size_rows
          end in
        (Yielded
           (flat_map
              (read_fragment block_udf args2 use_threads batch_size columns
                 schema path_root include_paths)
              fragments),
         args2, w1)
      else (AssertionError, arrow_parquet_args, w1)
  end.

(** The read function of a [ReadTask]: [_read_fragments] on the arguments
    bound when the task was made.  The dict bound as [arrow_parquet_args] is
    the one object that the datasource and all of its tasks hold, and
    [_read_fragments] pops from it: a run finds it as the earlier runs in the
    same process left it.  [shared_args] is its content when the run
    starts. *)
Definition run_read_task (task : ReadTask handle Schema Udf ArgValue)
    (shared_args : list (string * option ArgValue)) (w : world)
    : read_outcome Table * list (string * option ArgValue) * world :=
  _read_fragments (task_block_udf task) shared_args
    (task_default_read_batch_size_rows task) (task_columns task)
    (task_schema task) (task_path_root task) (task_fragments task)
    (task_include_paths task) w.

(** The table the loop body builds from one batch, before its row count is
    looked at. *)
Definition build_table (columns : option (list string)) (schema : Schema)
    (path_root : string) (include_paths : bool) (fragment0 : fragment)
    (batch : Batch) : Table :=
  let table :=
    _add_table_partitions ops (from_batches ops batch schema)
      ("s3://" ++ fragment_path ops fragment0) path_root in
  let table := fill_partitions columns (partition_keys ops fragment0) table in
  if include_paths
  then append_path_column ops table (fragment_path ops fragment0)
  else table.

End Reading.

Arguments fill_partitions {fragment Schema Udf ArgValue Table Batch Value} ops columns part table.
Arguments read_batch {fragment Schema Udf ArgValue Table Batch Value} ops block_udf columns schema path_root include_paths fragment0 batch.
Arguments read_fragment {fragment Schema Udf ArgValue Table Batch Value} ops block_udf arrow_parquet_args use_threads batch_size columns schema path_root include_paths fragment0.
Arguments _read_fragments {handle fragment Schema Udf ArgValue Table Batch Value} deserialize random ops block_udf arrow_parquet_args default_read_batch_size_rows columns schema path_root serialized_fragments include_paths w.
Arguments run_read_task {handle fragment Schema Udf ArgValue Table Batch Value} deserialize random ops task shared_args w.
Arguments build_table {fragment Schema Udf ArgValue Table Batch Value} ops columns schema path_root include_paths fragment0 batch.


(** ** The records of the retrying resolver *)

(** The records the loop writes from attempt [i] (counted from 0) on, with
    the interval [min_interval] it holds there, over the [n] calls from the
    [k]-th on: one record per failed call, up to the first success. *)
Fixpoint expected_log {handle fragment : Type}
    (deserialize : nat -> handle -> result fragment)
    (serialized_fragments : list handle)
    (i : nat) (min_interval : Q) (k n : nat) : list log_entry :=
  match n with
  | O => []
  | S n' =>
      match outcome deserialize serialized_fragments k with
      | Ok _ => []
      | Raise e =>
          {| log_attempt := i + 1;
             log_retry_after :=
               if Nat.eqb i (FILE_READING_RETRY - 1) then None
               else Some min_interval;
             log_dump_handles := Nat.eqb i 0;
             log_exc := e |}
          :: expected_log deserialize serialized_fragments (S i)
               (min_interval * 2)%Q (S k) n'
      end
  end.

(** ** Concrete instances used to exercise the model *)

(** A resolver that fails on its first seven calls and then succeeds. *)
Definition flaky_deserialize (k : nat) (h : nat) : result nat :=
  if (k <? 7)%nat then Raise (OtherException k) else Ok (h + 100)%nat.

Definition half_jitter (k : nat) : Q := 1 # 2.

Definition fresh_world : world :=
  {| attempts := 0; draws := 0; slept := []; logged := [] |}.

(** A sample whose statistics report no bytes on disk, and a sample of a
    batch that holds no bytes in memory. *)
Definition sample_without_disk_bytes : _SampleInfo :=
  {| actual_bytes_per_row := Some 3072%Q; estimated_bytes_per_row := Some 0%Q |}.

Definition sample_without_memory_bytes : _SampleInfo :=
  {| actual_bytes_per_row := Some 0%Q; estimated_bytes_per_row := Some 2%Q |}.

(** The sample of the specification's example: 6144 bytes in 2 rows read,
    2048 bytes for 1000 rows on disk. *)
(** A sample of rows of 2684.35456 bytes, a 50000th of 128 MiB. *)
Definition sample_2684_bytes : _SampleInfo :=
  {| actual_bytes_per_row := Some (134217728 # 50000)%Q;
     estimated_bytes_per_row := Some 1000%Q |}.

Definition sample_6144_2048 : _SampleInfo :=
  {| actual_bytes_per_row := Some (6144 # 2)%Q;
     estimated_bytes_per_row := Some (2048 # 1000)%Q |}.

Definition sample_absent : _SampleInfo :=
  {| actual_bytes_per_row := None; estimated_bytes_per_row := None |}.

(** A file of two row groups, 1000 rows and 2048 bytes in all, whose first
    batch has 2 rows in 6144 bytes. *)
Definition two_group_file : ParquetFileFragment unit unit :=
  {| path := "bucket/a.parquet";
     metadata :=
       {| num_rows := 1000;
          row_groups := [ {| rg_total_byte_size := 1024 |};
                          {| rg_total_byte_size := 1024 |} ] |};
     row_group_ids := None;
     scan := fun _ _ _ _ => [ {| nbytes := 6144; batch_num_rows := 2 |} ] |}.

Definition resolve_two_group_file (k : nat) (h : nat)
    : result (ParquetFileFragment unit unit) :=
  Ok two_group_file.

(** A generator whose state is a counter: the [g]-th permutation rotates
    the indices by [g]. *)
Definition rotating_permutation (g n : nat) : list nat * nat :=
  (skipn (g mod n) (seq 0 n) ++ firstn (g mod n) (seq 0 n), S g).

Definition no_metadata_provider (paths : list string) (schema : unit)
    (num_fragments : nat) (prefetched : list (option PrefetchedMetadata))
    : BlockMetadata :=
  {| meta_num_rows := None; size_bytes := None |}.

(** A datasource over the given handles, with no prefetched metadata. *)
Definition example_datasource (handles : list nat) (paths : list string)
    (shuffler : option nat) : ArrowParquetDatasource nat unit unit unit nat :=
  {| _supports_distributed_reads := true;
     _metadata := [];
     _pq_fragments := handles;
     _pq_paths := paths;
     _inferred_schema := tt;
     _block_udf := None;
     _columns := None;
     _schema := tt;
     _arrow_parquet_args := [];
     _file_metadata_shuffler := shuffler;
     _include_paths := false;
     _path_root := "bucket/";
     _encoding_ratio := Fin 2;
     _default_read_batch_size_rows := Fin 10000 |}.

Definition seven_paths : list string :=
  ["p0"; "p1"; "p2"; "p3"; "p4"; "p5"; "p6"]%string.

(** A file of no rows and no bytes, and a corpus that holds it. *)
Definition empty_file : Fragment unit :=
  {| path := "bucket/empty.parquet";
     metadata := {| num_rows := 0; row_groups := [] |};
     row_group_ids := None;
     scan := fun _ _ _ _ => [] |}.

Definition plain_args : init_args unit unit unit :=
  {| arg_schema := None; arg_columns := None; arg_parquet_args := [];
     arg_block_udf := None; arg_shuffle_files := false;
     arg_include_paths := false; arg_path_root := "bucket/" |}.



Definition metadata_300_bytes : list (option PrefetchedMetadata) :=
  [ Some {| total_byte_size := 100 |}; Some {| total_byte_size := 200 |} ].

(** Two small files, and environments over a corpus of none and of these
    two; in the second the metadata provider prefetches nothing. *)
Definition file_a : Fragment unit :=
  {| path := "bucket/a.parquet";
     metadata := {| num_rows := 1000;
                    row_groups := [ {| rg_total_byte_size := 2048 |} ] |};
     row_group_ids := None;
     scan := fun _ _ _ _ => [ {| nbytes := 6144; batch_num_rows := 2 |} ] |}.

Definition file_b : Fragment unit :=
  {| path := "bucket/b.parquet";
     metadata := {| num_rows := 1000;
                    row_groups := [ {| rg_total_byte_size := 2048 |} ] |};
     row_group_ids := None;
     scan := fun _ _ _ _ => [ {| nbytes := 6144; batch_num_rows := 2 |} ] |}.

Definition corpus_environment (files : list (Fragment unit))
    (prefetched : option (list PrefetchedMetadata))
    : environment string unit unit nat :=
  {| is_local_scheme := false;
     ray_client_connected := false;
     open_dataset := Ok {| fragments := files; schema := tt |};
     _handle_read_os_error := fun msg => msg;
     select_fields := fun s _ => Ok s;
     udf_schema := fun _ _ => None;
     prefetch_file_metadata := fun _ => Ok prefetched;
     serialize := fun p => path p;
     default_rng := 1%nat;
     sample_remote := fun _ _ _ => Ok sample_6144_2048;
     decoding_size_estimation := true;
     target_max_block_size := 134217728 |}.

Definition shuffle_args : init_args unit unit unit :=
  {| arg_schema := None; arg_columns := None; arg_parquet_args := [];
     arg_block_udf := None; arg_shuffle_files := true;
     arg_include_paths := false; arg_path_root := "bucket/" |}.

(** A resolver that gives the file without rows. *)
Definition resolve_empty_file (k : nat) (h : nat) : result (Fragment unit) :=
  Ok empty_file.

(** A provider that reports one row and 1000 bytes for each fragment. *)
Definition counting_provider (paths : list string) (schema : unit)
    (num_fragments : nat) (prefetched : list (option PrefetchedMetadata))
    : BlockMetadata :=
  {| meta_num_rows := Some (Z.of_nat num_fragments);
     size_bytes := Some (1000 * Z.of_nat num_fragments) |}.

(** An environment whose dataset and prefetch end as given. *)
Definition failing_environment (opened : result (ParquetDataset unit))
    (prefetched : result (option (list PrefetchedMetadata)))
    : environment string unit unit nat :=
  {| is_local_scheme := false;
     ray_client_connected := false;
     open_dataset := opened;
     _handle_read_os_error := fun msg => ("read failed: " ++ msg)%string;
     select_fields := fun s _ => Ok s;
     udf_schema := fun _ _ => None;
     prefetch_file_metadata := fun _ => prefetched;
     serialize := fun p => path p;
     default_rng := 1%nat;
     sample_remote := fun _ _ _ => Ok sample_6144_2048;
     decoding_size_estimation := true;
     target_max_block_size := 134217728 |}.

(** An environment over the two small files in which every sample is the
    given one. *)
Definition sampling_environment (sample : _SampleInfo)
    : environment string unit unit nat :=
  {| is_local_scheme := false;
     ray_client_connected := false;
     open_dataset := Ok {| fragments := [file_a; file_b]; schema := tt |};
     _handle_read_os_error := fun msg => msg;
     select_fields := fun s _ => Ok s;
     udf_schema := fun _ _ => None;
     prefetch_file_metadata := fun _ => Ok None;
     serialize := fun p => path p;
     default_rng := 1%nat;
     sample_remote := fun _ _ _ => Ok sample;
     decoding_size_estimation := true;
     target_max_block_size := 134217728 |}.

(** A reader over fragments that are numbers: a fragment gives a batch of 3
    rows when a batch size is configured and of 10000 rows otherwise, then a
    batch without rows; tables and batches are their row counts. *)
Definition row_count_reader : reader_ops nat unit unit unit Z Z unit :=
  {| fragment_path := fun _ => "bucket/a.parquet"%string;
     partition_keys := fun _ => [];
     to_batches_with :=
       fun _ _ _ _ batch_size _ =>
         match batch_size with
         | inl (Some _) => [3; 0]
         | _ => [10000; 0]
         end;
     from_batches := fun batch _ => batch;
     _add_table_partitions := fun table _ _ => table;
     set_partition_column := fun table _ _ => table;
     append_path_column := fun table _ => table;
     table_num_rows := fun table => table;
     apply_udf := fun _ table => table |}.

Definition resolve_number (k : nat) (h : nat) : result nat := Ok h.

(** * Properties *)

(** ** The retrying resolver *)

Section ResolverProperties.

Variable handle : Type.
Variable fragment : Type.
Variable deserialize : nat -> handle -> result fragment.
Variable random : nat -> Q.
Variable hs : list handle.

Local Abbreviation loop := (retry_loop deserialize random hs).
Local Abbreviation failures := (leading_failures deserialize hs).

Lemma Qeq_bool_pos (x : Q) : (0 < x)%Q -> Qeq_bool x 0 = false.
Proof.
  intros Hx. destruct (Qeq_bool x 0) eqn:E; [|reflexivity].
  apply Qeq_bool_eq in E. rewrite E in Hx. discriminate.
Qed.

(** Once the interval is positive the loop never draws again: it sleeps the
    current interval after each failure and doubles it. *)
Lemma retry_loop_positive (idxs : list nat) :
  forall (mi : Q) (fe : option exn) (w : world), (0 < mi)%Q ->
  let m := failures (attempts w) (length idxs) in
  let w' := snd (loop idxs mi fe w) in
  slept w' = slept w ++ doubling mi m
  /\ draws w' = draws w
  /\ length (logged w') = (length (logged w) + m)%nat
  /\ attempts w' =
     (attempts w + (if (m <? length idxs)%nat then S m else m))%nat.
Proof.
  induction idxs as [|i rest IH]; intros mi fe w Hmi; cbn zeta.
  - simpl. rewrite app_nil_r, !Nat.add_0_r. auto.
  - simpl. unfold outcome.
    destruct (mapM (deserialize (attempts w)) hs) as [v|e] eqn:E.
    + simpl. rewrite app_nil_r, Nat.add_0_r. repeat split; lia.
    + rewrite (Qeq_bool_pos mi Hmi).
      match goal with |- context [loop rest ?a ?b ?c] =>
        specialize (IH a b c) end.
      assert (Hpos : (0 < mi * 2)%Q).
      { apply Qmult_lt_0_compat; [assumption | reflexivity]. }
      specialize (IH Hpos). cbn zeta in IH. simpl in IH.
      destruct IH as (Hs & Hd & Hl & Ha).
      rewrite Hs, Hd, Hl, Ha. simpl.
      rewrite <- app_assoc, length_app. simpl.
      repeat split; try lia.
      change (S (failures (S (attempts w)) (length rest)) <? S (length rest))%nat
        with (failures (S (attempts w)) (length rest) <? length rest)%nat.
      destruct (failures (S (attempts w)) (length rest) <? length rest)%nat; lia.
Qed.

Lemma loop_attempts_step (i : nat) (rest : list nat) (mi : Q)
    (fe : option exn) (w : world) (e : exn) :
  outcome deserialize hs (attempts w) = Raise e ->
  exists mi' w',
    loop (i :: rest) mi fe w = loop rest mi' (Some e) w'
    /\ attempts w' = S (attempts w).
Proof.
  intros E. unfold outcome in E. simpl. rewrite E.
  destruct (Qeq_bool mi 0); simpl; eexists; eexists; split; reflexivity.
Qed.

(** The result when every remaining attempt fails: the exception of the last
    one. *)
Lemma retry_loop_all_fail (idxs : list nat) :
  forall (mi : Q) (fe : option exn) (w : world) (e : exn),
  (forall j, (j < length idxs)%nat ->
     exists e', outcome deserialize hs (attempts w + j) = Raise e') ->
  match length idxs with
  | O => fe = Some e
  | S n => outcome deserialize hs (attempts w + n) = Raise e
  end ->
  fst (loop idxs mi fe w) = Raise e
  /\ attempts (snd (loop idxs mi fe w)) = (attempts w + length idxs)%nat.
Proof.
  induction idxs as [|i rest IH]; intros mi fe w e Hall Hlast.
  - simpl in *. subst fe. split; [reflexivity | lia].
  - destruct (Hall 0%nat) as [e0 E0]; [simpl; lia|].
    rewrite Nat.add_0_r in E0.
    destruct (loop_attempts_step i rest mi fe w e0 E0) as (mi' & w' & -> & Hw').
    destruct (IH mi' (Some e0) w' e) as [Hr Ha].
    + intros j Hj. rewrite Hw'.
      destruct (Hall (S j)) as [e' E']; [simpl; lia|].
      exists e'. rewrite <- E'. f_equal. lia.
    + simpl in Hlast. destruct (length rest) as [|n] eqn:En.
      * rewrite Nat.add_0_r in Hlast. congruence.
      * rewrite Hw'. rewrite <- Hlast. f_equal. lia.
    + split; [exact Hr|]. rewrite Ha, Hw'. simpl. lia.
Qed.

(** The result when an attempt succeeds after [m] failures. *)
Lemma retry_loop_success (idxs : list nat) :
  forall (mi : Q) (fe : option exn) (w : world) (m : nat)
         (v : list fragment),
  (m < length idxs)%nat ->
  (forall j, (j < m)%nat ->
     exists e', outcome deserialize hs (attempts w + j) = Raise e') ->
  outcome deserialize hs (attempts w + m) = Ok v ->
  fst (loop idxs mi fe w) = Ok v
  /\ attempts (snd (loop idxs mi fe w)) = (attempts w + S m)%nat.
Proof.
  induction idxs as [|i rest IH]; intros mi fe w m v Hm Hfail Hok.
  - simpl in Hm. lia.
  - destruct m as [|m].
    + rewrite Nat.add_0_r in Hok. unfold outcome in Hok.
      simpl. rewrite Hok. simpl. split; [reflexivity | lia].
    + destruct (Hfail 0%nat) as [e0 E0]; [lia|].
      rewrite Nat.add_0_r in E0.
      destruct (loop_attempts_step i rest mi fe w e0 E0)
        as (mi' & w' & -> & Hw').
      destruct (IH mi' (Some e0) w' m v) as [Hr Ha].
      * simpl in Hm. lia.
      * intros j Hj. rewrite Hw'.
        destruct (Hfail (S j)) as [e' E']; [lia|].
        exists e'. rewrite <- E'. f_equal. lia.
      * rewrite Hw'. rewrite <- Hok. f_equal. lia.
      * split; [exact Hr|]. rewrite Ha, Hw'. lia.
Qed.

Lemma leading_failures_all (n : nat) :
  forall k,
  (forall j, (j < n)%nat ->
     exists e', outcome deserialize hs (k + j) = Raise e') ->
  failures k n = n.
Proof.
  induction n as [|n IH]; intros k Hall; [reflexivity|].
  simpl. destruct (Hall 0%nat) as [e0 E0]; [lia|].
  rewrite Nat.add_0_r in E0. rewrite E0. f_equal. apply IH.
  intros j Hj. destruct (Hall (S j)) as [e' E']; [lia|].
  exists e'. rewrite <- E'. f_equal. lia.
Qed.

Lemma leading_failures_until (n : nat) :
  forall k m v, (m < n)%nat ->
  (forall j, (j < m)%nat ->
     exists e', outcome deserialize hs (k + j) = Raise e') ->
  outcome deserialize hs (k + m) = Ok v ->
  failures k n = m.
Proof.
  induction n as [|n IH]; intros k m v Hm Hfail Hok; [lia|].
  simpl. destruct m as [|m].
  - rewrite Nat.add_0_r in Hok. rewrite Hok. reflexivity.
  - destruct (Hfail 0%nat) as [e0 E0]; [lia|].
    rewrite Nat.add_0_r in E0. rewrite E0. f_equal.
    apply (IH (S k) m v); [lia| |].
    + intros j Hj. destruct (Hfail (S j)) as [e' E']; [lia|].
      exists e'. rewrite <- E'. f_equal. lia.
    + rewrite <- Hok. f_equal. lia.
Qed.

Lemma leading_failures_le (n : nat) : forall k, (failures k n <= n)%nat.
Proof.
  induction n as [|n IH]; intros k; simpl; [lia|].
  destruct (outcome deserialize hs k); [lia|]. specialize (IH (S k)). lia.
Qed.

Lemma doubling_length (n : nat) : forall x, length (doubling x n) = n.
Proof. induction n as [|n IH]; intros x; simpl; [|rewrite IH]; reflexivity. Qed.

Lemma doubling_nth (n : nat) :
  forall (x : Q) (k : nat), (k < n)%nat ->
  (nth k (doubling x n) 0 == x * 2 ^ Z.of_nat k)%Q.
Proof.
  induction n as [|n IH]; intros x k Hk; [lia|].
  destruct k as [|k]; simpl nth.
  - change (2 ^ Z.of_nat 0)%Q with 1%Q. ring.
  - rewrite IH by lia.
    rewrite Nat2Z.inj_succ, <- Z.add_1_r.
    rewrite Qpower_plus by discriminate.
    change (2 ^ 1)%Q with 2%Q. ring.
Qed.

Lemma leading_failures_S (k n : nat) :
  failures k (S n) =
  match outcome deserialize hs k with
  | Ok _ => O
  | Raise _ => S (failures (S k) n)
  end.
Proof. reflexivity. Qed.

(** The first failure draws the jitter, sleeps [1 + u] and goes on with twice
    that. *)
Lemma loop_first_failure (i : nat) (rest : list nat) (fe : option exn)
    (w : world) (e : exn) :
  outcome deserialize hs (attempts w) = Raise e ->
  exists entry,
    loop (i :: rest) 0 fe w =
    loop rest ((1 + random (draws w)) * 2)%Q (Some e)
      {| attempts := S (attempts w); draws := S (draws w);
         slept := slept w ++ [(1 + random (draws w))%Q];
         logged := logged w ++ [entry] |}.
Proof.
  intros E. unfold outcome in E. eexists. simpl. rewrite E.
  change (Qeq_bool 0 0) with true. cbn. reflexivity.
Qed.

(** The whole call: the world after it, in terms of the number of failed
    attempts. *)
Lemma retry_world (w : world) :
  (0 <= random (draws w))%Q ->
  let m := failures (attempts w) FILE_READING_RETRY in
  let w' := snd (_deserialize_fragments_with_retry deserialize random hs w) in
  slept w' = slept w ++ doubling (1 + random (draws w))%Q m
  /\ (draws w' = draws w + (if (m =? 0)%nat then 0 else 1))%nat
  /\ length (logged w') = (length (logged w) + m)%nat
  /\ attempts w' =
     (attempts w + (if (m <? FILE_READING_RETRY)%nat then S m else m))%nat.
Proof.
  intros Hr. unfold _deserialize_fragments_with_retry.
  change (seq 0 FILE_READING_RETRY) with (0%nat :: seq 1 7).
  change FILE_READING_RETRY with (S 7).
  cbn zeta. rewrite leading_failures_S.
  destruct (outcome deserialize hs (attempts w)) as [v|e] eqn:E.
  - unfold outcome in E. simpl retry_loop. rewrite E. simpl.
    rewrite app_nil_r, !Nat.add_0_r. repeat split; lia.
  - destruct (loop_first_failure 0%nat (seq 1 7) None w e E) as [entry ->].
    match goal with |- context [loop (seq 1 7) ?a ?b ?c] =>
      pose proof (retry_loop_positive (seq 1 7) a b c) as H end.
    assert (Hpos : (0 < (1 + random (draws w)) * 2)%Q).
    { apply Qmult_lt_0_compat; [|reflexivity].
      apply Qlt_le_trans with (y := 1%Q); [reflexivity|].
      rewrite <- (Qplus_0_r 1) at 1. apply Qplus_le_r. exact Hr. }
    specialize (H Hpos). cbn zeta in H.
    change (length (seq 1 7)) with 7%nat in H.
    cbn [attempts draws slept logged] in H.
    destruct H as (Hs & Hd & Hl & Ha).
    rewrite length_app in Hl. change (length [entry]) with 1%nat in Hl.
    split; [|split; [|split]].
    + rewrite Hs, <- app_assoc. reflexivity.
    + rewrite Hd. cbn [Nat.eqb]. lia.
    + rewrite Hl. lia.
    + rewrite Ha.
      change (S (failures (S (attempts w)) 7) <? 8)%nat
        with (failures (S (attempts w)) 7 <? 7)%nat.
      destruct (failures (S (attempts w)) 7 <? 7)%nat; lia.
Qed.

End ResolverProperties.

(** C2. [_deserialize_fragments_with_retry] makes at most 8 attempts and
    logs one record per failed attempt; the waits it sleeps are
    [(1 + u) * 2 ^ k] for the [k]-th failure, where [u] is the single value
    drawn from [random.random()] at the first failure (at most one draw per
    call, so the jitter is never drawn again); when the resolver fails 7
    times and then succeeds the successful result is returned with exactly 7
    records logged; when it fails 8 times the exception of the last attempt
    is raised unchanged after exactly 8 attempts. *)
Theorem deserialize_fragments_with_retry_policy
    (handle fragment : Type)
    (deserialize : nat -> handle -> result fragment) (random : nat -> Q)
    (random_range : forall k, (0 <= random k < 1)%Q)
    (hs : list handle) (w : world) :
  let run := _deserialize_fragments_with_retry deserialize random hs w in
  let m := leading_failures deserialize hs (attempts w) FILE_READING_RETRY in
  (attempts (snd run) <= attempts w + 8)%nat
  /\ length (logged (snd run)) = (length (logged w) + m)%nat
  /\ (draws (snd run) <= draws w + 1)%nat
  /\ (exists waits,
        slept (snd run) = slept w ++ waits
        /\ length waits = m
        /\ forall k, (k < m)%nat ->
             (nth k waits 0 == (1 + random (draws w)) * 2 ^ Z.of_nat k)%Q)
  /\ (forall v,
        (forall j, (j < 7)%nat ->
           exists e, outcome deserialize hs (attempts w + j) = Raise e) ->
        outcome deserialize hs (attempts w + 7) = Ok v ->
        fst run = Ok v
        /\ length (logged (snd run)) = (length (logged w) + 7)%nat
        /\ attempts (snd run) = (attempts w + 8)%nat)
  /\ (forall e,
        (forall j, (j < 8)%nat ->
           exists e', outcome deserialize hs (attempts w + j) = Raise e') ->
        outcome deserialize hs (attempts w + 7) = Raise e ->
        fst run = Raise e
        /\ length (logged (snd run)) = (length (logged w) + 8)%nat
        /\ attempts (snd run) = (attempts w + 8)%nat).
Proof.
  intros run m.
  destruct (retry_world handle fragment deserialize random hs w)
    as (Hs & Hd & Hl & Ha); [apply random_range|].
  fold run in Hs, Hd, Hl, Ha. fold m in Hs, Hd, Hl, Ha.
  assert (Hm : (m <= 8)%nat) by apply leading_failures_le.
  change FILE_READING_RETRY with 8%nat in Ha.
  split; [|split; [|split; [|split; [|split]]]].
  - rewrite Ha. destruct (m <? 8)%nat eqn:E; [apply Nat.ltb_lt in E|]; lia.
  - exact Hl.
  - rewrite Hd. destruct (m =? 0)%nat; lia.
  - exists (doubling (1 + random (draws w))%Q m).
    split; [exact Hs|]. split; [apply doubling_length|].
    intros k Hk. apply doubling_nth. exact Hk.
  - intros v Hfail Hok.
    assert (E : m = 7%nat).
    { apply (leading_failures_until handle fragment deserialize hs 8
               (attempts w) 7 v); [lia | exact Hfail | exact Hok]. }
    destruct (retry_loop_success handle fragment deserialize random hs
                (seq 0 FILE_READING_RETRY) 0%Q None w 7 v)
      as [Hr Hat]; [simpl; lia | exact Hfail | exact Hok |].
    split; [exact Hr|]. split; [rewrite Hl, E; reflexivity | exact Hat].
  - intros e Hfail Hlast.
    assert (E : m = 8%nat).
    { apply (leading_failures_all handle fragment deserialize hs 8
               (attempts w)). exact Hfail. }
    destruct (retry_loop_all_fail handle fragment deserialize random hs
                (seq 0 FILE_READING_RETRY) 0%Q None w e)
      as [Hr Hat]; [exact Hfail | exact Hlast |].
    split; [exact Hr|]. split; [rewrite Hl, E; reflexivity | exact Hat].
Qed.

Lemma deserialize_fragments_with_retry_policy_witness :
  (forall k, (0 <= half_jitter k < 1)%Q)
  /\ fst (_deserialize_fragments_with_retry flaky_deserialize half_jitter
            [1%nat; 2%nat] fresh_world) = Ok [101%nat; 102%nat]
  /\ length (logged (snd (_deserialize_fragments_with_retry flaky_deserialize
                            half_jitter [1%nat; 2%nat] fresh_world))) = 7%nat.
Proof.
  assert (H : forall k, (0 <= half_jitter k < 1)%Q).
  { intros k. unfold half_jitter. split; [discriminate | reflexivity]. }
  split; [exact H|].
  pose proof (deserialize_fragments_with_retry_policy nat nat
                flaky_deserialize half_jitter H [1%nat; 2%nat] fresh_world)
    as P.
  cbn zeta in P.
  destruct P as (_ & _ & _ & _ & P & _).
  destruct (P [101%nat; 102%nat]) as (Hr & Hl & _).
  - intros j Hj. exists (OtherException j). simpl attempts.
    do 7 (destruct j as [|j]; [reflexivity|]). lia.
  - reflexivity.
  - split; [exact Hr | exact Hl].
Defined.

(** ** The estimators *)

Lemma mapM_map {A B} (f : A -> result B) (g : A -> B) (l : list A) :
  (forall x, In x l -> f x = Ok (g x)) -> mapM f l = Ok (map g l).
Proof.
  induction l as [|x l IH]; intros H; [reflexivity|].
  simpl. rewrite (H x (or_introl eq_refl)). simpl.
  rewrite IH; [reflexivity|]. intros y Hy. apply H. right. exact Hy.
Qed.

Lemma py_truediv_nonzero (a b : Q) :
  ~ (b == 0)%Q -> py_truediv a b = Ok (a / b)%Q.
Proof.
  intros Hb. unfold py_truediv. destruct (Qeq_bool b 0) eqn:E; [|reflexivity].
  apply Qeq_bool_eq in E. contradiction.
Qed.

Lemma py_floordiv_nonzero (a b : Q) :
  ~ (b == 0)%Q -> py_floordiv a b = Ok (Qfloor (a / b)).
Proof.
  intros Hb. unfold py_floordiv. destruct (Qeq_bool b 0) eqn:E; [|reflexivity].
  apply Qeq_bool_eq in E. contradiction.
Qed.

Lemma inject_nat_succ (n : nat) :
  (inject_Z (Z.of_nat (S n)) == inject_Z (Z.of_nat n) + 1)%Q.
Proof. rewrite Nat2Z.inj_succ, <- Z.add_1_r, inject_Z_plus. reflexivity. Qed.

Lemma Qsum_bounds (lo hi : Q) (l : list Q) :
  Forall (fun q => lo <= q <= hi)%Q l ->
  (inject_Z (Z.of_nat (length l)) * lo <= Qsum l
   <= inject_Z (Z.of_nat (length l)) * hi)%Q.
Proof.
  induction 1 as [|q l [Hlo Hhi] _ IH].
  - change (inject_Z (Z.of_nat (@length Q []))) with 0%Q.
    change (Qsum []) with 0%Q. split; lra.
  - change (Qsum (q :: l)) with (q + Qsum l)%Q.
    change (length (q :: l)) with (S (length l)).
    rewrite inject_nat_succ. destruct IH as [IHlo IHhi]. split; lra.
Qed.

Lemma inject_nat_pos {A} (l : list A) :
  l <> [] -> (0 < inject_Z (Z.of_nat (length l)))%Q.
Proof.
  intros Hl. destruct l as [|x l]; [contradiction|].
  change 0%Q with (inject_Z 0). rewrite <- Zlt_Qlt. simpl length. lia.
Qed.

(** The mean of a nonempty list lies between any bounds of its elements. *)
Lemma mean_bounds (lo hi : Q) (l : list Q) :
  l <> [] -> Forall (fun q => lo <= q <= hi)%Q l ->
  (lo <= Qsum l / inject_Z (Z.of_nat (length l)) <= hi)%Q.
Proof.
  intros Hne Hall. pose proof (inject_nat_pos l Hne) as Hpos.
  destruct (Qsum_bounds lo hi l Hall) as [Hlo Hhi]. split.
  - apply Qle_shift_div_l; [exact Hpos|]. lra.
  - apply Qle_shift_div_r; [exact Hpos|]. lra.
Qed.

Lemma np_mean_nonempty (l : list Q) :
  l <> [] -> np_mean l = Fin (Qsum l / inject_Z (Z.of_nat (length l)))%Q.
Proof. destruct l; [contradiction | reflexivity]. Qed.

(** C1, as the code has it.  When size estimation is disabled
    [_estimate_files_encoding_ratio] returns 5 whatever the samples: the
    list may be empty, and a sample may have a zero
    [estimated_bytes_per_row].  When it is enabled, for a nonempty list of
    samples none of which has a zero [estimated_bytes_per_row], the function
    returns a value that is at least 2: the per-sample ratio is
    [actual / estimated] when both fields are present and 2 otherwise, and
    the result is the mean of these ratios, replaced by 2 when the mean is
    below 2. *)
Theorem estimate_files_encoding_ratio_floor (sample_infos : list _SampleInfo) :
  _estimate_files_encoding_ratio false sample_infos = Ok (Fin 5%Q)
  /\ (sample_infos <> [] ->
      (forall s a e, In s sample_infos ->
         actual_bytes_per_row s = Some a ->
         estimated_bytes_per_row s = Some e ->
         ~ (e == 0)%Q) ->
      let ratios := map sample_ratio sample_infos in
      let mean := (Qsum ratios / inject_Z (Z.of_nat (length ratios)))%Q in
      mapM compute_encoding_ratio sample_infos = Ok ratios
      /\ (exists r,
            _estimate_files_encoding_ratio true sample_infos = Ok (Fin r)
            /\ (2 <= r)%Q
            /\ ((2 <= mean)%Q -> r = mean)
            /\ ((mean < 2)%Q -> r = 2%Q))).
Proof.
  split; [reflexivity|].
  intros Hne Hnz ratios mean.
  assert (Hmap : mapM compute_encoding_ratio sample_infos = Ok ratios).
  { apply mapM_map. intros s Hs. unfold compute_encoding_ratio, sample_ratio.
    destruct (actual_bytes_per_row s) as [a|] eqn:Ea;
      destruct (estimated_bytes_per_row s) as [e|] eqn:Ee; try reflexivity.
    apply py_truediv_nonzero. exact (Hnz s a e Hs Ea Ee). }
  split; [exact Hmap|].
  unfold _estimate_files_encoding_ratio. simpl negb. cbv iota.
  rewrite Hmap. simpl bind.
  assert (Hr : ratios <> []).
  { unfold ratios. destruct sample_infos; [contradiction | discriminate]. }
  rewrite (np_mean_nonempty ratios Hr). fold mean.
  unfold py_max.
  change (inject_Z PARQUET_ENCODING_RATIO_ESTIMATE_LOWER_BOUND) with 2%Q.
  destruct (Qle_bool 2 mean) eqn:E.
  - apply Qle_bool_iff in E. exists mean.
    split; [reflexivity|]. split; [exact E|].
    split; [reflexivity | intros Hlt; lra].
  - exists 2%Q. assert (Hlt : (mean < 2)%Q).
    { apply Qnot_le_lt. intros Hle. apply Qle_bool_iff in Hle. congruence. }
    split; [reflexivity|]. split; [lra|].
    split; [intros Hle; lra | reflexivity].
Qed.

Lemma estimate_files_encoding_ratio_floor_witness :
  [sample_6144_2048; sample_absent] <> []
  /\ (forall s a e, In s [sample_6144_2048; sample_absent] ->
        actual_bytes_per_row s = Some a -> estimated_bytes_per_row s = Some e ->
        ~ (e == 0)%Q)
  /\ (exists r,
        _estimate_files_encoding_ratio true [sample_6144_2048; sample_absent]
        = Ok (Fin r) /\ (2 <= r)%Q)
  /\ _estimate_files_encoding_ratio false [sample_without_disk_bytes]
     = Ok (Fin 5%Q)
  /\ _estimate_files_encoding_ratio false [] = Ok (Fin 5%Q).
Proof.
  assert (H1 : [sample_6144_2048; sample_absent] <> []) by discriminate.
  assert (H2 : forall s a e, In s [sample_6144_2048; sample_absent] ->
             actual_bytes_per_row s = Some a ->
             estimated_bytes_per_row s = Some e -> ~ (e == 0)%Q).
  { intros s a e [<-|[<-|[]]] Ha He; simpl in He; [|discriminate].
    injection He as <-. intros H. discriminate H. }
  split; [exact H1|]. split; [exact H2|]. split; [|split].
  - destruct (proj2 (estimate_files_encoding_ratio_floor
                       [sample_6144_2048; sample_absent]) H1 H2)
      as (_ & r & Hr & Hle & _).
    exists r. split; [exact Hr | exact Hle].
  - exact (proj1 (estimate_files_encoding_ratio_floor
                    [sample_without_disk_bytes])).
  - exact (proj1 (estimate_files_encoding_ratio_floor [])).
Defined.

(** C1 as stated fails on a sample whose [estimated_bytes_per_row] is 0:
    the division raises and no ratio is returned. *)
Lemma estimate_files_encoding_ratio_zero_estimate :
  [sample_without_disk_bytes] <> []
  /\ _estimate_files_encoding_ratio true [sample_without_disk_bytes]
     = Raise ZeroDivisionError
  /\ ~ (exists r,
          _estimate_files_encoding_ratio true [sample_without_disk_bytes]
          = Ok (Fin r) /\ (2 <= r)%Q).
Proof.
  split; [discriminate|]. split; [reflexivity|].
  intros (r & Hr & _). discriminate Hr.
Qed.

(** The example of the specification: one sample of 6144 bytes in 2 rows
    against 2048 bytes for 1000 rows gives 1500. *)
Example estimate_files_encoding_ratio_1500 :
  exists r, _estimate_files_encoding_ratio true [sample_6144_2048] = Ok (Fin r)
            /\ (r == 1500)%Q.
Proof. eexists. split; [reflexivity|]. reflexivity. Qed.

Lemma Qsum_const (c : Q) (l : list Q) :
  Forall (fun q => q = c) l ->
  (Qsum l == inject_Z (Z.of_nat (length l)) * c)%Q.
Proof.
  induction 1 as [|q l -> _ IH].
  - reflexivity.
  - change (Qsum (c :: l)) with (c + Qsum l)%Q.
    change (length (c :: l)) with (S (length l)).
    rewrite inject_nat_succ, IH. ring.
Qed.

(** C7, as the code has it.  For a nonempty list of samples none of which
    has a zero [actual_bytes_per_row], [_estimate_default_read_batch_size_rows]
    returns the mean of the per-sample contributions, each of which is 10000
    when [actual_bytes_per_row] is absent and otherwise the floor of
    [floor(target_max_block_size / 10) / actual_bytes_per_row] clamped to
    [1, 10000]; the result lies in [1, 10000], and is 10000 when every sample
    has [actual_bytes_per_row] absent. *)
Theorem estimate_default_read_batch_size_rows_bounds
    (target_max_block_size : Z) (sample_infos : list _SampleInfo) :
  sample_infos <> [] ->
  (forall s a, In s sample_infos ->
     actual_bytes_per_row s = Some a -> ~ (a == 0)%Q) ->
  let sizes := map (sample_batch_rows target_max_block_size) sample_infos in
  mapM (compute_batch_size_rows target_max_block_size) sample_infos = Ok sizes
  /\ Forall (fun z => 1 <= z <= 10000) sizes
  /\ exists r,
       _estimate_default_read_batch_size_rows target_max_block_size
         sample_infos = Ok (Fin r)
       /\ r = (Qsum (map inject_Z sizes)
               / inject_Z (Z.of_nat (length sizes)))%Q
       /\ (1 <= r <= 10000)%Q
       /\ ((forall s, In s sample_infos -> actual_bytes_per_row s = None) ->
           (r == 10000)%Q).
Proof.
  intros Hne Hnz sizes.
  assert (Hmap : mapM (compute_batch_size_rows target_max_block_size)
                   sample_infos = Ok sizes).
  { apply mapM_map. intros s Hs.
    unfold compute_batch_size_rows, sample_batch_rows.
    destruct (actual_bytes_per_row s) as [a|] eqn:Ea; [|reflexivity].
    rewrite (py_floordiv_nonzero _ a (Hnz s a Hs Ea)). reflexivity. }
  assert (Hb : Forall (fun z => 1 <= z <= 10000) sizes).
  { unfold sizes. apply Forall_forall. intros z Hz.
    apply in_map_iff in Hz. destruct Hz as (s & <- & _).
    unfold sample_batch_rows. destruct (actual_bytes_per_row s); lia. }
  split; [exact Hmap|]. split; [exact Hb|].
  unfold _estimate_default_read_batch_size_rows. rewrite Hmap. simpl bind.
  assert (Hs : map inject_Z sizes <> []).
  { unfold sizes. destruct sample_infos; [contradiction | discriminate]. }
  rewrite (np_mean_nonempty _ Hs). eexists. split; [reflexivity|].
  rewrite length_map at 1. split; [reflexivity|]. split.
  - apply mean_bounds; [exact Hs|].
    apply Forall_forall. intros q Hq.
    apply in_map_iff in Hq. destruct Hq as (z & <- & Hz).
    rewrite Forall_forall in Hb. specialize (Hb z Hz).
    change 1%Q with (inject_Z 1). change 10000%Q with (inject_Z 10000).
    rewrite <- !Zle_Qle. exact Hb.
  - intros Habs.
    rewrite (Qsum_const 10000%Q).
    + field. intros H0. pose proof (inject_nat_pos _ Hs) as Hp.
      rewrite H0 in Hp. discriminate Hp.
    + apply Forall_forall. intros q Hq.
      apply in_map_iff in Hq. destruct Hq as (z & <- & Hz).
      unfold sizes in Hz. apply in_map_iff in Hz.
      destruct Hz as (s & <- & Hin).
      unfold sample_batch_rows. rewrite (Habs s Hin). reflexivity.
Qed.

Lemma estimate_default_read_batch_size_rows_bounds_witness :
  [sample_6144_2048; sample_absent] <> []
  /\ (forall s a, In s [sample_6144_2048; sample_absent] ->
        actual_bytes_per_row s = Some a -> ~ (a == 0)%Q)
  /\ exists r,
       _estimate_default_read_batch_size_rows 134217728
         [sample_6144_2048; sample_absent] = Ok (Fin r)
       /\ (1 <= r <= 10000)%Q.
Proof.
  assert (H1 : [sample_6144_2048; sample_absent] <> []) by discriminate.
  assert (H2 : forall s a, In s [sample_6144_2048; sample_absent] ->
             actual_bytes_per_row s = Some a -> ~ (a == 0)%Q).
  { intros s a [<-|[<-|[]]] Ha; simpl in Ha; [|discriminate].
    injection Ha as <-. intros H. discriminate H. }
  split; [exact H1|]. split; [exact H2|].
  destruct (estimate_default_read_batch_size_rows_bounds 134217728
              [sample_6144_2048; sample_absent] H1 H2)
    as (_ & _ & r & Hr & _ & Hb & _).
  exists r. split; [exact Hr | exact Hb].
Defined.

(** C7 as stated fails on a sample whose [actual_bytes_per_row] is 0: the
    floor division raises and no batch size is returned.  It also fails
    where the tenth of the block size is not an integer: with a block of
    128 MiB and rows of 2684.35456 bytes the code, which floors the tenth
    first, gives 4999 where the formula of the claim gives 5000. *)
Lemma estimate_default_read_batch_size_rows_zero_actual :
  ([sample_without_memory_bytes] <> []
   /\ _estimate_default_read_batch_size_rows 134217728
        [sample_without_memory_bytes] = Raise ZeroDivisionError
   /\ ~ (exists r,
           _estimate_default_read_batch_size_rows 134217728
             [sample_without_memory_bytes] = Ok (Fin r)
           /\ (1 <= r <= 10000)%Q))
  /\ (compute_batch_size_rows 134217728 sample_2684_bytes = Ok 4999
      /\ spec_batch_rows 134217728 sample_2684_bytes = 5000).
Proof.
  split.
  - split; [discriminate|]. split; [reflexivity|].
    intros (r & Hr & _). discriminate Hr.
  - split; reflexivity.
Qed.

(** ** Sampling one file *)

Lemma fold_left_total_size (rgs : list RowGroupMetaData) :
  forall acc,
  fold_left (fun acc rg => acc + rg_total_byte_size rg) rgs acc
  = acc + fold_right Z.add 0 (map rg_total_byte_size rgs).
Proof.
  induction rgs as [|rg rgs IH]; intros acc; simpl; [lia|].
  rewrite IH. lia.
Qed.

Lemma inject_Z_nonzero (z : Z) : z <> 0 -> ~ (inject_Z z == 0)%Q.
Proof.
  intros Hz H. apply Hz. unfold Qeq in H. simpl in H. lia.
Qed.

(** C5. When the first batch read from the sampled file has rows, every
    sample that [_sample_fragment] records has as [estimated_bytes_per_row]
    the sum of [total_byte_size] over all the row groups of the file divided
    by the row count of the file metadata, and not by the row count of the
    batch; a sample is recorded as soon as the file metadata counts a row. *)
Theorem sample_fragment_estimated_bytes_per_row
    (handle Columns Schema : Type)
    (deserialize : nat -> handle -> result (ParquetFileFragment Columns Schema))
    (random : nat -> Q) (columns : Columns) (schema : Schema)
    (file_fragment : handle) (w : world)
    (fragment : ParquetFileFragment Columns Schema)
    (others : list (ParquetFileFragment Columns Schema))
    (batch : RecordBatch) (batches : list RecordBatch) :
  fst (_deserialize_fragments_with_retry deserialize random [file_fragment] w)
  = Ok (fragment :: others) ->
  to_batches (subset fragment [0%nat]) columns schema
    (Z.max (Z.min (num_rows (metadata fragment)) 1024) 1)
  = batch :: batches ->
  0 < batch_num_rows batch ->
  let run :=
    fst (_sample_fragment deserialize random columns schema file_fragment w) in
  let file_bytes :=
    fold_right Z.add 0%Z
      (map rg_total_byte_size (row_groups (metadata fragment))) in
  let file_rows := num_rows (metadata fragment) in
  (forall sample, run = Ok sample ->
     estimated_bytes_per_row sample
     = Some (inject_Z file_bytes / inject_Z file_rows)%Q
     /\ actual_bytes_per_row sample
        = Some (inject_Z (nbytes batch) / inject_Z (batch_num_rows batch))%Q)
  /\ (file_rows <> 0 -> exists sample, run = Ok sample).
Proof.
  intros Hres Hbatches Hrows run file_bytes file_rows.
  assert (Hrun : run = if file_rows =? 0 then Raise ZeroDivisionError
                       else Ok {| actual_bytes_per_row :=
                                    Some (inject_Z (nbytes batch)
                                          / inject_Z (batch_num_rows batch))%Q;
                                  estimated_bytes_per_row :=
                                    Some (inject_Z file_bytes
                                          / inject_Z file_rows)%Q |}).
  { unfold run, _sample_fragment.
    destruct (_deserialize_fragments_with_retry deserialize random
                [file_fragment] w) as [r w1].
    simpl in Hres. subst r. simpl fst.
    unfold sample_resolved. cbn zeta.
    change PARQUET_ENCODING_RATIO_ESTIMATE_NUM_ROWS with 1024.
    change (metadata (subset fragment [0%nat])) with (metadata fragment).
    rewrite Hbatches.
    apply Z.ltb_lt in Hrows. rewrite Hrows.
    apply Z.ltb_lt in Hrows.
    rewrite py_truediv_nonzero by (apply inject_Z_nonzero; lia).
    rewrite fold_left_total_size. fold file_bytes. fold file_rows.
    simpl bind. destruct (file_rows =? 0) eqn:E.
    - apply Z.eqb_eq in E. rewrite E. reflexivity.
    - apply Z.eqb_neq in E.
      rewrite py_truediv_nonzero by (apply inject_Z_nonzero; exact E).
      reflexivity. }
  rewrite Hrun. destruct (file_rows =? 0) eqn:E.
  - split; [intros sample H; discriminate H|].
    apply Z.eqb_eq in E. intros H. contradiction.
  - split.
    + intros sample H. injection H as <-. split; reflexivity.
    + intros _. eexists. reflexivity.
Qed.

Lemma sample_fragment_estimated_bytes_per_row_witness :
  exists sample,
    fst (_sample_fragment resolve_two_group_file half_jitter tt tt 0%nat
           fresh_world) = Ok sample
    /\ estimated_bytes_per_row sample = Some (inject_Z 2048 / inject_Z 1000)%Q.
Proof.
  destruct (sample_fragment_estimated_bytes_per_row nat unit unit
              resolve_two_group_file half_jitter tt tt 0%nat fresh_world
              two_group_file []
              {| nbytes := 6144; batch_num_rows := 2 |} []
              eq_refl eq_refl eq_refl) as [Hval Hex].
  destruct Hex as [sample Hs]; [discriminate|].
  exists sample. split; [exact Hs|].
  exact (proj1 (Hval sample Hs)).
Defined.

(** ** The choice of the sampled files *)

Lemma num_samples_of_floor (n : Z) :
  0 <= n ->
  num_samples_of n = Z.max (Z.min (n / 100) (Z.min 10 n)) (Z.min 2 n).
Proof.
  intros Hn. unfold num_samples_of, Qtrunc.
  change (Qnum (inject_Z n * PARQUET_ENCODING_RATIO_ESTIMATE_SAMPLING_RATIO))
    with (n * 1).
  change (Z.pos (Qden (inject_Z n
                       * PARQUET_ENCODING_RATIO_ESTIMATE_SAMPLING_RATIO)))
    with 100.
  rewrite Z.mul_1_r, Z.quot_div_nonneg by lia. reflexivity.
Qed.

Lemma py_getitem_in_range {A} (l : list A) (i : Z) :
  0 <= i < Z.of_nat (length l) ->
  exists x, py_getitem l i = Ok x /\ nth_error l (Z.to_nat i) = Some x.
Proof.
  intros Hi. unfold py_getitem.
  replace (i <? 0) with false by (symmetry; apply Z.ltb_ge; lia).
  replace (0 <=? i) with true by (symmetry; apply Z.leb_le; lia).
  replace (i <? Z.of_nat (length l)) with true
    by (symmetry; apply Z.ltb_lt; lia).
  simpl. destruct (nth_error l (Z.to_nat i)) as [x|] eqn:E.
  - exists x. split; reflexivity.
  - apply nth_error_None in E. lia.
Qed.

Lemma mapM_getitem {A} (l : list A) (idxs : list Z) :
  Forall (fun i => 0 <= i < Z.of_nat (length l)) idxs ->
  exists xs,
    mapM (py_getitem l) idxs = Ok xs
    /\ length xs = length idxs
    /\ forall j, (j < length idxs)%nat ->
         nth_error xs j = nth_error l (Z.to_nat (nth j idxs 0)).
Proof.
  induction 1 as [|i idxs Hi _ IH].
  - exists []. split; [reflexivity|]. split; [reflexivity|].
    intros j Hj. simpl in Hj. lia.
  - destruct IH as (xs & Hxs & Hlen & Hnth).
    destruct (py_getitem_in_range l i Hi) as (x & Hx & Hn).
    exists (x :: xs). simpl. rewrite Hx. simpl. rewrite Hxs. simpl.
    split; [reflexivity|]. split; [rewrite Hlen; reflexivity|].
    intros [|j] Hj; simpl.
    + symmetry. exact Hn.
    + apply Hnth. lia.
Qed.

Lemma interpolation_in_range (i stop d : Z) :
  0 <= i <= d -> 0 < d -> 0 <= stop ->
  0 <= (i * stop) / d <= stop.
Proof.
  intros Hi Hd Hs. split.
  - apply Z.div_pos; nia.
  - apply Z.div_le_upper_bound; nia.
Qed.

Lemma linspace_nth (stop num : Z) (j : nat) :
  1 < num -> (j < Z.to_nat num)%nat ->
  nth j (map (fun i => Z.quot (Z.of_nat i * stop) (num - 1))
             (seq 0 (Z.to_nat num))) 0
  = Z.quot (Z.of_nat j * stop) (num - 1).
Proof.
  intros Hnum Hj.
  rewrite nth_indep with (d' := Z.quot (Z.of_nat 0 * stop) (num - 1))
    by (rewrite length_map, length_seq; exact Hj).
  rewrite map_nth with (f := fun i => Z.quot (Z.of_nat i * stop) (num - 1)).
  rewrite seq_nth by exact Hj. reflexivity.
Qed.

(** The indices [_sample_fragments] computes for [n] files. *)
Lemma sample_indices_spec (n : Z) :
  0 <= n ->
  let k := Z.max (Z.min (n / 100) (Z.min 10 n)) (Z.min 2 n) in
  exists idxs,
    sample_indices n = Ok idxs
    /\ length idxs = Z.to_nat k
    /\ forall j, (j < Z.to_nat k)%nat ->
         nth j idxs 0
         = (if k =? 1 then 0 else (Z.of_nat j * (n - 1)) / (k - 1))
         /\ 0 <= nth j idxs 0 <= n - 1.
Proof.
  intros Hn k.
  assert (Hk : num_samples_of n = k) by (apply num_samples_of_floor; exact Hn).
  assert (Hq : 0 <= n / 100) by (apply Z.div_pos; lia).
  assert (Hrange : 0 <= k <= n /\ k <= 10 /\ (1 <= n -> 1 <= k)
                   /\ (2 <= n -> 2 <= k)).
  { unfold k. lia. }
  destruct Hrange as (Hk0 & Hk10 & Hk1 & Hk2).
  unfold sample_indices, linspace_indices. rewrite Hk.
  replace (k <? 0) with false by (symmetry; apply Z.ltb_ge; lia).
  destruct (k =? 1) eqn:E1.
  - apply Z.eqb_eq in E1. exists [0]. split; [reflexivity|].
    split; [rewrite E1; reflexivity|].
    intros j Hj. rewrite E1 in Hj.
    assert (j = 0%nat) by (change (Z.to_nat 1) with 1%nat in Hj; lia).
    subst j. split; [reflexivity | simpl; lia].
  - apply Z.eqb_neq in E1. eexists. split; [reflexivity|].
    split; [rewrite length_map, length_seq; reflexivity|].
    intros j Hj. assert (Hk' : 2 <= k) by lia.
    rewrite linspace_nth by lia.
    rewrite Z.quot_div_nonneg by nia.
    split; [reflexivity|].
    apply interpolation_in_range; lia.
Qed.

(** C6, as the code has it.  The number of sampled files is
    [clamp(floor(num_files * 0.01), min(2, num_files), min(10, num_files))];
    the sampled indices are the evenly spaced points
    [floor(j * (num_files - 1) / (num_samples - 1))] of [0, num_files - 1],
    a function of [num_files] alone, each the index of an existing file; for
    1000 files 10 files are sampled. *)
Theorem sample_fragments_selection (A : Type) (pq_fragments : list A) :
  let n := Z.of_nat (length pq_fragments) in
  let k := Z.max (Z.min (n / 100) (Z.min 10 n)) (Z.min 2 n) in
  num_samples_of n = k
  /\ (exists idxs file_samples,
        sample_indices n = Ok idxs
        /\ mapM (py_getitem pq_fragments) idxs = Ok file_samples
        /\ length file_samples = Z.to_nat k
        /\ forall j, (j < Z.to_nat k)%nat ->
             nth j idxs 0
             = (if k =? 1 then 0 else (Z.of_nat j * (n - 1)) / (k - 1))
             /\ 0 <= nth j idxs 0 <= n - 1
             /\ nth_error file_samples j
                = nth_error pq_fragments (Z.to_nat (nth j idxs 0)))
  /\ num_samples_of 1000 = 10.
Proof.
  intros n k.
  assert (Hn : 0 <= n) by (unfold n; lia).
  split; [apply num_samples_of_floor; exact Hn|]. split; [|reflexivity].
  destruct (sample_indices_spec n Hn) as (idxs & Hidx & Hlen & Hnth).
  fold k in Hlen, Hnth.
  destruct (mapM_getitem pq_fragments idxs) as (files & Hfiles & Hlf & Hget).
  { apply Forall_forall. intros i Hi.
    apply In_nth with (d := 0) in Hi. destruct Hi as (j & Hj & <-).
    rewrite Hlen in Hj. destruct (Hnth j Hj) as [_ Hr]. fold n. lia. }
  exists idxs, files. split; [exact Hidx|]. split; [exact Hfiles|].
  split; [rewrite Hlf; exact Hlen|].
  intros j Hj. destruct (Hnth j Hj) as [Hf Hr].
  split; [exact Hf|]. split; [exact Hr|].
  apply Hget. rewrite Hlen. exact Hj.
Qed.

(** C6 as stated fails: for 260 files [round(2.6)] is 3 but the code
    truncates to 2, and 2 files are sampled. *)
Lemma num_samples_truncates_260 :
  num_samples_of 260 = 2
  /\ spec_num_samples 260 = 3
  /\ num_samples_of 260 <> spec_num_samples 260
  /\ sample_indices 260 = Ok [0; 259].
Proof.
  split; [reflexivity|]. split; [reflexivity|].
  split; [discriminate | reflexivity].
Qed.

(** ** Splitting into sections *)

Lemma cut_concat {A} (sizes : list nat) :
  forall (l : list A),
  list_sum sizes = length l -> concat (cut sizes l) = l.
Proof.
  induction sizes as [|n sizes IH]; intros l Hsum; simpl in *.
  - destruct l; [reflexivity | discriminate].
  - rewrite IH; [apply firstn_skipn|].
    rewrite length_skipn. lia.
Qed.

Lemma cut_lengths {A} (sizes : list nat) :
  forall (l : list A),
  (list_sum sizes <= length l)%nat -> map (@length A) (cut sizes l) = sizes.
Proof.
  induction sizes as [|n sizes IH]; intros l Hsum; simpl in *; [reflexivity|].
  rewrite length_firstn, IH by (rewrite length_skipn; lia).
  f_equal. lia.
Qed.

Lemma cut_length {A} (sizes : list nat) (l : list A) :
  length (cut sizes l) = length sizes.
Proof.
  revert l. induction sizes as [|n sizes IH]; intros l; simpl;
    [|rewrite IH]; reflexivity.
Qed.

Lemma list_sum_repeat (x n : nat) : list_sum (repeat x n) = (n * x)%nat.
Proof. induction n as [|n IH]; simpl; [|rewrite IH]; reflexivity. Qed.

Lemma section_sizes_sum (total sections : nat) :
  (0 < sections)%nat -> list_sum (section_sizes total sections) = total.
Proof.
  intros Hs. unfold section_sizes.
  rewrite list_sum_app, !list_sum_repeat.
  pose proof (Nat.div_mod_eq total sections) as Hd.
  pose proof (Nat.mod_upper_bound total sections ltac:(lia)) as Hm.
  nia.
Qed.

Lemma section_sizes_length (total sections : nat) :
  (0 < sections)%nat -> length (section_sizes total sections) = sections.
Proof.
  intros Hs. unfold section_sizes. rewrite length_app, !repeat_length.
  pose proof (Nat.mod_upper_bound total sections ltac:(lia)). lia.
Qed.

Lemma section_sizes_near_equal (total sections s : nat) :
  In s (section_sizes total sections) ->
  s = (total / sections)%nat \/ s = S (total / sections).
Proof.
  unfold section_sizes. intros H. apply in_app_or in H.
  destruct H as [H|H]; apply repeat_spec in H; auto.
Qed.

(** [np.array_split] on [n >= 1] sections: [n] consecutive slices that cover
    the sequence, the first [len mod n] of [len / n + 1] elements and the
    others of [len / n]. *)
Lemma array_split_sections {A} (ary : list A) (n : Z) :
  1 <= n ->
  array_split ary n
  = Ok (cut (section_sizes (length ary) (Z.to_nat n)) ary)
  /\ concat (cut (section_sizes (length ary) (Z.to_nat n)) ary) = ary
  /\ map (@length A) (cut (section_sizes (length ary) (Z.to_nat n)) ary)
     = section_sizes (length ary) (Z.to_nat n)
  /\ length (cut (section_sizes (length ary) (Z.to_nat n)) ary) = Z.to_nat n.
Proof.
  intros Hn. assert (Hpos : (0 < Z.to_nat n)%nat) by lia.
  split.
  { unfold array_split.
    replace (n <=? 0) with false by (symmetry; apply Z.leb_gt; lia).
    reflexivity. }
  split; [apply cut_concat, section_sizes_sum; exact Hpos|].
  split; [apply cut_lengths; rewrite section_sizes_sum by exact Hpos; lia|].
  rewrite cut_length. apply section_sizes_length. exact Hpos.
Qed.

(** ** Planning the read tasks *)

Lemma zip3_fst {A B C} (la : list A) :
  forall (lb : list B) (lc : list C),
  (length la <= length lb)%nat -> (length la <= length lc)%nat ->
  map (fun t => fst (fst t)) (zip3 la lb lc) = la.
Proof.
  induction la as [|a la IH]; intros lb lc Hb Hc; [reflexivity|].
  destruct lb as [|b lb]; [simpl in Hb; lia|].
  destruct lc as [|c lc]; [simpl in Hc; lia|].
  simpl. rewrite IH by (simpl in *; lia). reflexivity.
Qed.

Lemma map_nth_seq {A} (l : list A) (d : A) :
  map (fun i => nth i l d) (seq 0 (length l)) = l.
Proof.
  induction l as [|x l IH]; [reflexivity|].
  simpl. f_equal. rewrite <- seq_shift, map_map. exact IH.
Qed.

Lemma concat_filter_nonempty {A} (groups : list (list A)) :
  concat (filter (fun g => negb (length g <=? 0)%nat) groups) = concat groups.
Proof.
  induction groups as [|g groups IH]; [reflexivity|].
  simpl. destruct g as [|x g]; simpl; [exact IH|]. rewrite IH. reflexivity.
Qed.

Lemma map_length_filter_nonempty {A} (groups : list (list A)) :
  map (@length A) (filter (fun g => negb (length g <=? 0)%nat) groups)
  = filter (fun s => negb (s <=? 0)%nat) (map (@length A) groups).
Proof.
  induction groups as [|g groups IH]; [reflexivity|].
  simpl. destruct (negb (length g <=? 0)%nat); simpl; rewrite IH; reflexivity.
Qed.

(** Shuffling by a permutation of the indices rearranges the rows. *)
Lemma shuffle_rows {A} (rows : list A) (perm : list nat) :
  Permutation perm (seq 0 (length rows)) ->
  exists shuffled,
    mapM (fun i => py_getitem rows (Z.of_nat i)) perm = Ok shuffled
    /\ Permutation shuffled rows
    /\ forall d, shuffled = map (fun i => nth i rows d) perm.
Proof.
  intros Hperm.
  assert (Hlt : forall i, In i perm -> (i < length rows)%nat).
  { intros i Hi. apply (Permutation_in _ Hperm), in_seq in Hi. lia. }
  destruct rows as [|d0 rows'] eqn:Erows.
  - apply Permutation_sym, Permutation_nil in Hperm. subst perm.
    exists []. split; [reflexivity|]. split; [constructor | reflexivity].
  - rewrite <- Erows in *. clear Erows rows'.
    exists (map (fun i => nth i rows d0) perm). split; [|split].
    + apply mapM_map. intros i Hi.
      destruct (py_getitem_in_range rows (Z.of_nat i)) as (x & Hx & Hn);
        [specialize (Hlt i Hi); lia|].
      rewrite Hx. f_equal. rewrite Nat2Z.id in Hn.
      symmetry. apply nth_error_nth. exact Hn.
    + apply Permutation_trans
        with (l' := map (fun i => nth i rows d0) (seq 0 (length rows))).
      * apply Permutation_map. exact Hperm.
      * rewrite map_nth_seq. apply Permutation_refl.
    + intros d. apply map_ext_in. intros i Hi.
      apply nth_indep. exact (Hlt i Hi).
Qed.

Section PlanningProperties.

Variable handle : Type.
Variable Schema : Type.
Variable Udf : Type.
Variable ArgValue : Type.
Variable Generator : Type.
Variable permutation : Generator -> nat -> list nat * Generator.
Variable meta_provider :
  list string -> Schema -> nat -> list (option PrefetchedMetadata)
  -> BlockMetadata.

Local Abbreviation datasource :=
  (ArrowParquetDatasource handle Schema Udf ArgValue Generator).
Local Abbreviation nonempty := (fun g : list handle => negb (length g <=? 0)%nat).

Lemma make_read_task_ok (self : datasource) (fragments : list handle)
    (paths : list string) (metadata : list (option PrefetchedMetadata))
    (r : Q) :
  _encoding_ratio self = Fin r ->
  exists task,
    make_read_task meta_provider self fragments paths metadata = Ok task
    /\ task_fragments task = fragments.
Proof.
  intros Hr. unfold make_read_task.
  match goal with |- context [size_bytes ?m] => set (meta := m) end.
  destruct (size_bytes meta) as [size|]; rewrite ?Hr; simpl;
    eexists; split; reflexivity.
Qed.

Lemma read_tasks_loop_ok (self : datasource)
    (sections :
       list (list handle * list string * list (option PrefetchedMetadata))) :
  (exists r, _encoding_ratio self = Fin r)
  \/ Forall (fun s => fst (fst s) = []) sections ->
  exists read_tasks,
    read_tasks_loop meta_provider self sections = Ok read_tasks
    /\ map task_fragments read_tasks
       = filter nonempty (map (fun s => fst (fst s)) sections).
Proof.
  induction sections as [|[[fragments paths] metadata] rest IH]; intros H.
  - exists []. split; reflexivity.
  - destruct IH as (tasks & Htasks & Hfrags).
    { destruct H as [H|H]; [left; exact H|].
      right. inversion H; assumption. }
    simpl. destruct (length fragments <=? 0)%nat eqn:E; simpl.
    + exists tasks. split; assumption.
    + assert (Hr : exists r, _encoding_ratio self = Fin r).
      { destruct H as [H|H]; [exact H|].
        inversion H as [|? ? Hnil _]. simpl in Hnil. subst fragments.
        discriminate E. }
      destruct Hr as [r Hr].
      destruct (make_read_task_ok self fragments paths metadata r Hr)
        as (task & Htask & Hf).
      rewrite Htask. simpl. rewrite Htasks. simpl.
      exists (task :: tasks). split; [reflexivity|].
      simpl. rewrite Hf, Hfrags. reflexivity.
Qed.

Lemma pad_metadata_frame (self : datasource) :
  _pq_fragments (pad_metadata self) = _pq_fragments self
  /\ _pq_paths (pad_metadata self) = _pq_paths self
  /\ _encoding_ratio (pad_metadata self) = _encoding_ratio self
  /\ _schema (pad_metadata self) = _schema self
  /\ _file_metadata_shuffler (pad_metadata self)
     = _file_metadata_shuffler self
  /\ (length (_pq_fragments self) <= length (_metadata (pad_metadata self)))%nat.
Proof.
  unfold pad_metadata.
  destruct (length (_metadata self) <? length (_pq_fragments self))%nat eqn:E.
  - simpl. repeat split. rewrite length_app, repeat_length.
    apply Nat.ltb_lt in E. lia.
  - apply Nat.ltb_ge in E. repeat split. exact E.
Qed.

(** When the stored metadata is shorter than the fragment list it is
    extended with [None], and this is the stored list afterwards. *)
Lemma pad_metadata_extends (self : datasource) :
  (length (_metadata self) < length (_pq_fragments self))%nat ->
  _metadata (pad_metadata self)
  = _metadata self
    ++ repeat None (length (_pq_fragments self) - length (_metadata self)).
Proof.
  intros H. unfold pad_metadata. apply Nat.ltb_lt in H. rewrite H. reflexivity.
Qed.

Lemma pad_metadata_keeps (self : datasource) :
  (length (_pq_fragments self) <= length (_metadata self))%nat ->
  pad_metadata self = self.
Proof.
  intros H. unfold pad_metadata. apply Nat.ltb_ge in H. rewrite H. reflexivity.
Qed.

Lemma ordered_files_unshuffled (self : datasource) :
  _file_metadata_shuffler self = None ->
  ordered_files permutation self
  = (Ok (_pq_fragments self, _pq_paths self, _metadata self), self).
Proof. intros H. unfold ordered_files. rewrite H. reflexivity. Qed.

Lemma zip3_length {A B C} (la : list A) (lb : list B) (lc : list C) :
  (length la <= length lb)%nat -> (length la <= length lc)%nat ->
  length (zip3 la lb lc) = length la.
Proof.
  intros Hb Hc. rewrite <- (zip3_fst la lb lc Hb Hc) at 2.
  rewrite length_map. reflexivity.
Qed.

(** With a generator, the files are rearranged by the permutation drawn from
    its current state, and the generator moves on. *)
Lemma ordered_files_shuffled (self : datasource) (g : Generator) :
  _file_metadata_shuffler self = Some g ->
  length (_pq_paths self) = length (_pq_fragments self) ->
  (length (_pq_fragments self) <= length (_metadata self))%nat ->
  _pq_fragments self <> [] ->
  Permutation (fst (permutation g (length (_pq_fragments self))))
              (seq 0 (length (_pq_fragments self))) ->
  exists fs ps ms,
    ordered_files permutation self
    = (Ok (fs, ps, ms),
       set_shuffler self (snd (permutation g (length (_pq_fragments self)))))
    /\ Permutation fs (_pq_fragments self)
    /\ forall d,
         fs = map (fun i => nth i (_pq_fragments self) d)
                  (fst (permutation g (length (_pq_fragments self)))).
Proof.
  intros Hg Hp Hm Hne Hperm. unfold ordered_files. rewrite Hg.
  set (files := zip3 (_pq_fragments self) (_pq_paths self) (_metadata self)).
  assert (Hlen : length files = length (_pq_fragments self)).
  { apply zip3_length; lia. }
  assert (Hfst : map (fun t => fst (fst t)) files = _pq_fragments self).
  { apply zip3_fst; lia. }
  rewrite Hlen.
  destruct (permutation g (length (_pq_fragments self))) as [perm g'] eqn:Ep.
  simpl fst in *. simpl snd.
  rewrite <- Hlen in Hperm.
  destruct (shuffle_rows files perm Hperm) as (shuffled & Hmap & Hsh & Hnth).
  rewrite Hmap. simpl bind.
  destruct shuffled as [|row rest].
  { apply Permutation_nil in Hsh.
    rewrite Hsh in Hlen. simpl in Hlen.
    destruct (_pq_fragments self); [contradiction | discriminate]. }
  exists (map (fun t => fst (fst t)) (row :: rest)),
         (map (fun t => snd (fst t)) (row :: rest)),
         (map snd (row :: rest)).
  split; [reflexivity|]. split.
  { rewrite <- Hfst. apply Permutation_map. exact Hsh. }
  intros d. rewrite (Hnth (d, snd (fst row), snd row)). rewrite map_map.
  apply map_ext_in. intros i Hi.
  rewrite <- Hfst.
  symmetry.
  apply (map_nth (fun t : handle * string * option PrefetchedMetadata =>
                    fst (fst t)) files (d, snd (fst row), snd row) i).
Qed.

Lemma cut_nil {A} (sizes : list nat) :
  Forall (fun g : list A => g = []) (cut sizes []).
Proof.
  induction sizes as [|n sizes IH]; simpl; constructor.
  - apply firstn_nil.
  - rewrite skipn_nil. exact IH.
Qed.

End PlanningProperties.

Lemma filter_sizes_near_equal (total sections s1 s2 : nat) :
  In s1 (filter (fun s => negb (s <=? 0)%nat) (section_sizes total sections)) ->
  In s2 (filter (fun s => negb (s <=? 0)%nat) (section_sizes total sections)) ->
  (s1 <= S s2)%nat.
Proof.
  intros H1 H2. apply filter_In in H1, H2.
  destruct H1 as [H1 _], H2 as [H2 _].
  apply section_sizes_near_equal in H1, H2. lia.
Qed.

Lemma planned_order_nth {A} (l : list A) (perm : list nat) (d : A) :
  (forall i, In i perm -> (i < length l)%nat) ->
  flat_map (fun i => match nth_error l i with
                     | Some h => [h]
                     | None => []
                     end) perm
  = map (fun i => nth i l d) perm.
Proof.
  induction perm as [|i perm IH]; intros H; [reflexivity|].
  simpl. rewrite IH by (intros j Hj; apply H; right; exact Hj).
  destruct (nth_error l i) as [h|] eqn:E.
  - rewrite (nth_error_nth l i d E). reflexivity.
  - apply nth_error_None in E. specialize (H i (or_introl eq_refl)). lia.
Qed.

(** What [get_read_tasks] returns and how it leaves the datasource. *)
Lemma get_read_tasks_plan
    (handle Schema Udf ArgValue Generator : Type)
    (permutation : Generator -> nat -> list nat * Generator)
    (meta_provider :
       list string -> Schema -> nat -> list (option PrefetchedMetadata)
       -> BlockMetadata)
    (self : ArrowParquetDatasource handle Schema Udf ArgValue Generator)
    (parallelism : Z) :
  (forall g n, Permutation (fst (permutation g n)) (seq 0 n)) ->
  constructed self ->
  1 <= parallelism ->
  _file_metadata_shuffler self = None \/ _pq_fragments self <> [] ->
  exists read_tasks,
    get_read_tasks permutation meta_provider self parallelism
    = (Ok read_tasks, after_planning permutation self)
    /\ map task_fragments read_tasks
       = filter (fun g => negb (length g <=? 0)%nat)
           (cut (section_sizes (length (_pq_fragments self))
                   (Z.to_nat parallelism))
                (planned_order permutation self))
    /\ Permutation (planned_order permutation self) (_pq_fragments self).
Proof.
  intros Hperm [Hpaths Hratio] Hn Hcase.
  destruct (pad_metadata_frame handle Schema Udf ArgValue Generator self)
    as (Hf1 & Hp1 & Hr1 & _ & Hs1 & Hm1).
  assert (Hord : exists ps ms,
            ordered_files permutation (pad_metadata self)
            = (Ok (planned_order permutation self, ps, ms),
               after_planning permutation self)
            /\ Permutation (planned_order permutation self)
                           (_pq_fragments self)).
  { unfold planned_order, after_planning.
    destruct (_file_metadata_shuffler self) as [g|] eqn:Eg.
    - destruct Hcase as [Hcase|Hne]; [discriminate|].
      destruct (ordered_files_shuffled handle Schema Udf ArgValue Generator
                  permutation (pad_metadata self) g)
        as (fs & ps & ms & Ho & Hpm & Hnth).
      + exact Hs1.
      + rewrite Hp1, Hf1. exact Hpaths.
      + rewrite Hf1. exact Hm1.
      + rewrite Hf1. exact Hne.
      + apply Hperm.
      + rewrite Hf1 in Ho, Hpm, Hnth.
        destruct (_pq_fragments self) as [|d frags] eqn:Efr; [contradiction|].
        rewrite <- Efr in *.
        rewrite (planned_order_nth (_pq_fragments self) _ d).
        * rewrite <- (Hnth d). exists ps, ms. split; [exact Ho | exact Hpm].
        * intros i Hi. apply (Permutation_in _ (Hperm g _)), in_seq in Hi. lia.
    - exists (_pq_paths (pad_metadata self)), (_metadata (pad_metadata self)).
      rewrite <- Hf1 at 1.
      split; [apply ordered_files_unshuffled; exact Hs1|].
      apply Permutation_refl. }
  destruct Hord as (ps & ms & Ho & Hpm).
  set (fs := planned_order permutation self) in *.
  pose proof (Permutation_length Hpm) as Hlen.
  destruct (array_split_sections fs parallelism Hn) as (Ef & _ & _ & Hnf).
  destruct (array_split_sections ps parallelism Hn) as (Ep & _ & _ & Hnp).
  destruct (array_split_sections ms parallelism Hn) as (Em & _ & _ & Hnm).
  rewrite Hlen in Ef, Hnf.
  set (F := cut (section_sizes (length (_pq_fragments self))
                   (Z.to_nat parallelism)) fs) in *.
  set (P := cut (section_sizes (length ps) (Z.to_nat parallelism)) ps) in *.
  set (M := cut (section_sizes (length ms) (Z.to_nat parallelism)) ms) in *.
  assert (HF : map (fun s => fst (fst s)) (zip3 F P M) = F).
  { apply zip3_fst; lia. }
  assert (Hr2 : _encoding_ratio (after_planning permutation self)
                = _encoding_ratio self).
  { unfold after_planning.
    destruct (_file_metadata_shuffler self); [simpl|]; exact Hr1. }
  destruct (read_tasks_loop_ok handle Schema Udf ArgValue Generator
              meta_provider (after_planning permutation self) (zip3 F P M))
    as (tasks & Htasks & Hfr).
  { destruct (_pq_fragments self) as [|h hs] eqn:Efr.
    - right. apply Permutation_sym, Permutation_nil in Hpm.
      apply Forall_forall. intros s Hs.
      assert (Hin : In (fst (fst s)) F).
      { rewrite <- HF.
        apply (in_map (fun s : list handle * list string
                               * list (option PrefetchedMetadata) =>
                         fst (fst s))).
        exact Hs. }
      unfold F in Hin. rewrite Hpm in Hin.
      pose proof (cut_nil (A := handle)
                    (section_sizes (length (@nil handle))
                       (Z.to_nat parallelism))) as Hnil.
      rewrite Forall_forall in Hnil. apply Hnil. exact Hin.
    - left. rewrite Hr2. apply Hratio. discriminate. }
  rewrite HF in Hfr.
  exists tasks. split; [|split; [exact Hfr | exact Hpm]].
  unfold get_read_tasks. rewrite Ho. simpl bind.
  rewrite Ef. simpl bind. rewrite Ep. simpl bind. rewrite Em. simpl bind.
  rewrite Htasks. reflexivity.
Qed.

(** X11. The partition into read tasks.  For a constructed datasource, a
    parallelism [N >= 1] and a fragment list that is nonempty or not shuffled,
    [get_read_tasks] returns at most [N] tasks, none without fragments; the
    fragments of the tasks, one task after the other, are the (possibly
    shuffled) fragment sequence, a rearrangement of the stored fragments in
    which each occurs once; the task sizes are the nonzero section sizes of
    [np.array_split] and differ by at most 1; 7 fragments with parallelism 3
    give tasks of 3, 2 and 2 fragments. *)
Theorem get_read_tasks_partition
    (handle Schema Udf ArgValue Generator : Type)
    (permutation : Generator -> nat -> list nat * Generator)
    (meta_provider :
       list string -> Schema -> nat -> list (option PrefetchedMetadata)
       -> BlockMetadata)
    (self : ArrowParquetDatasource handle Schema Udf ArgValue Generator)
    (parallelism : Z) :
  (forall g n, Permutation (fst (permutation g n)) (seq 0 n)) ->
  constructed self ->
  1 <= parallelism ->
  _file_metadata_shuffler self = None \/ _pq_fragments self <> [] ->
  exists read_tasks self' order,
    get_read_tasks permutation meta_provider self parallelism
    = (Ok read_tasks, self')
    /\ Permutation order (_pq_fragments self)
    /\ (_file_metadata_shuffler self = None -> order = _pq_fragments self)
    /\ concat (map task_fragments read_tasks) = order
    /\ map (fun t => length (task_fragments t)) read_tasks
       = filter (fun s => negb (s <=? 0)%nat)
           (section_sizes (length (_pq_fragments self))
              (Z.to_nat parallelism))
    /\ (length read_tasks <= Z.to_nat parallelism)%nat
    /\ Forall (fun t => task_fragments t <> []) read_tasks
    /\ (forall t1 t2, In t1 read_tasks -> In t2 read_tasks ->
          (length (task_fragments t1) <= S (length (task_fragments t2)))%nat)
    /\ (length (_pq_fragments self) = 7%nat -> parallelism = 3 ->
        map (fun t => length (task_fragments t)) read_tasks
        = [3; 2; 2]%nat).
Proof.
  intros Hperm Hc Hn Hcase.
  destruct (get_read_tasks_plan handle Schema Udf ArgValue Generator
              permutation meta_provider self parallelism Hperm Hc Hn Hcase)
    as (tasks & Hrun & Hfr & Hpm).
  set (fs := planned_order permutation self) in *.
  pose proof (Permutation_length Hpm) as Hlen.
  assert (Hpos : (0 < Z.to_nat parallelism)%nat) by lia.
  set (sizes := section_sizes (length (_pq_fragments self))
                  (Z.to_nat parallelism)) in *.
  assert (Hsum : list_sum sizes = length fs).
  { unfold sizes. rewrite section_sizes_sum by exact Hpos. lia. }
  assert (Hsizes : map (fun t => length (task_fragments t)) tasks
                   = filter (fun s => negb (s <=? 0)%nat) sizes).
  { rewrite <- (cut_lengths sizes fs) at 1 by lia.
    rewrite <- map_length_filter_nonempty, <- Hfr, map_map. reflexivity. }
  exists tasks, (after_planning permutation self), fs.
  split; [exact Hrun|]. split; [exact Hpm|].
  split.
  { intros Hnone. unfold fs, planned_order. rewrite Hnone. reflexivity. }
  split; [rewrite Hfr, concat_filter_nonempty; apply cut_concat; exact Hsum|].
  split; [exact Hsizes|].
  split.
  { rewrite <- (length_map task_fragments), Hfr.
    rewrite <- (section_sizes_length (length (_pq_fragments self))
                  (Z.to_nat parallelism) Hpos).
    fold sizes. rewrite <- (cut_length sizes fs). apply filter_length_le. }
  split.
  { apply Forall_forall. intros t Ht.
    assert (Hin : In (task_fragments t) (map task_fragments tasks))
      by (apply in_map; exact Ht).
    rewrite Hfr in Hin. apply filter_In in Hin. destruct Hin as [_ Hin].
    destruct (task_fragments t); [discriminate Hin | discriminate]. }
  split.
  { intros t1 t2 H1 H2.
    apply (filter_sizes_near_equal (length (_pq_fragments self))
             (Z.to_nat parallelism)); fold sizes; rewrite <- Hsizes.
    - apply (in_map (fun t => length (task_fragments t))). exact H1.
    - apply (in_map (fun t => length (task_fragments t))). exact H2. }
  intros H7 H3. rewrite Hsizes. unfold sizes. rewrite H7, H3. reflexivity.
Qed.

Lemma rotating_permutation_valid (g n : nat) :
  Permutation (fst (rotating_permutation g n)) (seq 0 n).
Proof.
  unfold rotating_permutation. simpl fst.
  eapply Permutation_trans; [apply Permutation_app_comm|].
  rewrite firstn_skipn. apply Permutation_refl.
Qed.

Lemma example_datasource_constructed (handles : list nat)
    (paths : list string) (shuffler : option nat) :
  length paths = length handles ->
  constructed (example_datasource handles paths shuffler).
Proof. intros H. split; [exact H|]. intros _. exists 2%Q. reflexivity. Qed.

Lemma get_read_tasks_partition_witness :
  (forall g n, Permutation (fst (rotating_permutation g n)) (seq 0 n))
  /\ constructed
       (example_datasource [0; 1; 2; 3; 4; 5; 6]%nat seven_paths (Some 1%nat))
  /\ 1 <= 3
  /\ exists read_tasks self',
       get_read_tasks rotating_permutation no_metadata_provider
         (example_datasource [0; 1; 2; 3; 4; 5; 6]%nat seven_paths
            (Some 1%nat)) 3
       = (Ok read_tasks, self')
       /\ map (fun t => length (task_fragments t)) read_tasks = [3; 2; 2]%nat.
Proof.
  assert (Hc : constructed
                 (example_datasource [0; 1; 2; 3; 4; 5; 6]%nat seven_paths
                    (Some 1%nat)))
    by (apply example_datasource_constructed; reflexivity).
  assert (Hn : 1 <= 3) by lia.
  split; [exact rotating_permutation_valid|]. split; [exact Hc|].
  split; [exact Hn|].
  destruct (get_read_tasks_partition nat unit unit unit nat
              rotating_permutation no_metadata_provider
              (example_datasource [0; 1; 2; 3; 4; 5; 6]%nat seven_paths
                 (Some 1%nat)) 3
              rotating_permutation_valid Hc Hn)
    as (tasks & self' & order & Hrun & _ & _ & _ & _ & _ & _ & _ & H7).
  { right. discriminate. }
  exists tasks, self'. split; [exact Hrun|].
  apply H7; reflexivity.
Defined.

(** C3 fails on the code for an empty corpus read with [shuffle="files"]:
    the constructor returns a datasource without fragments, and
    [get_read_tasks] raises at the unpacking that follows the shuffle, where
    the claim has no task to produce; without shuffling the same corpus
    gives the empty list of tasks. *)
Theorem get_read_tasks_empty_shuffled :
  (exists self tr,
     __init__ (corpus_environment [] (Some [])) shuffle_args [] = (Ok self, tr)
     /\ _pq_fragments self = []
     /\ fst (get_read_tasks rotating_permutation no_metadata_provider self 1)
        = Raise (ValueError "not enough values to unpack (expected 3, got 0)"))
  /\ (exists self tr,
        __init__ (corpus_environment [] (Some [])) plain_args [] = (Ok self, tr)
        /\ _pq_fragments self = []
        /\ fst (get_read_tasks rotating_permutation no_metadata_provider self 1)
           = Ok []).
Proof.
  split; eexists; eexists; (split; [lazy; reflexivity|]);
    split; reflexivity.
Qed.

(** C4, as the code has it.  Without a generator the tasks take the
    fragments in the stored order.  With a generator the fragments are taken
    at the indices of the permutation drawn from the current state of the
    generator, and the datasource keeps the generator as the draw leaves it:
    the order is a function of the state of the generator at the call, not
    of a seed or of a permutation stored at construction. *)
Theorem get_read_tasks_order
    (handle Schema Udf ArgValue Generator : Type)
    (permutation : Generator -> nat -> list nat * Generator)
    (meta_provider :
       list string -> Schema -> nat -> list (option PrefetchedMetadata)
       -> BlockMetadata)
    (self : ArrowParquetDatasource handle Schema Udf ArgValue Generator)
    (parallelism : Z) :
  (forall g n, Permutation (fst (permutation g n)) (seq 0 n)) ->
  constructed self ->
  1 <= parallelism ->
  _file_metadata_shuffler self = None \/ _pq_fragments self <> [] ->
  exists read_tasks self',
    get_read_tasks permutation meta_provider self parallelism
    = (Ok read_tasks, self')
    /\ (_file_metadata_shuffler self = None ->
        concat (map task_fragments read_tasks) = _pq_fragments self
        /\ _file_metadata_shuffler self' = None)
    /\ (forall g, _file_metadata_shuffler self = Some g ->
        let drawn := permutation g (length (_pq_fragments self)) in
        (forall d,
           concat (map task_fragments read_tasks)
           = map (fun i => nth i (_pq_fragments self) d) (fst drawn))
        /\ _file_metadata_shuffler self' = Some (snd drawn)).
Proof.
  intros Hperm Hc Hn Hcase.
  destruct (get_read_tasks_plan handle Schema Udf ArgValue Generator
              permutation meta_provider self parallelism Hperm Hc Hn Hcase)
    as (tasks & Hrun & Hfr & Hpm).
  pose proof (Permutation_length Hpm) as Hlen.
  assert (Hcat : concat (map task_fragments tasks)
                 = planned_order permutation self).
  { rewrite Hfr, concat_filter_nonempty. apply cut_concat.
    rewrite section_sizes_sum by lia. lia. }
  destruct (pad_metadata_frame handle Schema Udf ArgValue Generator self)
    as (_ & _ & _ & _ & Hs1 & _).
  exists tasks, (after_planning permutation self).
  split; [exact Hrun|]. split.
  - intros Hnone. rewrite Hcat. unfold planned_order, after_planning.
    rewrite Hnone. split; [reflexivity|]. rewrite Hs1. exact Hnone.
  - intros g Hg drawn. rewrite Hcat. unfold planned_order, after_planning.
    rewrite Hg. split; [|reflexivity].
    intros d. apply planned_order_nth.
    intros i Hi. apply (Permutation_in _ (Hperm g _)), in_seq in Hi. lia.
Qed.

Lemma get_read_tasks_order_witness :
  (forall g n, Permutation (fst (rotating_permutation g n)) (seq 0 n))
  /\ constructed
       (example_datasource [0; 1; 2; 3; 4; 5; 6]%nat seven_paths (Some 1%nat))
  /\ 1 <= 3
  /\ exists read_tasks self',
       get_read_tasks rotating_permutation no_metadata_provider
         (example_datasource [0; 1; 2; 3; 4; 5; 6]%nat seven_paths
            (Some 1%nat)) 3
       = (Ok read_tasks, self')
       /\ concat (map task_fragments read_tasks) = [1; 2; 3; 4; 5; 6; 0]%nat
       /\ _file_metadata_shuffler self' = Some 2%nat.
Proof.
  assert (Hc : constructed
                 (example_datasource [0; 1; 2; 3; 4; 5; 6]%nat seven_paths
                    (Some 1%nat)))
    by (apply example_datasource_constructed; reflexivity).
  assert (Hn : 1 <= 3) by lia.
  split; [exact rotating_permutation_valid|]. split; [exact Hc|].
  split; [exact Hn|].
  destruct (get_read_tasks_order nat unit unit unit nat
              rotating_permutation no_metadata_provider
              (example_datasource [0; 1; 2; 3; 4; 5; 6]%nat seven_paths
                 (Some 1%nat)) 3
              rotating_permutation_valid Hc Hn)
    as (tasks & self' & Hrun & _ & Hsh).
  { right. discriminate. }
  destruct (Hsh 1%nat eq_refl) as [Hord Hgen].
  exists tasks, self'. split; [exact Hrun|].
  split; [exact (Hord 0%nat) | exact Hgen].
Defined.

(** C4 as stated fails: two calls on one datasource, whose generator was
    created once and whose fragments are the same at both calls, assign the
    fragments differently, because each call draws a new permutation. *)
Lemma get_read_tasks_repeated_calls_differ :
  let self := example_datasource [10; 11]%nat ["a"; "b"]%string (Some 1%nat) in
  let first := get_read_tasks rotating_permutation no_metadata_provider self 2 in
  let second :=
    get_read_tasks rotating_permutation no_metadata_provider (snd first) 2 in
  _pq_fragments (snd first) = _pq_fragments self
  /\ (exists tasks, fst first = Ok tasks
                    /\ map task_fragments tasks = [[11]; [10]]%nat)
  /\ (exists tasks, fst second = Ok tasks
                    /\ map task_fragments tasks = [[10]; [11]]%nat).
Proof.
  cbn zeta. split; [reflexivity|].
  split; eexists; split; reflexivity.
Qed.

(** ** The frame of [get_read_tasks] and the size estimate *)

Lemma after_planning_frame
    (handle Schema Udf ArgValue Generator : Type)
    (permutation : Generator -> nat -> list nat * Generator)
    (self : ArrowParquetDatasource handle Schema Udf ArgValue Generator) :
  let self' := after_planning permutation self in
  _pq_fragments self' = _pq_fragments self
  /\ _pq_paths self' = _pq_paths self
  /\ _encoding_ratio self' = _encoding_ratio self
  /\ _schema self' = _schema self
  /\ _metadata self' = _metadata (pad_metadata self).
Proof.
  destruct (pad_metadata_frame handle Schema Udf ArgValue Generator self)
    as (Hf & Hp & Hr & Hs & _ & _).
  cbn zeta. unfold after_planning.
  destruct (_file_metadata_shuffler self); simpl; auto.
Qed.

(** C10 fails on the code: for a corpus of two files whose metadata was not
    prefetched, [get_read_tasks] leaves the stored metadata list padded with
    two [None], and [estimate_inmemory_data_size], which gave a number before
    the call, raises after it; the fragments, the paths, the encoding ratio
    and the schema are as before. *)
Theorem get_read_tasks_pads_stored_metadata :
  exists self tr,
    __init__ (corpus_environment [file_a; file_b] None) plain_args []
    = (Ok self, tr)
    /\ let self' :=
         snd (get_read_tasks rotating_permutation no_metadata_provider self 1)
       in
       _metadata self = []
       /\ _metadata self' = [None; None]
       /\ _pq_fragments self' = _pq_fragments self
       /\ _pq_paths self' = _pq_paths self
       /\ _encoding_ratio self' = _encoding_ratio self
       /\ _schema self' = _schema self
       /\ (exists size, estimate_inmemory_data_size self = Ok (Some (Fin size))
                        /\ (size == 0)%Q)
       /\ estimate_inmemory_data_size self' = Raise AttributeError.
Proof.
  eexists. eexists. split; [lazy; reflexivity|]. cbn zeta.
  repeat (split; [reflexivity|]).
  split; [|reflexivity].
  eexists. split; reflexivity.
Qed.

Lemma sum_total_byte_size_some (metas : list PrefetchedMetadata) :
  forall acc,
  sum_total_byte_size acc (map Some metas)
  = Ok (acc + fold_right Z.add 0 (map total_byte_size metas)).
Proof.
  induction metas as [|m metas IH]; intros acc; simpl.
  - rewrite Z.add_0_r. reflexivity.
  - rewrite IH. f_equal. lia.
Qed.

Lemma sum_total_byte_size_none (metadata : list (option PrefetchedMetadata)) :
  forall acc,
  In None metadata -> sum_total_byte_size acc metadata = Raise AttributeError.
Proof.
  induction metadata as [|[m|] rest IH]; intros acc Hin; simpl.
  - destruct Hin.
  - apply IH. destruct Hin as [H|H]; [discriminate H | exact H].
  - reflexivity.
Qed.

Lemma sum_total_byte_size_raises
    (metadata : list (option PrefetchedMetadata)) :
  forall acc e,
  sum_total_byte_size acc metadata = Raise e ->
  e = AttributeError /\ In None metadata.
Proof.
  induction metadata as [|[m|] rest IH]; intros acc e H; simpl in H.
  - discriminate H.
  - destruct (IH _ _ H) as [He Hin]. split; [exact He | right; exact Hin].
  - injection H as <-. split; [reflexivity | left; reflexivity].
Qed.

(** C8, as the code has it, for every datasource.  When every stored entry
    is the metadata of a file, [estimate_inmemory_data_size] returns the sum
    of their [total_byte_size] multiplied by the encoding ratio; with no
    entry the sum is 0 and the product, a number, is returned.  When some
    stored entry is [None], which is how [get_read_tasks] pads the list, the
    method raises [AttributeError]; it raises nothing else and in no other
    case.  It never returns [None]. *)
Theorem estimate_inmemory_data_size_product
    (handle Schema Udf ArgValue Generator : Type)
    (self : ArrowParquetDatasource handle Schema Udf ArgValue Generator) :
  (forall files : list PrefetchedMetadata,
     _metadata self = map Some files ->
     estimate_inmemory_data_size self
     = Ok (Some (py_mul (fold_right Z.add 0 (map total_byte_size files))
                   (_encoding_ratio self))))
  /\ (_metadata self = [] ->
      estimate_inmemory_data_size self
      = Ok (Some (py_mul 0 (_encoding_ratio self))))
  /\ (In None (_metadata self) ->
      estimate_inmemory_data_size self = Raise AttributeError)
  /\ (forall e, estimate_inmemory_data_size self = Raise e ->
        e = AttributeError /\ In None (_metadata self))
  /\ estimate_inmemory_data_size self <> Ok None.
Proof.
  assert (H : forall files : list PrefetchedMetadata,
            _metadata self = map Some files ->
            estimate_inmemory_data_size self
            = Ok (Some (py_mul (fold_right Z.add 0
                                  (map total_byte_size files))
                          (_encoding_ratio self)))).
  { intros files Hm. unfold estimate_inmemory_data_size.
    rewrite Hm, sum_total_byte_size_some. reflexivity. }
  split; [exact H|]. split; [|split; [|split]].
  - intros Hm. exact (H [] Hm).
  - intros Hin. unfold estimate_inmemory_data_size.
    rewrite (sum_total_byte_size_none _ 0 Hin). reflexivity.
  - intros e. unfold estimate_inmemory_data_size.
    destruct (sum_total_byte_size 0 (_metadata self)) as [total|e0] eqn:E;
      simpl; intros He; [discriminate He|].
    injection He as <-. exact (sum_total_byte_size_raises _ _ _ E).
  - unfold estimate_inmemory_data_size.
    destruct (sum_total_byte_size 0 (_metadata self)); simpl; discriminate.
Qed.

Lemma estimate_inmemory_data_size_product_witness :
  _metadata (set_metadata
               (example_datasource [10; 11]%nat ["a"; "b"]%string None)
               metadata_300_bytes)
  = map Some [ {| total_byte_size := 100 |}; {| total_byte_size := 200 |} ]
  /\ estimate_inmemory_data_size
       (set_metadata (example_datasource [10; 11]%nat ["a"; "b"]%string None)
          metadata_300_bytes)
     = Ok (Some (Fin (inject_Z 300 * 2)))
  /\ estimate_inmemory_data_size
       (set_metadata (example_datasource [10; 11]%nat ["a"; "b"]%string None)
          [None; None])
     = Raise AttributeError.
Proof.
  split; [reflexivity|]. split.
  - apply (proj1 (estimate_inmemory_data_size_product nat unit unit unit nat
                    (set_metadata
                       (example_datasource [10; 11]%nat ["a"; "b"]%string
                          None)
                       metadata_300_bytes))
             [ {| total_byte_size := 100 |}; {| total_byte_size := 200 |} ]
             eq_refl).
  - apply (proj1 (proj2 (proj2
             (estimate_inmemory_data_size_product nat unit unit unit nat
                (set_metadata
                   (example_datasource [10; 11]%nat ["a"; "b"]%string None)
                   [None; None]))))).
    left. reflexivity.
Defined.

(** C8 as stated fails: with no metadata prefetched for any file the
    estimate is the number 0 times the ratio, not an absent value. *)
Lemma estimate_inmemory_data_size_without_metadata :
  _metadata (example_datasource [10; 11]%nat ["a"; "b"]%string None) = []
  /\ estimate_inmemory_data_size
       (example_datasource [10; 11]%nat ["a"; "b"]%string None)
     = Ok (Some (Fin (inject_Z 0 * 2)))
  /\ estimate_inmemory_data_size
       (example_datasource [10; 11]%nat ["a"; "b"]%string None)
     <> Ok None.
Proof. split; [reflexivity|]. split; [reflexivity | discriminate]. Qed.

(** ** Construction *)




(** Any other [ArrowInvalid] of the prefetch is raised again as it is. *)
Lemma init_other_arrow_invalid_reraised
    (handle Schema Udf ArgValue Generator : Type)
    (env : environment handle Schema Udf Generator)
    (args : init_args Schema Udf ArgValue)
    (pq_ds : ParquetDataset Schema) (schema1 : Schema) (msg : string)
    (tr : list (init_event handle)) :
  is_local_scheme env && ray_client_connected env = false ->
  open_dataset env = Ok pq_ds ->
  select_schema env args pq_ds = Ok schema1 ->
  prefetch_file_metadata env (fragments pq_ds) = Raise (ArrowInvalid msg) ->
  contains "Parquet file size is 0 bytes" msg = false ->
  __init__ env args tr
  = (Raise (ArrowInvalid msg), tr ++ [EvOpenDataset; EvPrefetch]).
Proof.
  intros Hlocal Hopen Hschema Hfetch Hmsg.
  unfold __init__. rewrite Bool.negb_involutive, Hlocal.
  unfold bindM, call_open_dataset, call_prefetch, bindM, emit, ret, lift, raise.
  rewrite Hopen, Hschema, Hfetch, Hmsg.
  rewrite <- app_assoc. reflexivity.
Qed.

(** *** What the constructor establishes *)

Lemma mapM_length {A B} (f : A -> result B) (l : list A) :
  forall l', mapM f l = Ok l' -> length l' = length l.
Proof.
  induction l as [|x l IH]; intros l' H; simpl in H.
  - injection H as <-. reflexivity.
  - destruct (f x) as [y|e]; [|discriminate H]. simpl in H.
    destruct (mapM f l) as [ys|e]; [|discriminate H]. simpl in H.
    injection H as <-. simpl. rewrite (IH ys eq_refl). reflexivity.
Qed.

Lemma launch_samples_trace {handle} (file_samples : list handle) :
  forall tr,
  launch_samples file_samples tr = (Ok tt, tr ++ map EvSample file_samples).
Proof.
  induction file_samples as [|h hs IH]; intros tr; simpl.
  - rewrite app_nil_r. reflexivity.
  - unfold bindM, emit. rewrite IH, <- app_assoc. reflexivity.
Qed.

(** As many samples are fetched as [num_samples_of] says. *)
Lemma sample_fragments_count
    (handle Schema Udf Generator : Type)
    (env : environment handle Schema Udf Generator)
    (pq_fragments : list handle) (columns : option (list string))
    (schema : Schema) (tr tr' : list (init_event handle))
    (sample_infos : list _SampleInfo) :
  _sample_fragments env pq_fragments columns schema tr = (Ok sample_infos, tr') ->
  length sample_infos
  = Z.to_nat (num_samples_of (Z.of_nat (length pq_fragments))).
Proof.
  assert (Hn : 0 <= Z.of_nat (length pq_fragments)) by lia.
  destruct (sample_indices_spec _ Hn) as (idxs & Hidx & Hlen & _).
  rewrite <- num_samples_of_floor in Hlen by exact Hn.
  unfold _sample_fragments, bindM, lift. rewrite Hidx.
  destruct (mapM (py_getitem pq_fragments) idxs) as [files|e] eqn:Ef;
    [|intros H; discriminate H].
  rewrite launch_samples_trace.
  destruct (mapM (sample_remote env columns schema) files) as [infos|e] eqn:E;
    intros H; [|discriminate H].
  injection H as <- _.
  rewrite (mapM_length _ _ _ E), (mapM_length _ _ _ Ef). exact Hlen.
Qed.

Lemma estimate_files_encoding_ratio_number (enabled : bool)
    (sample_infos : list _SampleInfo) (x : pyfloat) :
  sample_infos <> [] ->
  _estimate_files_encoding_ratio enabled sample_infos = Ok x ->
  exists r, x = Fin r.
Proof.
  intros Hne. unfold _estimate_files_encoding_ratio.
  destruct enabled; simpl negb; cbv iota.
  - destruct (mapM compute_encoding_ratio sample_infos) as [ratios|e] eqn:E;
      simpl; intros H; [|discriminate H].
    injection H as <-.
    apply mapM_length in E.
    destruct ratios as [|q ratios].
    + destruct sample_infos; [contradiction | discriminate E].
    + simpl. destruct (Qle_bool _ _); eexists; reflexivity.
  - intros H. injection H as <-. eexists. reflexivity.
Qed.

(** A datasource returned by the constructor satisfies [constructed]. *)
Lemma init_constructed
    (handle Schema Udf ArgValue Generator : Type)
    (env : environment handle Schema Udf Generator)
    (args : init_args Schema Udf ArgValue)
    (tr tr' : list (init_event handle))
    (self : ArrowParquetDatasource handle Schema Udf ArgValue Generator) :
  __init__ env args tr = (Ok self, tr') ->
  constructed self
  /\ _file_metadata_shuffler self
     = (if arg_shuffle_files args then Some (default_rng env) else None).
Proof.
  unfold __init__.
  destruct (negb (negb (is_local_scheme env)) && ray_client_connected env);
    [intros H; discriminate H|].
  unfold bindM at 1.
  destruct (call_open_dataset env tr) as [[pq_ds|e] tr1]; [|intros H; discriminate H].
  unfold bindM at 1, lift at 1.
  destruct (select_schema env args pq_ds) as [schema1|e];
    [|intros H; discriminate H].
  unfold bindM at 1.
  destruct (call_prefetch env pq_ds tr1) as [[metadata|e] tr2];
    [|intros H; discriminate H].
  unfold bindM at 1.
  destruct (_sample_fragments env (map (serialize env) (fragments pq_ds))
              (arg_columns args) schema1 tr2) as [[infos|e] tr3] eqn:Es;
    [|intros H; discriminate H].
  unfold bindM at 1, lift at 1.
  destruct (_estimate_files_encoding_ratio (decoding_size_estimation env) infos)
    as [ratio|e] eqn:Er; [|intros H; discriminate H].
  unfold bindM at 1, lift at 1.
  destruct (_estimate_default_read_batch_size_rows (target_max_block_size env)
              infos) as [rows|e]; [|intros H; discriminate H].
  unfold ret. intros H. injection H as <- _.
  split; [|reflexivity]. split; simpl.
  - rewrite !length_map. reflexivity.
  - intros Hne.
    apply (estimate_files_encoding_ratio_number
             (decoding_size_estimation env) infos ratio); [|exact Er].
    apply sample_fragments_count in Es.
    rewrite num_samples_of_floor in Es by lia.
    destruct (map (serialize env) (fragments pq_ds)) as [|h hs];
      [contradiction|].
    intros ->. simpl length in Es.
    assert (Hq : 0 <= Z.of_nat (S (length hs)) / 100)
      by (apply Z.div_pos; lia).
    lia.
Qed.

(** * Further properties of the module *)

(** ** The retrying resolver: result, records and total wait *)

Section ResolverOutcome.

Variable handle : Type.
Variable fragment : Type.
Variable deserialize : nat -> handle -> result fragment.
Variable random : nat -> Q.
Variable hs : list handle.

Local Abbreviation loop := (retry_loop deserialize random hs).
Local Abbreviation failures := (leading_failures deserialize hs).
Local Abbreviation records := (expected_log deserialize hs).

Lemma leading_failures_fail (n : nat) :
  forall k j, (j < failures k n)%nat ->
  exists e, outcome deserialize hs (k + j) = Raise e.
Proof.
  induction n as [|n IH]; intros k j Hj; simpl in Hj; [lia|].
  destruct (outcome deserialize hs k) as [v|e] eqn:E; [lia|].
  destruct j as [|j].
  - exists e. rewrite Nat.add_0_r. exact E.
  - destruct (IH (S k) j) as [e' He']; [lia|].
    exists e'. rewrite <- He'. f_equal. lia.
Qed.

Lemma leading_failures_then_success (n : nat) :
  forall k, (failures k n < n)%nat ->
  exists v, outcome deserialize hs (k + failures k n) = Ok v.
Proof.
  induction n as [|n IH]; intros k Hlt; simpl in *; [lia|].
  destruct (outcome deserialize hs k) as [v|e] eqn:E.
  - exists v. rewrite Nat.add_0_r. exact E.
  - destruct (IH (S k)) as [v Hv]; [lia|].
    exists v. rewrite <- Hv. f_equal. lia.
Qed.

(** With a positive interval the loop writes the expected records. *)
Lemma retry_loop_records (n : nat) :
  forall (i : nat) (mi : Q) (fe : option exn) (w : world), (0 < mi)%Q ->
  logged (snd (loop (seq i n) mi fe w))
  = logged w ++ records i mi (attempts w) n.
Proof.
  induction n as [|n IH]; intros i mi fe w Hmi.
  - simpl. rewrite app_nil_r. reflexivity.
  - simpl. unfold outcome.
    destruct (mapM (deserialize (attempts w)) hs) as [v|e] eqn:E.
    + simpl. rewrite app_nil_r. reflexivity.
    + rewrite (Qeq_bool_pos mi Hmi).
      assert (Hpos : (0 < mi * 2)%Q)
        by (apply Qmult_lt_0_compat; [assumption | reflexivity]).
      match goal with |- context [loop (seq (S i) n) ?a ?b ?c] =>
        rewrite (IH (S i) a b c Hpos) end.
      simpl. rewrite <- app_assoc. reflexivity.
Qed.

Lemma expected_log_length (n : nat) :
  forall i mi k, length (records i mi k n) = failures k n.
Proof.
  induction n as [|n IH]; intros i mi k; simpl; [reflexivity|].
  destruct (outcome deserialize hs k); simpl; [|rewrite IH]; reflexivity.
Qed.

Lemma expected_log_nth (n : nat) :
  forall i mi k j e, (j < failures k n)%nat ->
  outcome deserialize hs (k + j) = Raise e ->
  nth_error (records i mi k n) j
  = Some {| log_attempt := i + j + 1;
            log_retry_after :=
              if Nat.eqb (i + j) 7 then None
              else Some (nth j (doubling mi n) 0%Q);
            log_dump_handles := Nat.eqb (i + j) 0;
            log_exc := e |}.
Proof.
  induction n as [|n IH]; intros i mi k j e Hj He; simpl in Hj; [lia|].
  simpl. destruct (outcome deserialize hs k) as [v|e0] eqn:E; [lia|].
  destruct j as [|j].
  - rewrite Nat.add_0_r in He. rewrite E in He. injection He as ->.
    simpl. rewrite !Nat.add_0_r. reflexivity.
  - simpl. rewrite (IH (S i) (mi * 2)%Q (S k) j e); [|lia|].
    + replace (S i + j)%nat with (i + S j)%nat by lia. reflexivity.
    + rewrite <- He. f_equal. lia.
Qed.

Lemma Qsum_app (l1 l2 : list Q) : (Qsum (l1 ++ l2) == Qsum l1 + Qsum l2)%Q.
Proof.
  induction l1 as [|x l1 IH]; simpl.
  - ring.
  - change (Qsum (l1 ++ l2)) with (Qsum (l1 ++ l2)). rewrite IH. ring.
Qed.

Lemma Qsum_doubling (n : nat) :
  forall x, (Qsum (doubling x n) == x * (2 ^ Z.of_nat n - 1))%Q.
Proof.
  induction n as [|n IH]; intros x.
  - simpl. ring.
  - change (Qsum (doubling x (S n))) with (x + Qsum (doubling (x * 2) n))%Q.
    rewrite IH, Nat2Z.inj_succ, <- Z.add_1_r.
    rewrite Qpower_plus by discriminate.
    change (2 ^ 1)%Q with 2%Q. ring.
Qed.

End ResolverOutcome.

(** X1. The result of [_deserialize_fragments_with_retry] is the outcome of
    one call of the resolver: of the first call that succeeds among the 8,
    or, when none does, of the 8th, whose exception is raised; it raises
    only when all 8 calls have failed. *)
Theorem retry_returns_first_success_or_last_error
    (handle fragment : Type)
    (deserialize : nat -> handle -> result fragment) (random : nat -> Q)
    (hs : list handle) (w : world) :
  let run := _deserialize_fragments_with_retry deserialize random hs w in
  let m := leading_failures deserialize hs (attempts w) FILE_READING_RETRY in
  fst run = outcome deserialize hs (attempts w + Nat.min m 7)
  /\ (forall e, fst run = Raise e -> m = 8%nat)
  /\ (forall v, fst run = Ok v -> (m < 8)%nat
                                 /\ attempts (snd run) = (attempts w + S m)%nat).
Proof.
  intros run m.
  assert (Hm : (m <= 8)%nat) by apply leading_failures_le.
  pose proof (leading_failures_fail handle fragment deserialize hs
                FILE_READING_RETRY (attempts w)) as Hfail.
  fold m in Hfail.
  destruct (Nat.eq_dec m 8) as [E8|N8].
  - (* every call fails *)
    destruct (Hfail 7%nat) as [e He]; [lia|].
    destruct (retry_loop_all_fail handle fragment deserialize random hs
                (seq 0 FILE_READING_RETRY) 0%Q None w e) as [Hr _].
    { intros j Hj. apply Hfail. simpl in Hj. lia. }
    { exact He. }
    change (fst run = Raise e) in Hr.
    replace (Nat.min m 7) with 7%nat by lia.
    split; [rewrite Hr, He; reflexivity|].
    split; [intros _ _; exact E8|].
    intros v Hv. rewrite Hr in Hv. discriminate Hv.
  - assert (Hlt : (m < 8)%nat) by lia.
    destruct (leading_failures_then_success handle fragment deserialize hs
                FILE_READING_RETRY (attempts w) Hlt) as [v Hv].
    fold m in Hv.
    destruct (retry_loop_success handle fragment deserialize random hs
                (seq 0 FILE_READING_RETRY) 0%Q None w m v) as [Hr Ha].
    { simpl. lia. }
    { intros j Hj. apply Hfail. exact Hj. }
    { exact Hv. }
    change (fst run = Ok v) in Hr.
    change (attempts (snd run) = (attempts w + S m)%nat) in Ha.
    replace (Nat.min m 7) with m by lia.
    split; [rewrite Hr, Hv; reflexivity|].
    split; [intros e He; rewrite Hr in He; discriminate He|].
    intros v' _. split; [exact Hlt | exact Ha].
Qed.

Lemma loop_first_failure_record
    (handle fragment : Type)
    (deserialize : nat -> handle -> result fragment) (random : nat -> Q)
    (hs : list handle) (i : nat) (rest : list nat) (fe : option exn)
    (w : world) (e : exn) :
  outcome deserialize hs (attempts w) = Raise e ->
  retry_loop deserialize random hs (i :: rest) 0 fe w =
  retry_loop deserialize random hs rest ((1 + random (draws w)) * 2)%Q (Some e)
    {| attempts := S (attempts w); draws := S (draws w);
       slept := slept w ++ [(1 + random (draws w))%Q];
       logged :=
         logged w
         ++ [ {| log_attempt := i + 1;
                 log_retry_after :=
                   if Nat.eqb i (FILE_READING_RETRY - 1) then None
                   else Some 0%Q;
                 log_dump_handles := Nat.eqb i 0;
                 log_exc := e |} ] |}.
Proof.
  intros E. unfold outcome in E. simpl. rewrite E.
  change (Qeq_bool 0 0) with true. cbn. reflexivity.
Qed.

Lemma jitter_positive (u : Q) : (0 <= u)%Q -> (0 < (1 + u) * 2)%Q.
Proof. intros Hu. lra. Qed.

(** X2. The records of one call.  The [k]-th failed attempt (from 0) writes
    one record, numbered [k + 1], with the exception of that attempt; only
    the first record dumps the handles; the 8th announces no retry, the
    first announces a retry after 0 seconds (the jitter is drawn after the
    record is written, and [1 + u] is slept), and every other announces the
    interval [(1 + u) * 2 ^ k] that is slept next. *)
Theorem retry_log_records
    (handle fragment : Type)
    (deserialize : nat -> handle -> result fragment) (random : nat -> Q)
    (random_range : forall k, (0 <= random k < 1)%Q)
    (hs : list handle) (w : world) :
  let run := _deserialize_fragments_with_retry deserialize random hs w in
  let m := leading_failures deserialize hs (attempts w) FILE_READING_RETRY in
  let waits := doubling (1 + random (draws w))%Q 8 in
  exists entries,
    logged (snd run) = logged w ++ entries
    /\ length entries = m
    /\ (forall k e, (k < m)%nat ->
          outcome deserialize hs (attempts w + k) = Raise e ->
          nth_error entries k
          = Some {| log_attempt := k + 1;
                    log_retry_after :=
                      if Nat.eqb k 7 then None
                      else Some (if Nat.eqb k 0 then 0%Q else nth k waits 0%Q);
                    log_dump_handles := Nat.eqb k 0;
                    log_exc := e |})
    /\ (forall k, (k < 8)%nat ->
          (nth k waits 0 == (1 + random (draws w)) * 2 ^ Z.of_nat k)%Q).
Proof.
  intros run m waits.
  assert (Hw : forall k, (k < 8)%nat ->
            (nth k waits 0 == (1 + random (draws w)) * 2 ^ Z.of_nat k)%Q).
  { intros k Hk. apply doubling_nth. exact Hk. }
  unfold run, m, _deserialize_fragments_with_retry.
  change (seq 0 FILE_READING_RETRY) with (0%nat :: seq 1 7).
  change FILE_READING_RETRY with (S 7).
  rewrite leading_failures_S.
  destruct (outcome deserialize hs (attempts w)) as [v|e0] eqn:E.
  - exists []. unfold outcome in E. simpl retry_loop. rewrite E. simpl.
    rewrite app_nil_r. split; [reflexivity|]. split; [reflexivity|].
    split; [intros k e Hk; lia | exact Hw].
  - rewrite (loop_first_failure_record handle fragment deserialize random hs
               0%nat (seq 1 7) None w e0 E).
    rewrite retry_loop_records
      by (apply jitter_positive; apply random_range).
    cbn [logged attempts].
    eexists. split; [rewrite <- app_assoc; reflexivity|].
    split; [rewrite length_app, expected_log_length; reflexivity|].
    split; [|exact Hw].
    intros k e Hk He. destruct k as [|k].
    + rewrite Nat.add_0_r in He. rewrite E in He. injection He as ->.
      reflexivity.
    + change (nth_error ([?x] ++ ?l) (S k)) with (nth_error l k).
      rewrite (expected_log_nth handle fragment deserialize hs 7 1
                 ((1 + random (draws w)) * 2)%Q (S (attempts w)) k e).
      * reflexivity.
      * lia.
      * rewrite <- He. f_equal. lia.
Qed.

Lemma retry_log_records_witness :
  (forall k, (0 <= half_jitter k < 1)%Q)
  /\ nth_error
       (logged (snd (_deserialize_fragments_with_retry flaky_deserialize
                       half_jitter [1%nat; 2%nat] fresh_world))) 0
     = Some {| log_attempt := 1; log_retry_after := Some 0%Q;
               log_dump_handles := true; log_exc := OtherException 0 |}.
Proof.
  assert (H : forall k, (0 <= half_jitter k < 1)%Q).
  { intros k. unfold half_jitter. split; [discriminate | reflexivity]. }
  split; [exact H|].
  destruct (retry_log_records nat nat flaky_deserialize half_jitter H
              [1%nat; 2%nat] fresh_world)
    as (entries & Hlog & _ & Hnth & _).
  cbn zeta in Hnth. rewrite Hlog. simpl app.
  apply (Hnth 0%nat (OtherException 0)).
  - vm_compute. lia.
  - reflexivity.
Defined.

(** X3. The waits of one call.  The function sleeps once after every failed
    attempt, the last one included: for [m] failures it has slept
    [(1 + u) * (2 ^ m - 1)] seconds in all, which is [255 * (1 + u)] when the
    8 attempts fail and the exception is raised. *)
Theorem retry_total_wait
    (handle fragment : Type)
    (deserialize : nat -> handle -> result fragment) (random : nat -> Q)
    (random_range : forall k, (0 <= random k < 1)%Q)
    (hs : list handle) (w : world) :
  let run := _deserialize_fragments_with_retry deserialize random hs w in
  let m := leading_failures deserialize hs (attempts w) FILE_READING_RETRY in
  exists waits,
    slept (snd run) = slept w ++ waits
    /\ length waits = m
    /\ (Qsum waits == (1 + random (draws w)) * (2 ^ Z.of_nat m - 1))%Q
    /\ (forall e, fst run = Raise e ->
          length waits = 8%nat
          /\ (Qsum waits == 255 * (1 + random (draws w)))%Q).
Proof.
  intros run m.
  destruct (retry_world handle fragment deserialize random hs w)
    as (Hs & _ & _ & _); [apply random_range|].
  exists (doubling (1 + random (draws w))%Q m).
  split; [exact Hs|]. split; [apply doubling_length|].
  split; [apply Qsum_doubling|].
  intros e He.
  assert (E : m = 8%nat).
  { destruct (Nat.eq_dec m 8) as [E|N]; [exact E|].
    assert (Hm : (m <= 8)%nat) by apply leading_failures_le.
    assert (Hlt : (m < FILE_READING_RETRY)%nat)
      by (change FILE_READING_RETRY with 8%nat; lia).
    destruct (leading_failures_then_success handle fragment deserialize hs
                FILE_READING_RETRY (attempts w) Hlt) as [v Hv].
    fold m in Hv.
    destruct (retry_loop_success handle fragment deserialize random hs
                (seq 0 FILE_READING_RETRY) 0%Q None w m v) as [Hr _].
    - simpl. lia.
    - intros j Hj.
      apply (leading_failures_fail handle fragment deserialize hs
               FILE_READING_RETRY (attempts w) j). exact Hj.
    - exact Hv.
    - change (fst run = Ok v) in Hr. rewrite Hr in He. discriminate He. }
  rewrite doubling_length, Qsum_doubling, E.
  split; [reflexivity|].
  change (2 ^ Z.of_nat 8)%Q with 256%Q. ring.
Qed.

Lemma retry_total_wait_witness :
  (forall k, (0 <= half_jitter k < 1)%Q)
  /\ exists waits,
       slept (snd (_deserialize_fragments_with_retry flaky_deserialize
                     half_jitter [1%nat; 2%nat] fresh_world)) = waits
       /\ length waits = 7%nat.
Proof.
  assert (H : forall k, (0 <= half_jitter k < 1)%Q).
  { intros k. unfold half_jitter. split; [discriminate | reflexivity]. }
  split; [exact H|].
  destruct (retry_total_wait nat nat flaky_deserialize half_jitter H
              [1%nat; 2%nat] fresh_world)
    as (waits & Hs & Hl & _).
  exists waits. split; [exact Hs | exact Hl].
Defined.

(** ** The estimators: when they raise, and the lower bound *)

Lemma mapM_raise_iff {A B} (f : A -> result B) (err : exn) (l : list A) :
  (forall x e, f x = Raise e -> e = err) ->
  (mapM f l = Raise err <-> exists x, In x l /\ f x = Raise err)
  /\ (forall e, mapM f l = Raise e -> e = err).
Proof.
  intros Honly. induction l as [|x l [IH1 IH2]].
  - split; [split|]; simpl.
    + intros H. discriminate H.
    + intros (x & [] & _).
    + intros e H. discriminate H.
  - simpl. destruct (f x) as [y|e0] eqn:E; simpl.
    + destruct (mapM f l) as [ys|e1] eqn:El; simpl.
      * split; [split|].
        -- intros H. discriminate H.
        -- intros (x' & [<-|Hin] & Hx'); [congruence|].
           assert (H : Ok ys = Raise err) by (apply IH1; exists x'; auto).
           discriminate H.
        -- intros e H. discriminate H.
      * assert (He1 : e1 = err) by (apply IH2; reflexivity). subst e1.
        split; [split|].
        -- intros _. destruct IH1 as [IH1 _].
           destruct (IH1 eq_refl) as (x' & Hin & Hx'). exists x'. auto.
        -- intros _. reflexivity.
        -- intros e H. injection H as <-. reflexivity.
    + assert (He0 : e0 = err) by (apply (Honly x); exact E). subst e0.
      split; [split|].
      * intros _. exists x. auto.
      * intros _. reflexivity.
      * intros e H. injection H as <-. reflexivity.
Qed.

Lemma py_truediv_raises (a b : Q) :
  forall e, py_truediv a b = Raise e -> e = ZeroDivisionError /\ (b == 0)%Q.
Proof.
  unfold py_truediv. intros e. destruct (Qeq_bool b 0) eqn:E; intros H.
  - injection H as <-. split; [reflexivity | apply Qeq_bool_eq; exact E].
  - discriminate H.
Qed.

Lemma py_floordiv_raises (a b : Q) :
  forall e, py_floordiv a b = Raise e -> e = ZeroDivisionError /\ (b == 0)%Q.
Proof.
  unfold py_floordiv. intros e. destruct (Qeq_bool b 0) eqn:E; intros H.
  - injection H as <-. split; [reflexivity | apply Qeq_bool_eq; exact E].
  - discriminate H.
Qed.

Lemma compute_encoding_ratio_raises (s : _SampleInfo) :
  (compute_encoding_ratio s = Raise ZeroDivisionError
   <-> exists a e, actual_bytes_per_row s = Some a
                   /\ estimated_bytes_per_row s = Some e /\ (e == 0)%Q)
  /\ (forall e, compute_encoding_ratio s = Raise e -> e = ZeroDivisionError).
Proof.
  unfold compute_encoding_ratio.
  destruct (actual_bytes_per_row s) as [a|];
    destruct (estimated_bytes_per_row s) as [e|];
    try (split; [split; [intros H; discriminate H
                        | intros (a' & e' & Ha & He & _); discriminate]
                | intros e' H; discriminate H]).
  split; [split|].
  - intros H. exists a, e. destruct (py_truediv_raises a e _ H). auto.
  - intros (a' & e' & Ha & He & Hz). injection Ha as <-. injection He as <-.
    unfold py_truediv. apply Qeq_bool_iff in Hz. rewrite Hz. reflexivity.
  - intros e' H. destruct (py_truediv_raises a e _ H). assumption.
Qed.

(** X4. [_estimate_files_encoding_ratio] raises exactly when estimation is
    enabled and some sample has both fields present with
    [estimated_bytes_per_row] equal to 0; the exception is then
    [ZeroDivisionError], and it raises nothing else. *)
Theorem estimate_files_encoding_ratio_raises_iff
    (enabled : bool) (sample_infos : list _SampleInfo) :
  (_estimate_files_encoding_ratio enabled sample_infos
   = Raise ZeroDivisionError
   <-> enabled = true
       /\ exists s a e, In s sample_infos
                        /\ actual_bytes_per_row s = Some a
                        /\ estimated_bytes_per_row s = Some e
                        /\ (e == 0)%Q)
  /\ (forall e, _estimate_files_encoding_ratio enabled sample_infos = Raise e ->
        e = ZeroDivisionError).
Proof.
  unfold _estimate_files_encoding_ratio.
  destruct enabled; simpl negb; cbv iota.
  - destruct (mapM_raise_iff compute_encoding_ratio ZeroDivisionError
                sample_infos) as [Hiff Honly].
    { intros x e He. apply (proj2 (compute_encoding_ratio_raises x)). exact He. }
    destruct (mapM compute_encoding_ratio sample_infos) as [ratios|e0] eqn:E;
      simpl.
    + split; [split|].
      * intros H. discriminate H.
      * intros (_ & s & a & e & Hin & Ha & He & Hz). exfalso.
        assert (H : Ok ratios = Raise ZeroDivisionError).
        { apply Hiff. exists s. split; [exact Hin|].
          apply (proj1 (compute_encoding_ratio_raises s)). exists a, e. auto. }
        discriminate H.
      * intros e H. discriminate H.
    + assert (He0 : e0 = ZeroDivisionError) by (apply Honly; reflexivity).
      subst e0. split; [split|].
      * intros _. split; [reflexivity|].
        destruct (proj1 Hiff eq_refl) as (s & Hin & Hs).
        apply (proj1 (compute_encoding_ratio_raises s)) in Hs.
        destruct Hs as (a & e & Ha & He & Hz). exists s, a, e. auto.
      * intros _. reflexivity.
      * intros e H. injection H as <-. reflexivity.
  - split; [split|].
    + intros H. discriminate H.
    + intros [H _]. discriminate H.
    + intros e H. discriminate H.
Qed.

Lemma compute_batch_size_rows_raises (target : Z) (s : _SampleInfo) :
  (compute_batch_size_rows target s = Raise ZeroDivisionError
   <-> exists a, actual_bytes_per_row s = Some a /\ (a == 0)%Q)
  /\ (forall e, compute_batch_size_rows target s = Raise e ->
        e = ZeroDivisionError).
Proof.
  unfold compute_batch_size_rows.
  destruct (actual_bytes_per_row s) as [a|].
  - destruct (py_floordiv (inject_Z (target / 10)) a) as [q|e0] eqn:E; simpl.
    + split; [split|].
      * intros H. discriminate H.
      * intros (a' & Ha & Hz). injection Ha as <-.
        unfold py_floordiv in E. apply Qeq_bool_iff in Hz. rewrite Hz in E.
        discriminate E.
      * intros e H. discriminate H.
    + destruct (py_floordiv_raises _ _ _ E) as [-> Hz].
      split; [split|].
      * intros _. exists a. auto.
      * intros _. reflexivity.
      * intros e H. injection H as <-. reflexivity.
  - split; [split|].
    + intros H. discriminate H.
    + intros (a & Ha & _). discriminate Ha.
    + intros e H. discriminate H.
Qed.

(** X5. [_estimate_default_read_batch_size_rows] raises exactly when some
    sample has [actual_bytes_per_row] present and equal to 0; the exception
    is then [ZeroDivisionError], and it raises nothing else. *)
Theorem estimate_default_read_batch_size_rows_raises_iff
    (target_max_block_size : Z) (sample_infos : list _SampleInfo) :
  (_estimate_default_read_batch_size_rows target_max_block_size sample_infos
   = Raise ZeroDivisionError
   <-> exists s a, In s sample_infos
                   /\ actual_bytes_per_row s = Some a /\ (a == 0)%Q)
  /\ (forall e,
        _estimate_default_read_batch_size_rows target_max_block_size
          sample_infos = Raise e ->
        e = ZeroDivisionError).
Proof.
  unfold _estimate_default_read_batch_size_rows.
  destruct (mapM_raise_iff (compute_batch_size_rows target_max_block_size)
              ZeroDivisionError sample_infos) as [Hiff Honly].
  { intros x e He.
    apply (proj2 (compute_batch_size_rows_raises target_max_block_size x)).
    exact He. }
  destruct (mapM (compute_batch_size_rows target_max_block_size) sample_infos)
    as [sizes|e0] eqn:E; simpl.
  - split; [split|].
    + intros H. discriminate H.
    + intros (s & a & Hin & Ha & Hz). exfalso.
      assert (H : Ok sizes = Raise ZeroDivisionError).
      { apply Hiff. exists s. split; [exact Hin|].
        apply (proj1 (compute_batch_size_rows_raises _ s)). exists a. auto. }
      discriminate H.
    + intros e H. discriminate H.
  - assert (He0 : e0 = ZeroDivisionError) by (apply Honly; reflexivity).
    subst e0. split; [split|].
    + intros _. destruct (proj1 Hiff eq_refl) as (s & Hin & Hs).
      apply (proj1 (compute_batch_size_rows_raises _ s)) in Hs.
      destruct Hs as (a & Ha & Hz). exists s, a. auto.
    + intros _. reflexivity.
    + intros e H. injection H as <-. reflexivity.
Qed.

(** X6. When every sample lacks one of its two fields, the encoding ratio is
    exactly the lower bound 2: absent samples never pull the estimate above
    or below it. *)
Theorem estimate_files_encoding_ratio_absent_samples
    (sample_infos : list _SampleInfo) :
  sample_infos <> [] ->
  (forall s, In s sample_infos ->
     actual_bytes_per_row s = None \/ estimated_bytes_per_row s = None) ->
  exists r,
    _estimate_files_encoding_ratio true sample_infos = Ok (Fin r)
    /\ (r == 2)%Q.
Proof.
  intros Hne Habs.
  assert (Hmap : mapM compute_encoding_ratio sample_infos
                 = Ok (map (fun _ => 2%Q) sample_infos)).
  { apply mapM_map. intros s Hs. unfold compute_encoding_ratio.
    destruct (Habs s Hs) as [-> | H2].
    - reflexivity.
    - rewrite H2. destruct (actual_bytes_per_row s); reflexivity. }
  unfold _estimate_files_encoding_ratio. simpl negb. cbv iota.
  rewrite Hmap. simpl bind.
  set (ratios := map (fun _ : _SampleInfo => 2%Q) sample_infos).
  assert (Hr : ratios <> []).
  { unfold ratios. destruct sample_infos; [contradiction | discriminate]. }
  rewrite (np_mean_nonempty ratios Hr).
  assert (Hmean : (Qsum ratios / inject_Z (Z.of_nat (length ratios)) == 2)%Q).
  { rewrite (Qsum_const 2%Q).
    - field. intros H0. pose proof (inject_nat_pos ratios Hr) as Hp.
      rewrite H0 in Hp. discriminate Hp.
    - apply Forall_forall. intros q Hq. unfold ratios in Hq.
      apply in_map_iff in Hq. destruct Hq as (s & <- & _). reflexivity. }
  unfold py_max.
  change (inject_Z PARQUET_ENCODING_RATIO_ESTIMATE_LOWER_BOUND) with 2%Q.
  assert (Hle : Qle_bool 2 (Qsum ratios / inject_Z (Z.of_nat (length ratios)))
                = true).
  { apply Qle_bool_iff. rewrite Hmean. apply Qle_refl. }
  rewrite Hle. eexists. split; [reflexivity | exact Hmean].
Qed.

Lemma estimate_files_encoding_ratio_absent_samples_witness :
  [sample_absent; sample_absent] <> []
  /\ exists r,
       _estimate_files_encoding_ratio true [sample_absent; sample_absent]
       = Ok (Fin r) /\ (r == 2)%Q.
Proof.
  assert (H1 : [sample_absent; sample_absent] <> []) by discriminate.
  split; [exact H1|].
  apply (estimate_files_encoding_ratio_absent_samples
           [sample_absent; sample_absent] H1).
  intros s [<-|[<-|[]]]; left; reflexivity.
Defined.

(** ** Sampling: files without rows, and the files that are picked *)

(** X7. A file whose first row group gives no batch, or a first batch
    without rows, is recorded as a sample with both fields absent: nothing
    is divided, whatever the metadata of the file says (a row count of 0
    included). *)
Theorem sample_fragment_without_rows
    (handle Columns Schema : Type)
    (deserialize : nat -> handle -> result (ParquetFileFragment Columns Schema))
    (random : nat -> Q) (columns : Columns) (schema : Schema)
    (file_fragment : handle) (w : world)
    (fragment : ParquetFileFragment Columns Schema)
    (others : list (ParquetFileFragment Columns Schema)) :
  fst (_deserialize_fragments_with_retry deserialize random [file_fragment] w)
  = Ok (fragment :: others) ->
  match to_batches (subset fragment [0%nat]) columns schema
          (Z.max (Z.min (num_rows (metadata fragment)) 1024) 1) with
  | [] => True
  | batch :: _ => batch_num_rows batch <= 0
  end ->
  fst (_sample_fragment deserialize random columns schema file_fragment w)
  = Ok {| actual_bytes_per_row := None; estimated_bytes_per_row := None |}.
Proof.
  intros Hres Hempty. unfold _sample_fragment.
  destruct (_deserialize_fragments_with_retry deserialize random
              [file_fragment] w) as [r w1].
  simpl in Hres. subst r. simpl fst.
  unfold sample_resolved. cbn zeta.
  change PARQUET_ENCODING_RATIO_ESTIMATE_NUM_ROWS with 1024.
  change (metadata (subset fragment [0%nat])) with (metadata fragment).
  destruct (to_batches (subset fragment [0%nat]) columns schema
              (Z.max (Z.min (num_rows (metadata fragment)) 1024) 1))
    as [|batch rest]; [reflexivity|].
  replace (0 <? batch_num_rows batch) with false
    by (symmetry; apply Z.ltb_ge; exact Hempty).
  reflexivity.
Qed.

(** X9. The sampled indices are strictly increasing, so no file is sampled
    twice; with two files or more the first and the last file are always
    sampled. *)
Theorem sample_indices_strictly_increasing (num_files : nat) :
  let n := Z.of_nat num_files in
  exists idxs,
    sample_indices n = Ok idxs
    /\ length idxs = Z.to_nat (num_samples_of n)
    /\ (forall i j, (i < j < length idxs)%nat -> nth i idxs 0 < nth j idxs 0)
    /\ (2 <= n -> nth 0 idxs 0 = 0
                  /\ nth (length idxs - 1) idxs 0 = n - 1).
Proof.
  intros n. assert (Hn : 0 <= n) by (unfold n; lia).
  destruct (sample_indices_spec n Hn) as (idxs & Hidx & Hlen & Hnth).
  cbn zeta in Hlen, Hnth.
  set (k := Z.max (Z.min (n / 100) (Z.min 10 n)) (Z.min 2 n)) in *.
  assert (Hq : 0 <= n / 100) by (apply Z.div_pos; lia).
  assert (Hk : 0 <= k <= n /\ (2 <= n -> 2 <= k)) by (unfold k; lia).
  exists idxs. split; [exact Hidx|].
  split; [rewrite Hlen, num_samples_of_floor by exact Hn; reflexivity|].
  split.
  - intros i j [Hij Hj]. rewrite Hlen in Hj.
    destruct (Hnth i ltac:(lia)) as [Hi _].
    destruct (Hnth j Hj) as [Hj' _].
    rewrite Hi, Hj'.
    destruct (k =? 1) eqn:E1; [apply Z.eqb_eq in E1; lia|].
    apply Z.eqb_neq in E1.
    assert (Hd : 0 < k - 1) by lia.
    apply Z.lt_le_trans
      with (m := (Z.of_nat i * (n - 1) + 1 * (k - 1)) / (k - 1)).
    + rewrite Z.div_add by lia. lia.
    + apply Z.div_le_mono; [exact Hd | nia].
  - intros H2. destruct Hk as [Hk0 Hk2]. specialize (Hk2 H2).
    assert (E1 : (k =? 1) = false) by (apply Z.eqb_neq; lia).
    split.
    + destruct (Hnth 0%nat ltac:(lia)) as [H0 _].
      rewrite H0, E1. reflexivity.
    + destruct (Hnth (length idxs - 1)%nat ltac:(lia)) as [Hl _].
      rewrite Hl, E1, Hlen.
      replace (Z.of_nat (Z.to_nat k - 1)) with (k - 1) by lia.
      rewrite Z.mul_comm. apply Z.div_mul. lia.
Qed.

(** X10. The number of sampled files by size of the corpus: every file up
    to 2 files, 2 files below 300, one file in a hundred from 300 to 999,
    and 10 files from 1000 on; it never decreases when files are added. *)
Theorem num_samples_by_corpus_size (num_files : nat) :
  let n := Z.of_nat num_files in
  let k := num_samples_of n in
  (n <= 2 -> k = n)
  /\ (2 <= n < 300 -> k = 2)
  /\ (300 <= n < 1000 -> k = n / 100)
  /\ (1000 <= n -> k = 10)
  /\ (forall fewer : nat, (fewer <= num_files)%nat ->
        num_samples_of (Z.of_nat fewer) <= k).
Proof.
  intros n k. assert (Hn : 0 <= n) by (unfold n; lia).
  unfold k. rewrite num_samples_of_floor by exact Hn.
  assert (Hq : 0 <= n / 100) by (apply Z.div_pos; lia).
  pose proof (Z.div_mod n 100 ltac:(lia)) as Hdm.
  pose proof (Z.mod_pos_bound n 100 ltac:(lia)) as Hmod.
  split; [lia|]. split; [lia|]. split; [lia|]. split; [lia|].
  intros fewer Hf. rewrite num_samples_of_floor by lia.
  assert (Hmono : Z.of_nat fewer / 100 <= n / 100)
    by (apply Z.div_le_mono; unfold n; lia).
  assert (Hq' : 0 <= Z.of_nat fewer / 100) by (apply Z.div_pos; lia).
  unfold n in *. lia.
Qed.

(** ** Planning: number of tasks, frame, errors and task metadata *)

Lemma filter_repeat {A} (f : A -> bool) (x : A) (n : nat) :
  filter f (repeat x n) = if f x then repeat x n else [].
Proof.
  induction n as [|n IH]; simpl.
  - destruct (f x); reflexivity.
  - rewrite IH. destruct (f x); reflexivity.
Qed.

Lemma nonzero_section_sizes (total sections : nat) :
  (0 < sections)%nat ->
  filter (fun s => negb (s <=? 0)%nat) (section_sizes total sections)
  = if (total / sections =? 0)%nat
    then repeat 1%nat (total mod sections)
    else section_sizes total sections.
Proof.
  intros Hs. unfold section_sizes. cbn zeta.
  rewrite filter_app, !filter_repeat.
  change (negb (S (total / sections) <=? 0)%nat) with true. cbv iota.
  destruct (total / sections)%nat as [|q] eqn:Eq; simpl Nat.eqb; cbv iota.
  - simpl negb. cbv iota. rewrite app_nil_r. reflexivity.
  - reflexivity.
Qed.

Lemma nonzero_section_sizes_length (total sections : nat) :
  (0 < sections)%nat ->
  length (filter (fun s => negb (s <=? 0)%nat) (section_sizes total sections))
  = Nat.min sections total.
Proof.
  intros Hs. rewrite nonzero_section_sizes by exact Hs.
  pose proof (Nat.div_mod_eq total sections) as Hd.
  pose proof (Nat.mod_upper_bound total sections ltac:(lia)) as Hm.
  destruct (total / sections =? 0)%nat eqn:E.
  - apply Nat.eqb_eq in E. rewrite repeat_length. nia.
  - apply Nat.eqb_neq in E. rewrite section_sizes_length by exact Hs. nia.
Qed.

(** X12. Under the conditions of the partition, [get_read_tasks] returns
    exactly [min(parallelism, number of fragments)] tasks; when the
    parallelism is at least the number of fragments every task reads one
    fragment. *)
Theorem get_read_tasks_task_count
    (handle Schema Udf ArgValue Generator : Type)
    (permutation : Generator -> nat -> list nat * Generator)
    (meta_provider :
       list string -> Schema -> nat -> list (option PrefetchedMetadata)
       -> BlockMetadata)
    (self : ArrowParquetDatasource handle Schema Udf ArgValue Generator)
    (parallelism : Z) :
  (forall g n, Permutation (fst (permutation g n)) (seq 0 n)) ->
  constructed self ->
  1 <= parallelism ->
  _file_metadata_shuffler self = None \/ _pq_fragments self <> [] ->
  exists read_tasks self',
    get_read_tasks permutation meta_provider self parallelism
    = (Ok read_tasks, self')
    /\ length read_tasks
       = Nat.min (Z.to_nat parallelism) (length (_pq_fragments self))
    /\ ((length (_pq_fragments self) <= Z.to_nat parallelism)%nat ->
        Forall (fun t => length (task_fragments t) = 1%nat) read_tasks).
Proof.
  intros Hperm Hc Hn Hcase.
  destruct (get_read_tasks_plan handle Schema Udf ArgValue Generator
              permutation meta_provider self parallelism Hperm Hc Hn Hcase)
    as (tasks & Hrun & Hfr & Hpm).
  pose proof (Permutation_length Hpm) as Hlen.
  assert (Hpos : (0 < Z.to_nat parallelism)%nat) by lia.
  set (total := length (_pq_fragments self)) in *.
  set (sections := Z.to_nat parallelism) in *.
  assert (Hsizes : map (fun t => length (task_fragments t)) tasks
                   = filter (fun s => negb (s <=? 0)%nat)
                       (section_sizes total sections)).
  { rewrite <- (cut_lengths (section_sizes total sections)
                  (planned_order permutation self))
      by (rewrite section_sizes_sum by exact Hpos; lia).
    rewrite <- map_length_filter_nonempty, <- Hfr, map_map. reflexivity. }
  exists tasks, (after_planning permutation self).
  split; [exact Hrun|]. split.
  - rewrite <- (length_map (fun t => length (task_fragments t))), Hsizes.
    apply nonzero_section_sizes_length. exact Hpos.
  - intros Hle. apply Forall_forall. intros t Ht.
    assert (Hin : In (length (task_fragments t))
                     (map (fun t => length (task_fragments t)) tasks))
      by (apply (in_map (fun t => length (task_fragments t))); exact Ht).
    rewrite Hsizes, nonzero_section_sizes in Hin by exact Hpos.
    destruct (Nat.eq_dec total sections) as [Heq|Hne].
    + rewrite Heq, Nat.div_same in Hin by lia. simpl Nat.eqb in Hin.
      cbv iota in Hin. unfold section_sizes in Hin.
      rewrite Nat.Div0.mod_same, Nat.div_same in Hin by lia.
      simpl in Hin. apply repeat_spec in Hin. exact Hin.
    + rewrite Nat.div_small in Hin by lia. simpl Nat.eqb in Hin.
      cbv iota in Hin. apply repeat_spec in Hin. exact Hin.
Qed.

Section PlanningFrame.

Variable handle : Type.
Variable Schema : Type.
Variable Udf : Type.
Variable ArgValue : Type.
Variable Generator : Type.
Variable permutation : Generator -> nat -> list nat * Generator.
Variable meta_provider :
  list string -> Schema -> nat -> list (option PrefetchedMetadata)
  -> BlockMetadata.

Local Abbreviation datasource :=
  (ArrowParquetDatasource handle Schema Udf ArgValue Generator).

(** The datasource after [get_read_tasks], whatever the call returns or
    raises: the metadata padded, and the generator replaced when there is
    one. *)
Lemma planning_state (self : datasource) (parallelism : Z) :
  snd (get_read_tasks permutation meta_provider self parallelism)
  = match _file_metadata_shuffler self with
    | None => pad_metadata self
    | Some g =>
        set_shuffler (pad_metadata self)
          (snd (permutation g
                  (length (zip3 (_pq_fragments self) (_pq_paths self)
                             (_metadata (pad_metadata self))))))
    end.
Proof.
  unfold get_read_tasks, ordered_files.
  destruct (pad_metadata_frame handle Schema Udf ArgValue Generator self)
    as (Hf & Hp & _ & _ & Hs & _).
  rewrite Hs, Hf, Hp.
  destruct (_file_metadata_shuffler self) as [g|]; [|reflexivity].
  destruct (permutation g _) as [perm g']. reflexivity.
Qed.

Lemma pad_metadata_fields (self : datasource) :
  _supports_distributed_reads (pad_metadata self)
  = _supports_distributed_reads self
  /\ _inferred_schema (pad_metadata self) = _inferred_schema self
  /\ _block_udf (pad_metadata self) = _block_udf self
  /\ _columns (pad_metadata self) = _columns self
  /\ _arrow_parquet_args (pad_metadata self) = _arrow_parquet_args self
  /\ _include_paths (pad_metadata self) = _include_paths self
  /\ _path_root (pad_metadata self) = _path_root self
  /\ _default_read_batch_size_rows (pad_metadata self)
     = _default_read_batch_size_rows self.
Proof.
  unfold pad_metadata.
  destruct (length (_metadata self) <? length (_pq_fragments self))%nat;
    repeat split.
Qed.

Lemma pad_metadata_value (self : datasource) :
  _metadata (pad_metadata self)
  = _metadata self
    ++ repeat None (length (_pq_fragments self) - length (_metadata self)).
Proof.
  unfold pad_metadata.
  destruct (length (_metadata self) <? length (_pq_fragments self))%nat eqn:E.
  - reflexivity.
  - apply Nat.ltb_ge in E.
    replace (length (_pq_fragments self) - length (_metadata self))%nat
      with 0%nat by lia.
    simpl. rewrite app_nil_r. reflexivity.
Qed.

Lemma planning_fields (self : datasource) (parallelism : Z) :
  let self' :=
    snd (get_read_tasks permutation meta_provider self parallelism) in
  _pq_fragments self' = _pq_fragments self
  /\ _pq_paths self' = _pq_paths self
  /\ _encoding_ratio self' = _encoding_ratio self
  /\ _schema self' = _schema self
  /\ _supports_distributed_reads self' = _supports_distributed_reads self
  /\ _inferred_schema self' = _inferred_schema self
  /\ _block_udf self' = _block_udf self
  /\ _columns self' = _columns self
  /\ _arrow_parquet_args self' = _arrow_parquet_args self
  /\ _include_paths self' = _include_paths self
  /\ _path_root self' = _path_root self
  /\ _default_read_batch_size_rows self'
     = _default_read_batch_size_rows self
  /\ _metadata self' = _metadata (pad_metadata self).
Proof.
  cbn zeta. rewrite planning_state.
  destruct (pad_metadata_frame handle Schema Udf ArgValue Generator self)
    as (Hf & Hp & Hr & Hs & _ & _).
  destruct (pad_metadata_fields self)
    as (H1 & H2 & H3 & H4 & H5 & H6 & H7 & H8).
  destruct (_file_metadata_shuffler self); simpl; auto 20.
Qed.

(** X13. Whatever [get_read_tasks] returns or raises, and for every
    parallelism, it leaves the fragments, the paths, the schemas, the
    columns, the reader arguments, the encoding ratio and the batch size of
    the datasource as they were; the stored metadata list is the former one
    followed by one [None] for each fragment it was short of, so it is at
    least as long as the fragment list; a datasource without a generator
    stays without one; and a second call changes the metadata no more. *)
Theorem get_read_tasks_frame (self : datasource) (parallelism again : Z) :
  let self' :=
    snd (get_read_tasks permutation meta_provider self parallelism) in
  _pq_fragments self' = _pq_fragments self
  /\ _pq_paths self' = _pq_paths self
  /\ _schema self' = _schema self
  /\ _inferred_schema self' = _inferred_schema self
  /\ _columns self' = _columns self
  /\ _block_udf self' = _block_udf self
  /\ _arrow_parquet_args self' = _arrow_parquet_args self
  /\ _include_paths self' = _include_paths self
  /\ _path_root self' = _path_root self
  /\ _encoding_ratio self' = _encoding_ratio self
  /\ _default_read_batch_size_rows self' = _default_read_batch_size_rows self
  /\ _supports_distributed_reads self' = _supports_distributed_reads self
  /\ _metadata self'
     = _metadata self
       ++ repeat None
            (length (_pq_fragments self) - length (_metadata self))
  /\ (length (_pq_fragments self') <= length (_metadata self'))%nat
  /\ (_file_metadata_shuffler self = None ->
      _file_metadata_shuffler self' = None)
  /\ _metadata (snd (get_read_tasks permutation meta_provider self' again))
     = _metadata self'.
Proof.
  cbn zeta.
  destruct (planning_fields self parallelism)
    as (Hf & Hp & Hr & Hs & H1 & H2 & H3 & H4 & H5 & H6 & H7 & H8 & Hm).
  assert (Hlen : (length (_pq_fragments self)
                  <= length (_metadata (pad_metadata self)))%nat)
    by apply (pad_metadata_frame handle Schema Udf ArgValue Generator self).
  repeat (split; [assumption|]).
  split; [rewrite Hm; apply pad_metadata_value|].
  split; [rewrite Hf, Hm; exact Hlen|].
  split.
  { intros Hnone. rewrite planning_state, Hnone.
    rewrite <- Hnone.
    apply (pad_metadata_frame handle Schema Udf ArgValue Generator self). }
  set (self' := snd (get_read_tasks permutation meta_provider self
                       parallelism)) in *.
  destruct (planning_fields self' again)
    as (_ & _ & _ & _ & _ & _ & _ & _ & _ & _ & _ & _ & Hm').
  rewrite Hm'. f_equal. apply pad_metadata_keeps.
  rewrite Hf, Hm. exact Hlen.
Qed.

(** X14. A parallelism of 0 or less never yields tasks: [get_read_tasks]
    raises, and without shuffling the error is [np.array_split]'s
    [ValueError]. *)
Theorem get_read_tasks_nonpositive_parallelism (self : datasource)
    (parallelism : Z) :
  parallelism <= 0 ->
  (exists e,
     fst (get_read_tasks permutation meta_provider self parallelism)
     = Raise e)
  /\ (_file_metadata_shuffler self = None ->
      fst (get_read_tasks permutation meta_provider self parallelism)
      = Raise (ValueError "number sections must be larger than 0.")).
Proof.
  intros Hn. apply Z.leb_le in Hn. split.
  - unfold get_read_tasks.
    destruct (ordered_files permutation (pad_metadata self))
      as [[[[fs ps] ms]|e] self2]; simpl.
    + unfold array_split. rewrite Hn. simpl. eexists. reflexivity.
    + exists e. reflexivity.
  - intros Hnone. unfold get_read_tasks.
    rewrite ordered_files_unshuffled
      by (rewrite <- Hnone;
          apply (pad_metadata_frame handle Schema Udf ArgValue Generator self)).
    simpl. unfold array_split. rewrite Hn. reflexivity.
Qed.

Lemma make_read_task_contents (self : datasource) (fragments : list handle)
    (paths : list string) (metadata : list (option PrefetchedMetadata))
    (t : ReadTask handle Schema Udf ArgValue) :
  make_read_task meta_provider self fragments paths metadata = Ok t ->
  task_block_udf t = _block_udf self
  /\ task_arrow_parquet_args t = _arrow_parquet_args self
  /\ task_default_read_batch_size_rows t = _default_read_batch_size_rows self
  /\ task_columns t = _columns self
  /\ task_schema t = _schema self
  /\ task_path_root t = _path_root self
  /\ task_include_paths t = _include_paths self
  /\ task_fragments t = fragments
  /\ let meta :=
       meta_provider paths (_inferred_schema self) (length fragments) metadata
     in
     meta_num_rows (task_metadata t)
     = (if has_filter (_arrow_parquet_args self) then None
        else meta_num_rows meta)
     /\ match size_bytes meta with
        | None => size_bytes (task_metadata t) = None
        | Some size =>
            exists r,
              _encoding_ratio self = Fin r
              /\ size_bytes (task_metadata t)
                 = Some (Qtrunc (inject_Z size * r))
        end.
Proof.
  unfold make_read_task, has_filter. cbn zeta.
  set (meta := meta_provider paths (_inferred_schema self) (length fragments)
                 metadata).
  destruct (dict_get "filter" (_arrow_parquet_args self)) as [[v|]|];
    cbn [size_bytes meta_num_rows];
    (destruct (size_bytes meta) as [size|] eqn:Es;
     [ destruct (_encoding_ratio self) as [r|] eqn:Er; simpl; intros H;
       [|discriminate H];
       injection H as <-; cbn;
       repeat (split; [reflexivity|]);
       exists r; split; reflexivity
     | simpl; intros H; injection H as <-; cbn;
       repeat (split; [reflexivity|]); try exact Es; reflexivity ]).
Qed.

Lemma read_tasks_loop_contents (self : datasource)
    (sections :
       list (list handle * list string * list (option PrefetchedMetadata))) :
  forall read_tasks,
  read_tasks_loop meta_provider self sections = Ok read_tasks ->
  Forall (fun t =>
            exists fragments paths metadata,
              In (fragments, paths, metadata) sections
              /\ fragments <> []
              /\ make_read_task meta_provider self fragments paths metadata
                 = Ok t) read_tasks.
Proof.
  induction sections as [|[[fragments paths] metadata] rest IH];
    intros tasks H.
  - injection H as <-. constructor.
  - simpl in H. destruct (length fragments <=? 0)%nat eqn:E.
    + eapply Forall_impl; [|apply IH; exact H].
      intros t (f & p & m & Hin & Hne & Ht).
      exists f, p, m. split; [right; exact Hin | split; assumption].
    + destruct (make_read_task meta_provider self fragments paths metadata)
        as [task|e] eqn:Et; simpl in H; [|discriminate H].
      destruct (read_tasks_loop meta_provider self rest) as [ts|e] eqn:El;
        simpl in H; [|discriminate H].
      injection H as <-. constructor.
      * exists fragments, paths, metadata.
        split; [left; reflexivity|]. split; [|exact Et].
        intros ->. discriminate E.
      * eapply Forall_impl; [|apply IH; reflexivity].
        intros t (f & p & m & Hin & Hne & Ht).
        exists f, p, m. split; [right; exact Hin | split; assumption].
Qed.

Lemma get_read_tasks_loop (self : datasource) (parallelism : Z)
    (read_tasks : list (ReadTask handle Schema Udf ArgValue))
    (self' : datasource) :
  get_read_tasks permutation meta_provider self parallelism
  = (Ok read_tasks, self') ->
  exists sections,
    read_tasks_loop meta_provider self' sections = Ok read_tasks.
Proof.
  unfold get_read_tasks.
  destruct (ordered_files permutation (pad_metadata self))
    as [[[[fs ps] ms]|e] self2]; simpl; intros H; [|discriminate H].
  destruct (array_split fs parallelism) as [F|e]; simpl in H;
    [|discriminate H].
  destruct (array_split ps parallelism) as [P|e]; simpl in H;
    [|discriminate H].
  destruct (array_split ms parallelism) as [M|e]; simpl in H;
    [|discriminate H].
  injection H as H <-. exists (zip3 F P M). exact H.
Qed.

(** X15. Every task returned by [get_read_tasks] has at least one fragment
    and carries the datasource's UDF, batch size, columns, schema, path root
    and path flag; its metadata is the provider's answer for as many
    fragments as the task reads, with the row count dropped when a filter is
    configured; it has a size in bytes exactly when the provider gives one,
    and then the encoding ratio is a number. *)
Theorem get_read_tasks_task_contents (self : datasource) (parallelism : Z)
    (read_tasks : list (ReadTask handle Schema Udf ArgValue))
    (self' : datasource) :
  get_read_tasks permutation meta_provider self parallelism
  = (Ok read_tasks, self') ->
  Forall (fun t =>
    task_block_udf t = _block_udf self
    /\ task_default_read_batch_size_rows t
       = _default_read_batch_size_rows self
    /\ task_columns t = _columns self
    /\ task_schema t = _schema self
    /\ task_path_root t = _path_root self
    /\ task_include_paths t = _include_paths self
    /\ task_fragments t <> []
    /\ exists paths prefetched,
         let meta :=
           meta_provider paths (_inferred_schema self)
             (length (task_fragments t)) prefetched in
         meta_num_rows (task_metadata t)
         = (if has_filter (_arrow_parquet_args self) then None
            else meta_num_rows meta)
         /\ match size_bytes meta with
            | None => size_bytes (task_metadata t) = None
            | Some _ =>
                (exists r, _encoding_ratio self = Fin r)
                /\ exists scaled, size_bytes (task_metadata t) = Some scaled
            end) read_tasks.
Proof.
  intros Hrun.
  destruct (get_read_tasks_loop self parallelism read_tasks self' Hrun)
    as [sections Hloop].
  pose proof (planning_fields self parallelism) as Hfields.
  cbn zeta in Hfields. rewrite Hrun in Hfields. simpl snd in Hfields.
  destruct Hfields
    as (Hf & Hp & Hr & Hs & H1 & H2 & H3 & H4 & H5 & H6 & H7 & H8 & Hm).
  eapply Forall_impl;
    [|apply (read_tasks_loop_contents self' sections read_tasks Hloop)].
  intros t (f & p & m & _ & Hne & Ht).
  apply make_read_task_contents in Ht.
  destruct Ht as (T1 & T2 & T3 & T4 & T5 & T6 & T7 & T8 & T9).
  rewrite T1, T3, T4, T5, T6, T7, T8.
  rewrite H3, H8, H4, Hs, H7, H6.
  repeat (split; [reflexivity|]).
  split; [exact Hne|].
  exists p, m. cbn zeta in T9 |- *.
  rewrite H2, H5, Hr in T9. destruct T9 as [Hrows Hsize].
  split; [exact Hrows|].
  destruct (size_bytes (meta_provider p (_inferred_schema self) (length f) m))
    as [size|]; [|exact Hsize].
  destruct Hsize as (r & Er & Es).
  split; [exists r; exact Er | eexists; exact Es].
Qed.

Lemma sum_total_byte_size_padded (metadata : list (option PrefetchedMetadata))
    (missing : nat) :
  forall acc,
  sum_total_byte_size acc (metadata ++ repeat None (S missing))
  = Raise AttributeError.
Proof.
  induction metadata as [|[m|] rest IH]; intros acc; simpl.
  - reflexivity.
  - apply IH.
  - reflexivity.
Qed.

(** X16. [estimate_inmemory_data_size] after a call of [get_read_tasks]:
    when the stored metadata list was shorter than the fragment list the
    estimate raises [AttributeError], whatever it gave before; when it was
    not shorter, the estimate is the one from before the call. *)
Theorem estimate_inmemory_data_size_after_planning (self : datasource)
    (parallelism : Z) :
  let self' :=
    snd (get_read_tasks permutation meta_provider self parallelism) in
  ((length (_metadata self) < length (_pq_fragments self))%nat ->
   estimate_inmemory_data_size self' = Raise AttributeError)
  /\ ((length (_pq_fragments self) <= length (_metadata self))%nat ->
      estimate_inmemory_data_size self' = estimate_inmemory_data_size self).
Proof.
  cbn zeta.
  destruct (planning_fields self parallelism)
    as (_ & _ & Hr & _ & _ & _ & _ & _ & _ & _ & _ & _ & Hm).
  unfold estimate_inmemory_data_size. rewrite Hm, Hr. split; intros H.
  - rewrite pad_metadata_value.
    replace (length (_pq_fragments self) - length (_metadata self))%nat
      with (S (length (_pq_fragments self) - length (_metadata self) - 1))
      by lia.
    rewrite sum_total_byte_size_padded. reflexivity.
  - rewrite pad_metadata_keeps by exact H. reflexivity.
Qed.

End PlanningFrame.

(** ** The constructor: what it calls, what it stores, what it raises *)

Lemma files_encoding_ratio_raises_only (enabled : bool)
    (sample_infos : list _SampleInfo) (e : exn) :
  _estimate_files_encoding_ratio enabled sample_infos = Raise e ->
  e = ZeroDivisionError
  /\ enabled = true
  /\ exists s a e0, In s sample_infos
                     /\ actual_bytes_per_row s = Some a
                     /\ estimated_bytes_per_row s = Some e0
                     /\ (e0 == 0)%Q.
Proof.
  unfold _estimate_files_encoding_ratio.
  destruct enabled; simpl negb; cbv iota; [|intros H; discriminate H].
  destruct (mapM_raise_iff compute_encoding_ratio ZeroDivisionError
              sample_infos) as [Hiff Honly].
  { intros x e' He. apply (proj2 (compute_encoding_ratio_raises x)). exact He. }
  destruct (mapM compute_encoding_ratio sample_infos) as [ratios|e0] eqn:E;
    simpl; intros H; [discriminate H|].
  injection H as <-.
  assert (He0 : e0 = ZeroDivisionError) by (apply Honly; reflexivity).
  subst e0. split; [reflexivity|]. split; [reflexivity|].
  destruct (proj1 Hiff eq_refl) as (s & Hin & Hs).
  apply (proj1 (compute_encoding_ratio_raises s)) in Hs.
  destruct Hs as (a & e0 & Ha & He & Hz). exists s, a, e0. auto.
Qed.

Lemma files_encoding_ratio_raises_when (sample_infos : list _SampleInfo) :
  (exists s a e0, In s sample_infos
                  /\ actual_bytes_per_row s = Some a
                  /\ estimated_bytes_per_row s = Some e0
                  /\ (e0 == 0)%Q) ->
  _estimate_files_encoding_ratio true sample_infos = Raise ZeroDivisionError.
Proof.
  intros (s & a & e0 & Hin & Ha & He & Hz).
  unfold _estimate_files_encoding_ratio. simpl negb. cbv iota.
  destruct (mapM_raise_iff compute_encoding_ratio ZeroDivisionError
              sample_infos) as [Hiff _].
  { intros x e' He'. apply (proj2 (compute_encoding_ratio_raises x)).
    exact He'. }
  assert (Hm : mapM compute_encoding_ratio sample_infos
               = Raise ZeroDivisionError).
  { apply Hiff. exists s. split; [exact Hin|].
    apply (proj1 (compute_encoding_ratio_raises s)). exists a, e0. auto. }
  rewrite Hm. reflexivity.
Qed.

Lemma default_read_batch_size_rows_raises_only (target : Z)
    (sample_infos : list _SampleInfo) (e : exn) :
  _estimate_default_read_batch_size_rows target sample_infos = Raise e ->
  e = ZeroDivisionError
  /\ exists s a, In s sample_infos
                  /\ actual_bytes_per_row s = Some a /\ (a == 0)%Q.
Proof.
  unfold _estimate_default_read_batch_size_rows.
  destruct (mapM_raise_iff (compute_batch_size_rows target) ZeroDivisionError
              sample_infos) as [Hiff Honly].
  { intros x e' He. apply (proj2 (compute_batch_size_rows_raises target x)).
    exact He. }
  destruct (mapM (compute_batch_size_rows target) sample_infos)
    as [sizes|e0] eqn:E; simpl; intros H; [discriminate H|].
  injection H as <-.
  assert (He0 : e0 = ZeroDivisionError) by (apply Honly; reflexivity).
  subst e0. split; [reflexivity|].
  destruct (proj1 Hiff eq_refl) as (s & Hin & Hs).
  apply (proj1 (compute_batch_size_rows_raises target s)) in Hs.
  destruct Hs as (a & Ha & Hz). exists s, a. auto.
Qed.

Lemma default_read_batch_size_rows_raises_when (target : Z)
    (sample_infos : list _SampleInfo) :
  (exists s a, In s sample_infos
               /\ actual_bytes_per_row s = Some a /\ (a == 0)%Q) ->
  _estimate_default_read_batch_size_rows target sample_infos
  = Raise ZeroDivisionError.
Proof.
  intros (s & a & Hin & Ha & Hz).
  unfold _estimate_default_read_batch_size_rows.
  destruct (mapM_raise_iff (compute_batch_size_rows target) ZeroDivisionError
              sample_infos) as [Hiff _].
  { intros x e' He. apply (proj2 (compute_batch_size_rows_raises target x)).
    exact He. }
  assert (Hm : mapM (compute_batch_size_rows target) sample_infos
               = Raise ZeroDivisionError).
  { apply Hiff. exists s. split; [exact Hin|].
    apply (proj1 (compute_batch_size_rows_raises target s)). exists a. auto. }
  rewrite Hm. reflexivity.
Qed.


Lemma mapM_forall {A B} (f : A -> result B) (P : B -> Prop) (l : list A) :
  (forall x y, In x l -> f x = Ok y -> P y) ->
  forall l', mapM f l = Ok l' -> Forall P l'.
Proof.
  induction l as [|x l IH]; intros HP l' H; simpl in H.
  - injection H as <-. constructor.
  - destruct (f x) as [y|e] eqn:Ex; [|discriminate H]. simpl in H.
    destruct (mapM f l) as [ys|e] eqn:El; [|discriminate H]. simpl in H.
    injection H as <-. constructor.
    + apply (HP x y); [left; reflexivity | exact Ex].
    + apply IH; [|reflexivity].
      intros x' y' Hin. apply HP. right. exact Hin.
Qed.

Lemma mapM_total {A B} (f : A -> result B) (l : list A) :
  (forall x, In x l -> exists y, f x = Ok y) ->
  exists l', mapM f l = Ok l'.
Proof.
  induction l as [|x l IH]; intros H; simpl.
  - eexists. reflexivity.
  - destruct (H x (or_introl eq_refl)) as [y ->]. simpl.
    destruct IH as [ys ->]; [intros x' Hin; apply H; right; exact Hin|].
    simpl. eexists. reflexivity.
Qed.

Lemma mapM_getitem_members {A} (l : list A) (idxs : list Z) (xs : list A) :
  mapM (py_getitem l) idxs = Ok xs -> forall x, In x xs -> In x l.
Proof.
  intros H.
  assert (HF : Forall (fun x => In x l) xs).
  { apply (mapM_forall (py_getitem l) (fun x => In x l) idxs); [|exact H].
    intros i y _. unfold py_getitem. cbn zeta.
    destruct ((0 <=? (if i <? 0 then i + Z.of_nat (length l) else i))
              && ((if i <? 0 then i + Z.of_nat (length l) else i)
                  <? Z.of_nat (length l))); [|intros E; discriminate E].
    destruct (nth_error l _) as [x|] eqn:En; intros E; [|discriminate E].
    injection E as <-. apply nth_error_In in En. exact En. }
  rewrite Forall_forall in HF. exact HF.
Qed.

Lemma files_encoding_ratio_range (enabled : bool)
    (sample_infos : list _SampleInfo) (x : pyfloat) :
  sample_infos <> [] ->
  _estimate_files_encoding_ratio enabled sample_infos = Ok x ->
  exists r, x = Fin r /\ (2 <= r)%Q /\ (enabled = false -> r = 5%Q).
Proof.
  intros Hne. unfold _estimate_files_encoding_ratio.
  destruct enabled; simpl negb; cbv iota.
  - destruct (mapM compute_encoding_ratio sample_infos) as [ratios|e] eqn:E;
      simpl; intros H; [|discriminate H].
    injection H as <-. apply mapM_length in E.
    destruct ratios as [|q ratios].
    + destruct sample_infos; [contradiction | discriminate E].
    + unfold np_mean, py_max.
      change (inject_Z PARQUET_ENCODING_RATIO_ESTIMATE_LOWER_BOUND) with 2%Q.
      destruct (Qle_bool 2 _) eqn:Ele.
      * eexists. split; [reflexivity|]. split; [|discriminate].
        apply Qle_bool_iff. exact Ele.
      * exists 2%Q. split; [reflexivity|]. split; [apply Qle_refl|discriminate].
  - intros H. injection H as <-. exists 5%Q.
    split; [reflexivity|]. split; [discriminate | reflexivity].
Qed.

Lemma compute_batch_size_rows_range (target : Z) (s : _SampleInfo) (rows : Z) :
  compute_batch_size_rows target s = Ok rows -> 1 <= rows <= 10000.
Proof.
  unfold compute_batch_size_rows.
  change PARQUET_READER_ROW_BATCH_SIZE with 10000.
  destruct (actual_bytes_per_row s) as [a|].
  - cbn zeta. destruct (py_floordiv _ a) as [q|e]; simpl; intros H;
      [|discriminate H].
    injection H as <-. lia.
  - intros H. injection H as <-. lia.
Qed.

Lemma default_read_batch_size_rows_range (target : Z)
    (sample_infos : list _SampleInfo) (x : pyfloat) :
  sample_infos <> [] ->
  _estimate_default_read_batch_size_rows target sample_infos = Ok x ->
  exists r, x = Fin r /\ (1 <= r <= 10000)%Q.
Proof.
  intros Hne. unfold _estimate_default_read_batch_size_rows.
  destruct (mapM (compute_batch_size_rows target) sample_infos)
    as [sizes|e] eqn:E; simpl; intros H; [|discriminate H].
  injection H as <-.
  assert (Hsizes : Forall (fun s => 1 <= s <= 10000) sizes).
  { apply (mapM_forall (compute_batch_size_rows target) _ sample_infos);
      [|exact E].
    intros s rows _. apply compute_batch_size_rows_range. }
  assert (Hne' : map inject_Z sizes <> []).
  { apply mapM_length in E. destruct sizes; [|discriminate].
    destruct sample_infos; [contradiction | discriminate E]. }
  rewrite (np_mean_nonempty _ Hne'). eexists. split; [reflexivity|].
  apply (mean_bounds 1 10000 (map inject_Z sizes) Hne').
  apply Forall_forall. intros q Hq. apply in_map_iff in Hq.
  destruct Hq as (s & <- & Hs).
  rewrite Forall_forall in Hsizes. specialize (Hsizes s Hs).
  split.
  - change 1%Q with (inject_Z 1). rewrite <- Zle_Qle. lia.
  - change 10000%Q with (inject_Z 10000). rewrite <- Zle_Qle. lia.
Qed.

Section ConstructorProperties.

Variable handle : Type.
Variable Schema : Type.
Variable Udf : Type.
Variable ArgValue : Type.
Variable Generator : Type.
Variable env : environment handle Schema Udf Generator.
Variable args : init_args Schema Udf ArgValue.

Local Abbreviation datasource :=
  (ArrowParquetDatasource handle Schema Udf ArgValue Generator).
Local Abbreviation init := (@__init__ handle Schema Udf ArgValue Generator env args).

Lemma call_open_dataset_ok (tr tr1 : list (init_event handle))
    (pq_ds : ParquetDataset Schema) :
  call_open_dataset env tr = (Ok pq_ds, tr1) ->
  open_dataset env = Ok pq_ds /\ tr1 = tr ++ [EvOpenDataset].
Proof.
  unfold call_open_dataset, bindM, emit, ret, raise.
  destruct (open_dataset env) as [d|e].
  - intros H. injection H as <- <-. split; reflexivity.
  - destruct e; intros H; discriminate H.
Qed.

Lemma call_prefetch_ok (tr tr1 : list (init_event handle))
    (pq_ds : ParquetDataset Schema)
    (metadata : list (option PrefetchedMetadata)) :
  call_prefetch env pq_ds tr = (Ok metadata, tr1) ->
  tr1 = tr ++ [EvPrefetch]
  /\ exists fetched,
       prefetch_file_metadata env (fragments pq_ds) = Ok fetched
       /\ metadata = match fetched with
                     | Some files => map Some files
                     | None => []
                     end.
Proof.
  unfold call_prefetch, bindM, emit, ret, raise.
  destruct (prefetch_file_metadata env (fragments pq_ds)) as [[files|]|e].
  - intros H. injection H as <- <-. split; [reflexivity|].
    exists (Some files). split; reflexivity.
  - intros H. injection H as <- <-. split; [reflexivity|].
    exists None. split; reflexivity.
  - destruct e; try (intros H; discriminate H).
    destruct (contains _ msg); intros H; discriminate H.
Qed.

Lemma sample_fragments_ok (pq_fragments : list handle)
    (columns : option (list string)) (schema1 : Schema)
    (tr tr' : list (init_event handle)) (sample_infos : list _SampleInfo) :
  _sample_fragments env pq_fragments columns schema1 tr
  = (Ok sample_infos, tr') ->
  exists idxs file_samples,
    sample_indices (Z.of_nat (length pq_fragments)) = Ok idxs
    /\ mapM (py_getitem pq_fragments) idxs = Ok file_samples
    /\ mapM (sample_remote env columns schema1) file_samples = Ok sample_infos
    /\ tr' = tr ++ map EvSample file_samples.
Proof.
  unfold _sample_fragments, bindM, lift.
  destruct (sample_indices (Z.of_nat (length pq_fragments))) as [idxs|e]
    eqn:Ei; [|intros H; discriminate H].
  destruct (mapM (py_getitem pq_fragments) idxs) as [files|e] eqn:Ef;
    [|intros H; discriminate H].
  rewrite launch_samples_trace.
  destruct (mapM (sample_remote env columns schema1) files) as [infos|e]
    eqn:Es; intros H; [|discriminate H].
  injection H as <- <-. exists idxs, files.
  split; [reflexivity|]. split; [exact Ef|]. split; [exact Es|reflexivity].
Qed.

(** The sampling returns when every remote call on a stored fragment
    does. *)
Lemma sample_fragments_total (pq_fragments : list handle)
    (columns : option (list string)) (schema1 : Schema)
    (tr : list (init_event handle)) (P : _SampleInfo -> Prop) :
  (forall h, In h pq_fragments ->
     exists info, sample_remote env columns schema1 h = Ok info /\ P info) ->
  exists sample_infos tr',
    _sample_fragments env pq_fragments columns schema1 tr
    = (Ok sample_infos, tr')
    /\ Forall P sample_infos.
Proof.
  intros Hall.
  assert (Hn : 0 <= Z.of_nat (length pq_fragments)) by lia.
  destruct (sample_indices_spec _ Hn) as (idxs & Hidx & Hlen & Hnth).
  destruct (mapM_getitem pq_fragments idxs) as (files & Hfiles & _ & _).
  { apply Forall_forall. intros i Hi.
    apply In_nth with (d := 0) in Hi. destruct Hi as (j & Hj & <-).
    rewrite Hlen in Hj. destruct (Hnth j Hj) as [_ Hr]. lia. }
  pose proof (mapM_getitem_members pq_fragments idxs files Hfiles) as Hmem.
  destruct (mapM_total (sample_remote env columns schema1) files)
    as [infos Hinfos].
  { intros h Hh. destruct (Hall h (Hmem h Hh)) as (info & Hi & _).
    exists info. exact Hi. }
  exists infos, (tr ++ map EvSample files). split.
  - unfold _sample_fragments, bindM, lift.
    rewrite Hidx, Hfiles, launch_samples_trace, Hinfos. reflexivity.
  - apply (mapM_forall (sample_remote env columns schema1) P files);
      [|exact Hinfos].
    intros h info Hh Hi. destruct (Hall h (Hmem h Hh)) as (info' & Hi' & HP).
    rewrite Hi in Hi'. injection Hi' as <-. exact HP.
Qed.

(** The run of the constructor once the dataset is open, the schema selected
    and the metadata prefetched. *)
Lemma init_after_prefetch (tr : list (init_event handle))
    (pq_ds : ParquetDataset Schema) (schema1 : Schema)
    (fetched : option (list PrefetchedMetadata)) :
  is_local_scheme env && ray_client_connected env = false ->
  open_dataset env = Ok pq_ds ->
  select_schema env args pq_ds = Ok schema1 ->
  prefetch_file_metadata env (fragments pq_ds) = Ok fetched ->
  match _sample_fragments env (map (serialize env) (fragments pq_ds))
          (arg_columns args) schema1 (tr ++ [EvOpenDataset; EvPrefetch]) with
  | (Raise e, tr') => init tr = (Raise e, tr')
  | (Ok sample_infos, tr') =>
      match _estimate_files_encoding_ratio (decoding_size_estimation env)
              sample_infos,
            _estimate_default_read_batch_size_rows (target_max_block_size env)
              sample_infos with
      | Raise e, _ => init tr = (Raise e, tr')
      | Ok _, Raise e => init tr = (Raise e, tr')
      | Ok ratio, Ok rows =>
          exists self,
            init tr = (Ok self, tr')
            /\ _encoding_ratio self = ratio
            /\ _default_read_batch_size_rows self = rows
            /\ _pq_fragments self = map (serialize env) (fragments pq_ds)
      end
  end.
Proof.
  intros Hlocal Hopen Hschema Hfetch.
  unfold __init__. rewrite Bool.negb_involutive, Hlocal.
  unfold call_open_dataset, call_prefetch, bindM, emit, ret, lift, raise.
  rewrite Hopen, Hschema, Hfetch.
  rewrite <- app_assoc. cbn [app].
  destruct fetched as [files|];
    (destruct (_sample_fragments env (map (serialize env) (fragments pq_ds))
                 (arg_columns args) schema1
                 (tr ++ [EvOpenDataset; EvPrefetch]))
       as [[infos|e] tr3]; [|reflexivity];
     destruct (_estimate_files_encoding_ratio (decoding_size_estimation env)
                 infos) as [ratio|e];
     destruct (_estimate_default_read_batch_size_rows
                 (target_max_block_size env) infos) as [rows|e'];
     try reflexivity;
     eexists; split; [reflexivity|]; split; [reflexivity|];
     split; reflexivity).
Qed.

(** What a successful run of the constructor went through, and the fields
    it stored. *)
Lemma init_inversion (tr tr' : list (init_event handle)) (self : datasource) :
  init tr = (Ok self, tr') ->
  is_local_scheme env && ray_client_connected env = false
  /\ exists pq_ds schema1 fetched sample_infos,
       open_dataset env = Ok pq_ds
       /\ select_schema env args pq_ds = Ok schema1
       /\ prefetch_file_metadata env (fragments pq_ds) = Ok fetched
       /\ _sample_fragments env (map (serialize env) (fragments pq_ds))
            (arg_columns args) schema1 (tr ++ [EvOpenDataset; EvPrefetch])
          = (Ok sample_infos, tr')
       /\ _estimate_files_encoding_ratio (decoding_size_estimation env)
            sample_infos = Ok (_encoding_ratio self)
       /\ _estimate_default_read_batch_size_rows (target_max_block_size env)
            sample_infos = Ok (_default_read_batch_size_rows self)
       /\ _pq_fragments self = map (serialize env) (fragments pq_ds)
       /\ _pq_paths self = map (fun p => path p) (fragments pq_ds)
       /\ _metadata self = match fetched with
                           | Some files => map Some files
                           | None => []
                           end
       /\ _supports_distributed_reads self = negb (is_local_scheme env)
       /\ _schema self = schema1
       /\ _columns self = arg_columns args
       /\ _arrow_parquet_args self = arg_parquet_args args
       /\ _block_udf self = arg_block_udf args.
Proof.
  unfold __init__. rewrite Bool.negb_involutive.
  destruct (is_local_scheme env && ray_client_connected env) eqn:Eray;
    [intros H; discriminate H|].
  unfold bindM at 1.
  destruct (call_open_dataset env tr) as [[pq_ds|e] tr1] eqn:Eo;
    [|intros H; discriminate H].
  apply call_open_dataset_ok in Eo. destruct Eo as [Hopen ->].
  unfold bindM at 1, lift at 1.
  destruct (select_schema env args pq_ds) as [schema1|e] eqn:Esel;
    [|intros H; discriminate H].
  unfold bindM at 1.
  destruct (call_prefetch env pq_ds (tr ++ [EvOpenDataset]))
    as [[metadata|e] tr2] eqn:Ep; [|intros H; discriminate H].
  apply call_prefetch_ok in Ep. destruct Ep as (-> & fetched & Hfetch & ->).
  assert (Htr : (tr ++ [EvOpenDataset]) ++ [@EvPrefetch handle]
                = tr ++ [EvOpenDataset; EvPrefetch])
    by (rewrite <- app_assoc; reflexivity).
  rewrite Htr.
  unfold bindM at 1.
  destruct (_sample_fragments env (map (serialize env) (fragments pq_ds))
              (arg_columns args) schema1 (tr ++ [EvOpenDataset; EvPrefetch]))
    as [[infos|e] tr3] eqn:Es; [|intros H; discriminate H].
  unfold bindM at 1, lift at 1.
  destruct (_estimate_files_encoding_ratio (decoding_size_estimation env)
              infos) as [ratio|e] eqn:Er; [|intros H; discriminate H].
  unfold bindM at 1, lift at 1.
  destruct (_estimate_default_read_batch_size_rows (target_max_block_size env)
              infos) as [rows|e] eqn:Eb; [|intros H; discriminate H].
  unfold ret. intros H. injection H as <- <-.
  split; [reflexivity|].
  exists pq_ds, schema1, fetched, infos. simpl. repeat split; assumption.
Qed.

Lemma sampled_nonempty (pq_fragments : list handle)
    (columns : option (list string)) (schema1 : Schema)
    (tr tr' : list (init_event handle)) (sample_infos : list _SampleInfo) :
  _sample_fragments env pq_fragments columns schema1 tr
  = (Ok sample_infos, tr') ->
  (pq_fragments <> [] -> sample_infos <> [])
  /\ (pq_fragments = [] -> sample_infos = []).
Proof.
  intros Hs. apply sample_fragments_count in Hs.
  rewrite num_samples_of_floor in Hs by lia. split.
  - intros Hne ->. destruct pq_fragments as [|h hs]; [contradiction|].
    simpl length in Hs.
    assert (Hq : 0 <= Z.of_nat (S (length hs)) / 100)
      by (apply Z.div_pos; lia).
    lia.
  - intros ->. simpl in Hs. destruct sample_infos; [reflexivity|discriminate].
Qed.

(** X17. The estimates of a constructed datasource.  Over a corpus of at
    least one file the encoding ratio is a number that is at least 2 (and 5
    when the estimation is disabled), and the default batch size is a number
    between 1 and 10000; over an empty corpus no file is sampled, the batch
    size is [nan], and the ratio is [nan] too unless the estimation is
    disabled. *)
Theorem init_estimates (tr tr' : list (init_event handle))
    (self : datasource) :
  init tr = (Ok self, tr') ->
  (_pq_fragments self <> [] ->
   exists ratio rows,
     _encoding_ratio self = Fin ratio
     /\ (2 <= ratio)%Q
     /\ (decoding_size_estimation env = false -> ratio = 5%Q)
     /\ _default_read_batch_size_rows self = Fin rows
     /\ (1 <= rows <= 10000)%Q)
  /\ (_pq_fragments self = [] ->
      _encoding_ratio self
      = (if decoding_size_estimation env then NaN else Fin 5)
      /\ _default_read_batch_size_rows self = NaN
      /\ tr' = tr ++ [EvOpenDataset; EvPrefetch]).
Proof.
  intros Hinit. apply init_inversion in Hinit.
  destruct Hinit as (_ & pq_ds & schema1 & fetched & infos & _ & _ & _ & Hs
                     & Hr & Hb & Hf & _).
  destruct (sampled_nonempty _ _ _ _ _ _ Hs) as [Hne Hnil].
  rewrite <- Hf in Hne, Hnil. split.
  - intros Hfr. specialize (Hne Hfr).
    destruct (files_encoding_ratio_range _ _ _ Hne Hr) as (r & Er & H2 & H5).
    destruct (default_read_batch_size_rows_range _ _ _ Hne Hb)
      as (b & Eb & Hrange).
    exists r, b. repeat split; tauto.
  - intros Hfr. specialize (Hnil Hfr). subst infos.
    apply sample_fragments_ok in Hs.
    destruct Hs as (idxs & files & Hidx & Hfiles & Hinfos & ->).
    apply mapM_length in Hinfos. destruct files; [|discriminate Hinfos].
    simpl map. rewrite app_nil_r.
    unfold _estimate_files_encoding_ratio in Hr.
    unfold _estimate_default_read_batch_size_rows in Hb.
    simpl in Hr, Hb. injection Hb as <-.
    destruct (decoding_size_estimation env); simpl in Hr; injection Hr as <-;
      repeat split.
Qed.

(** X18. The calls of a successful construction, in order: the dataset is
    opened once, the metadata is prefetched once, and then the sampled files
    are fetched, one call per sample, in the order of their indices; there
    are as many as [num_samples_of] says, never more than 10 and never more
    than there are files. *)
Theorem init_call_order (tr tr' : list (init_event handle))
    (self : datasource) :
  init tr = (Ok self, tr') ->
  exists idxs file_samples,
    sample_indices (Z.of_nat (length (_pq_fragments self))) = Ok idxs
    /\ mapM (py_getitem (_pq_fragments self)) idxs = Ok file_samples
    /\ tr' = tr ++ [EvOpenDataset; EvPrefetch] ++ map EvSample file_samples
    /\ length file_samples
       = Z.to_nat (num_samples_of (Z.of_nat (length (_pq_fragments self))))
    /\ (length file_samples <= 10)%nat
    /\ (length file_samples <= length (_pq_fragments self))%nat.
Proof.
  intros Hinit. apply init_inversion in Hinit.
  destruct Hinit as (_ & pq_ds & schema1 & fetched & infos & _ & _ & _ & Hs
                     & _ & _ & Hf & _).
  rewrite <- Hf in Hs. apply sample_fragments_ok in Hs.
  destruct Hs as (idxs & files & Hidx & Hfiles & _ & ->).
  set (n := Z.of_nat (length (_pq_fragments self))) in *.
  assert (Hn : 0 <= n) by (unfold n; lia).
  destruct (sample_indices_spec n Hn) as (idxs' & Hidx' & Hlen & _).
  rewrite Hidx in Hidx'. injection Hidx' as <-.
  pose proof (mapM_length _ _ _ Hfiles) as Hlf.
  exists idxs, files.
  split; [exact Hidx|]. split; [exact Hfiles|].
  split; [rewrite <- app_assoc; reflexivity|].
  rewrite num_samples_of_floor by exact Hn.
  rewrite Hlf, Hlen. split; [reflexivity|]. unfold n. lia.
Qed.

(** X19. The constructor returns a datasource whenever the dataset opens,
    the schema is selected, the prefetch returns, and the remote sampling of
    every stored fragment returns a sample without a zero in
    [estimated_bytes_per_row] or [actual_bytes_per_row]. *)
Theorem init_returns (tr : list (init_event handle))
    (pq_ds : ParquetDataset Schema) (schema1 : Schema)
    (fetched : option (list PrefetchedMetadata)) :
  is_local_scheme env && ray_client_connected env = false ->
  open_dataset env = Ok pq_ds ->
  select_schema env args pq_ds = Ok schema1 ->
  prefetch_file_metadata env (fragments pq_ds) = Ok fetched ->
  (forall p, In p (fragments pq_ds) ->
     exists info,
       sample_remote env (arg_columns args) schema1 (serialize env p)
       = Ok info
       /\ (forall e, estimated_bytes_per_row info = Some e -> ~ (e == 0)%Q)
       /\ (forall a, actual_bytes_per_row info = Some a -> ~ (a == 0)%Q)) ->
  exists self tr', init tr = (Ok self, tr').
Proof.
  intros Hlocal Hopen Hschema Hfetch Hsamples.
  destruct (sample_fragments_total (map (serialize env) (fragments pq_ds))
              (arg_columns args) schema1 (tr ++ [EvOpenDataset; EvPrefetch])
              (fun info =>
                 (forall e, estimated_bytes_per_row info = Some e ->
                    ~ (e == 0)%Q)
                 /\ (forall a, actual_bytes_per_row info = Some a ->
                       ~ (a == 0)%Q)))
    as (infos & tr3 & Hs & Hgood).
  { intros h Hh. apply in_map_iff in Hh. destruct Hh as (p & <- & Hp).
    exact (Hsamples p Hp). }
  rewrite Forall_forall in Hgood.
  pose proof (init_after_prefetch tr pq_ds schema1 fetched Hlocal Hopen
                Hschema Hfetch) as Hrun.
  rewrite Hs in Hrun.
  destruct (_estimate_files_encoding_ratio (decoding_size_estimation env)
              infos) as [ratio|e] eqn:Er.
  - destruct (_estimate_default_read_batch_size_rows
                (target_max_block_size env) infos) as [rows|e] eqn:Eb.
    + destruct Hrun as (self & Hrun & _). exists self, tr3. exact Hrun.
    + exfalso. apply default_read_batch_size_rows_raises_only in Eb.
      destruct Eb as (_ & s & a & Hin & Ha & Hz).
      exact (proj2 (Hgood s Hin) a Ha Hz).
  - exfalso. apply files_encoding_ratio_raises_only in Er.
    destruct Er as (_ & _ & s & a & e0 & Hin & Ha & He & Hz).
    exact (proj1 (Hgood s Hin) e0 He Hz).
Qed.

(** X20. A sample that divides by zero ends the construction: when the
    sampling has returned and a sample has both fields present with
    [estimated_bytes_per_row] equal to 0 (the estimation being enabled), or
    has [actual_bytes_per_row] equal to 0, the constructor raises
    [ZeroDivisionError], after all the samples were fetched. *)
Theorem init_zero_division (tr tr' : list (init_event handle))
    (pq_ds : ParquetDataset Schema) (schema1 : Schema)
    (fetched : option (list PrefetchedMetadata))
    (sample_infos : list _SampleInfo) :
  is_local_scheme env && ray_client_connected env = false ->
  open_dataset env = Ok pq_ds ->
  select_schema env args pq_ds = Ok schema1 ->
  prefetch_file_metadata env (fragments pq_ds) = Ok fetched ->
  _sample_fragments env (map (serialize env) (fragments pq_ds))
    (arg_columns args) schema1 (tr ++ [EvOpenDataset; EvPrefetch])
  = (Ok sample_infos, tr') ->
  (decoding_size_estimation env = true
   /\ exists s a e, In s sample_infos
                    /\ actual_bytes_per_row s = Some a
                    /\ estimated_bytes_per_row s = Some e
                    /\ (e == 0)%Q)
  \/ (exists s a, In s sample_infos
                  /\ actual_bytes_per_row s = Some a /\ (a == 0)%Q) ->
  init tr = (Raise ZeroDivisionError, tr').
Proof.
  intros Hlocal Hopen Hschema Hfetch Hs Hbad.
  pose proof (init_after_prefetch tr pq_ds schema1 fetched Hlocal Hopen
                Hschema Hfetch) as Hrun.
  rewrite Hs in Hrun.
  destruct (_estimate_files_encoding_ratio (decoding_size_estimation env)
              sample_infos) as [ratio|e] eqn:Er.
  - destruct (_estimate_default_read_batch_size_rows
                (target_max_block_size env) sample_infos) as [rows|e] eqn:Eb.
    + exfalso. destruct Hbad as [[Hen Hbad]|Hbad].
      * apply files_encoding_ratio_raises_when in Hbad.
        rewrite Hen, Hbad in Er. discriminate Er.
      * apply (default_read_batch_size_rows_raises_when
                 (target_max_block_size env)) in Hbad.
        rewrite Hbad in Eb. discriminate Eb.
    + destruct (default_read_batch_size_rows_raises_only _ _ _ Eb) as [-> _].
      exact Hrun.
  - destruct (files_encoding_ratio_raises_only _ _ _ Er) as [-> _].
    exact Hrun.
Qed.

(** X21. Errors of the reads made by the constructor.  A failure to open
    the dataset is raised after the one call, an [OSError] through
    [_handle_read_os_error] and anything else as it is; a failure to select
    the schema is raised before the metadata is prefetched; a failure of the
    prefetch is raised after the two calls, an [OSError] through
    [_handle_read_os_error], an [ArrowInvalid] as [InvalidFile] when its
    message tells of a file of 0 bytes and as it is otherwise.  No file is
    sampled in any of these cases. *)
Theorem init_read_errors (tr : list (init_event handle)) :
  is_local_scheme env && ray_client_connected env = false ->
  (forall e, open_dataset env = Raise e ->
     init tr
     = (Raise (match e with
               | OSError msg => OSError (_handle_read_os_error env msg)
               | _ => e
               end),
        tr ++ [EvOpenDataset]))
  /\ (forall pq_ds e,
        open_dataset env = Ok pq_ds ->
        select_schema env args pq_ds = Raise e ->
        init tr = (Raise e, tr ++ [EvOpenDataset]))
  /\ (forall pq_ds schema1 e,
        open_dataset env = Ok pq_ds ->
        select_schema env args pq_ds = Ok schema1 ->
        prefetch_file_metadata env (fragments pq_ds) = Raise e ->
        init tr
        = (Raise (match e with
                  | OSError msg => OSError (_handle_read_os_error env msg)
                  | ArrowInvalid msg =>
                      if contains "Parquet file size is 0 bytes" msg
                      then InvalidFile ("Invalid Parquet file. " ++ msg)
                      else ArrowInvalid msg
                  | _ => e
                  end),
           tr ++ [EvOpenDataset; EvPrefetch])).
Proof.
  intros Hlocal. split; [|split].
  - intros e Hopen. unfold __init__.
    rewrite Bool.negb_involutive, Hlocal.
    unfold call_open_dataset, bindM, emit, ret, lift, raise.
    rewrite Hopen. destruct e; reflexivity.
  - intros pq_ds e Hopen Hschema. unfold __init__.
    rewrite Bool.negb_involutive, Hlocal.
    unfold call_open_dataset, bindM, emit, ret, lift, raise.
    rewrite Hopen, Hschema. reflexivity.
  - intros pq_ds schema1 e Hopen Hschema Hfetch. unfold __init__.
    rewrite Bool.negb_involutive, Hlocal.
    unfold call_open_dataset, call_prefetch, bindM, emit, ret, lift, raise.
    rewrite Hopen, Hschema, Hfetch. rewrite <- app_assoc. cbn [app].
    destruct e; try reflexivity.
    destruct (contains "Parquet file size is 0 bytes" msg); reflexivity.
Qed.

(** X22. The size estimate of a constructed datasource.  Right after the
    construction [estimate_inmemory_data_size] returns the sum of the
    prefetched sizes (0 when the provider prefetched nothing) times the
    encoding ratio and does not raise; when nothing was prefetched for a
    corpus of at least one file, the same call after [get_read_tasks] raises
    [AttributeError]. *)
Theorem init_size_estimate
    (permutation : Generator -> nat -> list nat * Generator)
    (meta_provider :
       list string -> Schema -> nat -> list (option PrefetchedMetadata)
       -> BlockMetadata)
    (tr tr' : list (init_event handle)) (self : datasource)
    (parallelism : Z) :
  init tr = (Ok self, tr') ->
  exists pq_ds fetched,
    open_dataset env = Ok pq_ds
    /\ prefetch_file_metadata env (fragments pq_ds) = Ok fetched
    /\ estimate_inmemory_data_size self
       = Ok (Some (py_mul
                     (match fetched with
                      | Some files =>
                          fold_right Z.add 0 (map total_byte_size files)
                      | None => 0
                      end)
                     (_encoding_ratio self)))
    /\ (fetched = None -> fragments pq_ds <> [] ->
        estimate_inmemory_data_size
          (snd (get_read_tasks permutation meta_provider self parallelism))
        = Raise AttributeError).
Proof.
  intros Hinit. apply init_inversion in Hinit.
  destruct Hinit as (_ & pq_ds & schema1 & fetched & infos & Hopen & _
                     & Hfetch & _ & _ & _ & Hf & _ & Hm & _).
  exists pq_ds, fetched. split; [exact Hopen|]. split; [exact Hfetch|]. split.
  - unfold estimate_inmemory_data_size. rewrite Hm.
    destruct fetched as [files|]; [|reflexivity].
    rewrite sum_total_byte_size_some. reflexivity.
  - intros -> Hne.
    destruct (planning_fields handle Schema Udf ArgValue Generator permutation
                meta_provider self parallelism)
      as (_ & _ & Hr & _ & _ & _ & _ & _ & _ & _ & _ & _ & Hpad).
    unfold estimate_inmemory_data_size.
    rewrite Hpad, pad_metadata_value, Hm, Hf, length_map.
    destruct (fragments pq_ds) as [|p ps]; [contradiction|].
    simpl length. rewrite Nat.sub_0_r.
    rewrite (sum_total_byte_size_padded [] (length ps) 0). reflexivity.
Qed.

End ConstructorProperties.

(** ** Reading the fragments of a task *)

Lemma dict_get_remove_same {V} (key : string) (d : list (string * V)) :
  dict_get key (dict_remove key d) = None.
Proof.
  induction d as [|[k v] rest IH]; simpl; [reflexivity|].
  destruct (String.eqb k key) eqn:E; [exact IH|].
  simpl. rewrite E. exact IH.
Qed.

Lemma dict_get_remove_other {V} (key other : string) (d : list (string * V)) :
  key <> other ->
  dict_get key (dict_remove other d) = dict_get key d.
Proof.
  intros Hne. induction d as [|[k v] rest IH]; simpl; [reflexivity|].
  destruct (String.eqb k other) eqn:E.
  - apply String.eqb_eq in E. subst k.
    replace (String.eqb other key) with false
      by (symmetry; apply String.eqb_neq; congruence).
    exact IH.
  - simpl. destruct (String.eqb k key); [reflexivity | exact IH].
Qed.

Lemma dict_remove_absent {V} (key : string) (d : list (string * V)) :
  dict_get key d = None -> dict_remove key d = d.
Proof.
  induction d as [|[k v] rest IH]; simpl; [reflexivity|].
  destruct (String.eqb k key); [intros H; discriminate H|].
  intros H. rewrite (IH H). reflexivity.
Qed.

Lemma flat_map_map {A B C} (f : A -> list B) (g : B -> C) (l : list A) :
  flat_map (fun x => map g (f x)) l = map g (flat_map f l).
Proof.
  induction l as [|x l IH]; simpl; [reflexivity|].
  rewrite map_app, IH. reflexivity.
Qed.

Lemma flat_map_length_le {A B} (f : A -> list B) (g : A -> nat) (l : list A) :
  (forall x, (length (f x) <= g x)%nat) ->
  (length (flat_map f l) <= list_sum (map g l))%nat.
Proof.
  intros H. induction l as [|x l IH]; simpl; [lia|].
  rewrite length_app. specialize (H x). lia.
Qed.

Section ReadingProperties.

Variable handle : Type.
Variable fragment : Type.
Variable Schema : Type.
Variable Udf : Type.
Variable ArgValue : Type.
Variable Table : Type.
Variable Batch : Type.
Variable Value : Type.

Variable deserialize : nat -> handle -> result fragment.
Variable random : nat -> Q.
Variable ops : reader_ops fragment Schema Udf ArgValue Table Batch Value.

Local Abbreviation resolve :=
  (_deserialize_fragments_with_retry deserialize random).
Local Abbreviation read := (_read_fragments deserialize random ops).

Lemma retry_loop_ok_outcome (hs : list handle) (idxs : list nat) :
  forall (mi : Q) (fe : option exn) (w : world) (fragments : list fragment),
  fst (retry_loop deserialize random hs idxs mi fe w) = Ok fragments ->
  exists k, outcome deserialize hs k = Ok fragments.
Proof.
  induction idxs as [|i rest IH]; intros mi fe w frags H.
  - simpl in H. destruct fe; discriminate H.
  - simpl in H.
    destruct (mapM (deserialize (attempts w)) hs) as [v|e] eqn:E.
    + simpl in H. injection H as <-. exists (attempts w). exact E.
    + destruct (Qeq_bool mi 0); simpl in H; apply IH in H; exact H.
Qed.

Lemma resolved_length (hs : list handle) (w : world)
    (fragments : list fragment) :
  fst (resolve hs w) = Ok fragments -> length fragments = length hs.
Proof.
  intros H. apply retry_loop_ok_outcome in H. destruct H as [k Hk].
  apply mapM_length in Hk. exact Hk.
Qed.

Lemma resolved_nothing (w : world) :
  resolve [] w
  = (Ok [], {| attempts := S (attempts w); draws := draws w;
               slept := slept w; logged := logged w |}).
Proof. reflexivity. Qed.

(** The three ways [_read_fragments] ends. *)
Lemma read_fragments_cases (block_udf : option Udf)
    (arrow_parquet_args : list (string * option ArgValue))
    (default_read_batch_size_rows : pyfloat)
    (columns : option (list string)) (schema0 : Schema) (path_root : string)
    (serialized_fragments : list handle) (include_paths : bool) (w : world) :
  read block_udf arrow_parquet_args default_read_batch_size_rows columns
    schema0 path_root serialized_fragments include_paths w
  = match resolve serialized_fragments w with
    | (Raise e, w1) => (Propagated e, arrow_parquet_args, w1)
    | (Ok fragments, w1) =>
        if (0 <? length fragments)%nat then
          (Yielded
             (flat_map
                (read_fragment ops block_udf
                   (dict_remove "batch_size"
                      (dict_remove "use_threads" arrow_parquet_args))
                   (match dict_get "use_threads" arrow_parquet_args with
                    | Some v => inl v
                    | None => inr false
                    end)
                   (match dict_get "batch_size" arrow_parquet_args with
                    | Some v => inl v
                    | None => inr default_read_batch_size_rows
                    end)
                   columns schema0 path_root include_paths)
                fragments),
           dict_remove "batch_size"
             (dict_remove "use_threads" arrow_parquet_args),
           w1)
        else (AssertionError, arrow_parquet_args, w1)
    end.
Proof.
  unfold _read_fragments, dict_pop.
  rewrite (dict_get_remove_other "batch_size" "use_threads")
    by discriminate.
  destruct (resolve serialized_fragments w) as [[fragments|e] w1];
    reflexivity.
Qed.

(** X23. How [_read_fragments] starts.  The resolver is called in every
    case, and the reader calls it no more.  Its exception, raised after its
    eight failed attempts, is passed on with the reader arguments untouched;
    an empty list of handles fails the assertion, after one call of the
    resolver and no wait, the arguments untouched again, and nothing else
    fails it; a nonempty list that resolves gives as many fragments as
    handles and passes the assertion, and from then on the two pops have
    been made on the reader arguments. *)
Theorem read_fragments_outcome (block_udf : option Udf)
    (arrow_parquet_args : list (string * option ArgValue))
    (default_read_batch_size_rows : pyfloat)
    (columns : option (list string)) (schema0 : Schema) (path_root : string)
    (serialized_fragments : list handle) (include_paths : bool) (w : world) :
  let run :=
    read block_udf arrow_parquet_args default_read_batch_size_rows columns
      schema0 path_root serialized_fragments include_paths w in
  let resolved := resolve serialized_fragments w in
  snd run = snd resolved
  /\ (forall e, fst resolved = Raise e ->
        fst run = (Propagated e, arrow_parquet_args))
  /\ (serialized_fragments = [] ->
      run = (AssertionError, arrow_parquet_args,
             {| attempts := S (attempts w); draws := draws w;
                slept := slept w; logged := logged w |}))
  /\ (fst (fst run) = AssertionError -> serialized_fragments = [])
  /\ (serialized_fragments <> [] ->
      forall fragments, fst resolved = Ok fragments ->
        length fragments = length serialized_fragments
        /\ fst (fst run) <> AssertionError
        /\ snd (fst run)
           = dict_remove "batch_size"
               (dict_remove "use_threads" arrow_parquet_args)).
Proof.
  cbn zeta. rewrite read_fragments_cases.
  assert (Hpass : serialized_fragments <> [] ->
            forall fragments,
              fst (resolve serialized_fragments w) = Ok fragments ->
              length fragments = length serialized_fragments
              /\ (0 <? length fragments)%nat = true).
  { intros Hne fragments Hres.
    pose proof (resolved_length _ _ _ Hres) as Hlen.
    split; [exact Hlen|]. apply Nat.ltb_lt. rewrite Hlen.
    destruct serialized_fragments; [contradiction | simpl; lia]. }
  split; [|split; [|split; [|split]]].
  - destruct (resolve serialized_fragments w) as [[fragments|e] w1];
      [destruct (0 <? length fragments)%nat|]; reflexivity.
  - intros e He.
    destruct (resolve serialized_fragments w) as [[fragments|e'] w1];
      simpl in He; [discriminate He|].
    injection He as ->. reflexivity.
  - intros ->. rewrite resolved_nothing. reflexivity.
  - destruct serialized_fragments as [|h hs]; [reflexivity|].
    intros Hfail. exfalso.
    assert (Hne : h :: hs <> []) by discriminate.
    specialize (Hpass Hne).
    destruct (resolve (h :: hs) w) as [[fragments|e] w1];
      [|discriminate Hfail].
    destruct (Hpass fragments eq_refl) as [_ Hpos].
    rewrite Hpos in Hfail. discriminate Hfail.
  - intros Hne fragments Hres.
    destruct (Hpass Hne fragments Hres) as [Hlen Hpos].
    split; [exact Hlen|].
    destruct (resolve serialized_fragments w) as [[fragments'|e] w1];
      simpl in Hres; [|discriminate Hres].
    injection Hres as ->. rewrite Hpos.
    split; [discriminate | reflexivity].
Qed.

(** X24. The pops of [_read_fragments] change the dict it is given.  After
    a run that yields, the dict has no ["use_threads"] and no
    ["batch_size"] entry and every other key is as before; a later run on
    that dict leaves it as it is and reads every fragment with
    [use_threads=False] and the default batch size, whatever the first run
    was configured with. *)
Theorem read_fragments_pops (block_udf : option Udf)
    (arrow_parquet_args args' : list (string * option ArgValue))
    (default_read_batch_size_rows : pyfloat)
    (columns : option (list string)) (schema0 : Schema) (path_root : string)
    (serialized_fragments : list handle) (include_paths : bool)
    (w w' : world) (tables : list Table) :
  read block_udf arrow_parquet_args default_read_batch_size_rows columns
    schema0 path_root serialized_fragments include_paths w
  = (Yielded tables, args', w') ->
  dict_get "use_threads" args' = None
  /\ dict_get "batch_size" args' = None
  /\ (forall key, key <> "use_threads"%string -> key <> "batch_size"%string ->
        dict_get key args' = dict_get key arrow_parquet_args)
  /\ forall (w2 w2' : world) (tables2 : list Table)
            (args2 : list (string * option ArgValue)),
       read block_udf args' default_read_batch_size_rows columns schema0
         path_root serialized_fragments include_paths w2
       = (Yielded tables2, args2, w2') ->
       args2 = args'
       /\ exists fragments,
            fst (resolve serialized_fragments w2) = Ok fragments
            /\ tables2
               = flat_map
                   (read_fragment ops block_udf args' (inr false)
                      (inr default_read_batch_size_rows) columns schema0
                      path_root include_paths)
                   fragments.
Proof.
  rewrite read_fragments_cases.
  destruct (resolve serialized_fragments w) as [[fragments|e] w1];
    [|intros H; discriminate H].
  destruct (0 <? length fragments)%nat; intros H; [|discriminate H].
  injection H as _ <- _.
  assert (Ht : dict_get "use_threads"
                 (dict_remove "batch_size"
                    (dict_remove "use_threads" arrow_parquet_args)) = None).
  { rewrite dict_get_remove_other by discriminate.
    apply dict_get_remove_same. }
  assert (Hb : dict_get "batch_size"
                 (dict_remove "batch_size"
                    (dict_remove "use_threads" arrow_parquet_args)) = None)
    by apply dict_get_remove_same.
  split; [exact Ht|]. split; [exact Hb|]. split.
  - intros key H1 H2. rewrite !dict_get_remove_other by assumption.
    reflexivity.
  - intros w2 w2' tables2 args2. rewrite read_fragments_cases.
    rewrite Ht, Hb.
    rewrite (dict_remove_absent "use_threads" _ Ht).
    rewrite (dict_remove_absent "batch_size" _ Hb).
    destruct (resolve serialized_fragments w2) as [[fragments2|e] w3];
      [|intros H; discriminate H].
    destruct (0 <? length fragments2)%nat; intros H; [|discriminate H].
    injection H as <- <- _. split; [reflexivity|].
    exists fragments2. split; reflexivity.
Qed.

Lemma read_batch_build (block_udf : option Udf)
    (columns : option (list string)) (schema0 : Schema) (path_root : string)
    (include_paths : bool) (fragment0 : fragment) (batch : Batch) :
  read_batch ops block_udf columns schema0 path_root include_paths fragment0
    batch
  = if 0 <? table_num_rows ops
              (build_table ops columns schema0 path_root include_paths
                 fragment0 batch)
    then [match block_udf with
          | Some udf =>
              apply_udf ops udf
                (build_table ops columns schema0 path_root include_paths
                   fragment0 batch)
          | None =>
              build_table ops columns schema0 path_root include_paths
                fragment0 batch
          end]
    else [].
Proof.
  unfold read_batch, build_table. cbn zeta.
  destruct block_udf; reflexivity.
Qed.

Lemma flat_map_filter_map {A B C} (g : A -> B) (p : B -> bool) (h : B -> C)
    (l : list A) :
  flat_map (fun x => if p (g x) then [h (g x)] else []) l
  = map h (filter p (map g l)).
Proof.
  induction l as [|x l IH]; simpl; [reflexivity|].
  rewrite IH. destruct (p (g x)); reflexivity.
Qed.

Lemma flat_map_map_filter {A B C} (F : A -> list B) (p : B -> bool)
    (h : B -> C) (l : list A) :
  flat_map (fun x => map h (filter p (F x))) l
  = map h (filter p (flat_map F l)).
Proof.
  induction l as [|x l IH]; simpl; [reflexivity|].
  rewrite IH, filter_app, map_app. reflexivity.
Qed.

(** X25. The tables [_read_fragments] yields.  One table is built for each
    batch of each fragment, in order; those with at least one row are kept
    and all others dropped; the UDF, when there is one, is applied to each
    kept table; what is yielded is exactly this list, in this order. *)
Theorem read_fragments_tables (block_udf : option Udf)
    (arrow_parquet_args args' : list (string * option ArgValue))
    (default_read_batch_size_rows : pyfloat)
    (columns : option (list string)) (schema0 : Schema) (path_root : string)
    (serialized_fragments : list handle) (include_paths : bool)
    (w w' : world) (tables : list Table) :
  read block_udf arrow_parquet_args default_read_batch_size_rows columns
    schema0 path_root serialized_fragments include_paths w
  = (Yielded tables, args', w') ->
  exists fragments,
    fst (resolve serialized_fragments w) = Ok fragments
    /\ let built :=
         flat_map
           (fun fragment0 =>
              map (build_table ops columns schema0 path_root include_paths
                     fragment0)
                (to_batches_with ops fragment0
                   (match dict_get "use_threads" arrow_parquet_args with
                    | Some v => inl v
                    | None => inr false
                    end)
                   columns schema0
                   (match dict_get "batch_size" arrow_parquet_args with
                    | Some v => inl v
                    | None => inr default_read_batch_size_rows
                    end)
                   args'))
           fragments in
       let kept := filter (fun table => 0 <? table_num_rows ops table) built in
       tables
       = map (fun table => match block_udf with
                           | Some udf => apply_udf ops udf table
                           | None => table
                           end) kept
       /\ (forall table,
             In table kept
             <-> In table built /\ 0 < table_num_rows ops table)
       /\ length tables = length kept
       /\ (length tables <= length built)%nat.
Proof.
  rewrite read_fragments_cases.
  destruct (resolve serialized_fragments w) as [[fragments|e] w1];
    [|intros H; discriminate H].
  destruct (0 <? length fragments)%nat; intros H; [|discriminate H].
  injection H as <- <- <-.
  exists fragments. split; [reflexivity|]. cbn zeta.
  match goal with |- ?yielded = map ?h (filter ?p ?built) /\ _ =>
    assert (Hclosed : yielded = map h (filter p built)) end.
  { rewrite <- flat_map_map_filter. apply flat_map_ext. intros fragment0.
    unfold read_fragment.
    rewrite <- (flat_map_filter_map
                  (build_table ops columns schema0 path_root include_paths
                     fragment0)
                  (fun table => 0 <? table_num_rows ops table)).
    apply flat_map_ext. intros batch. apply read_batch_build. }
  rewrite Hclosed.
  split; [reflexivity|]. split; [|split].
  - intros table. rewrite filter_In, Z.ltb_lt. reflexivity.
  - apply length_map.
  - rewrite length_map. apply filter_length_le.
Qed.

(** X26. The tasks planned by [get_read_tasks] and the reader.  Every
    returned task has at least one fragment, and a run of it never fails the
    assertion that at least one fragment is read, whatever the runs before
    it have left in the dict of reader arguments that all tasks share. *)
Theorem planned_tasks_read (Generator : Type)
    (permutation : Generator -> nat -> list nat * Generator)
    (meta_provider :
       list string -> Schema -> nat -> list (option PrefetchedMetadata)
       -> BlockMetadata)
    (self self' : ArrowParquetDatasource handle Schema Udf ArgValue Generator)
    (parallelism : Z)
    (read_tasks : list (ReadTask handle Schema Udf ArgValue)) :
  get_read_tasks permutation meta_provider self parallelism
  = (Ok read_tasks, self') ->
  Forall (fun task =>
            task_fragments task <> []
            /\ forall (shared_args : list (string * option ArgValue))
                      (w : world),
                 fst (fst (run_read_task deserialize random ops task
                             shared_args w))
                 <> AssertionError)
         read_tasks.
Proof.
  intros Hrun.
  destruct (get_read_tasks_loop handle Schema Udf ArgValue Generator
              permutation meta_provider self parallelism read_tasks self' Hrun)
    as [sections Hloop].
  eapply Forall_impl;
    [|apply (read_tasks_loop_contents handle Schema Udf ArgValue Generator
               meta_provider self' sections read_tasks Hloop)].
  intros t (f & p & m & _ & Hne & Ht).
  apply make_read_task_contents in Ht.
  destruct Ht as (_ & _ & _ & _ & _ & _ & _ & T8 & _).
  rewrite T8. split; [exact Hne|].
  intros shared_args w. unfold run_read_task.
  rewrite read_fragments_cases, T8.
  destruct (resolve f w) as [[fragments|e] w1] eqn:Eres; [|discriminate].
  assert (Hlen : length fragments = length f).
  { apply (resolved_length f w). rewrite Eres. reflexivity. }
  replace (0 <? length fragments)%nat with true; [discriminate|].
  symmetry. apply Nat.ltb_lt. rewrite Hlen.
  destruct f; [contradiction | simpl; lia].
Qed.

End ReadingProperties.

(** ** Sampling one file: how it ends *)

(** X8. How [_sample_fragment] ends.  The exception of the resolver is
    passed on, and the sampling calls the resolver no more; a handle that
    resolves gives exactly one fragment, so the indexing [[0]] never fails;
    and when the first batch read has rows, the function raises
    [ZeroDivisionError] exactly when the metadata of the file counts 0
    rows. *)
Theorem sample_fragment_errors
    (handle Columns Schema : Type)
    (deserialize : nat -> handle -> result (ParquetFileFragment Columns Schema))
    (random : nat -> Q) (columns : Columns) (schema : Schema)
    (file_fragment : handle) (w : world) :
  let run :=
    _sample_fragment deserialize random columns schema file_fragment w in
  let resolved :=
    _deserialize_fragments_with_retry deserialize random [file_fragment] w in
  snd run = snd resolved
  /\ (forall e, fst resolved = Raise e -> fst run = Raise e)
  /\ (forall fragments, fst resolved = Ok fragments ->
        exists fragment, fragments = [fragment])
  /\ (forall fragment batch rest,
        fst resolved = Ok [fragment] ->
        to_batches (subset fragment [0%nat]) columns schema
          (Z.max (Z.min (num_rows (metadata fragment)) 1024) 1)
        = batch :: rest ->
        0 < batch_num_rows batch ->
        (fst run = Raise ZeroDivisionError
         <-> num_rows (metadata fragment) = 0)).
Proof.
  cbn zeta.
  assert (Hone : forall fragments,
            fst (_deserialize_fragments_with_retry deserialize random
                   [file_fragment] w) = Ok fragments ->
            exists fragment, fragments = [fragment]).
  { intros fragments H. apply resolved_length in H.
    destruct fragments as [|fragment [|other rest]]; try discriminate H.
    exists fragment. reflexivity. }
  unfold _sample_fragment.
  destruct (_deserialize_fragments_with_retry deserialize random
              [file_fragment] w) as [[fragments|e0] w1]; simpl fst in *.
  - destruct (Hone fragments eq_refl) as [fragment ->]. simpl snd.
    split; [reflexivity|]. split; [intros e H; discriminate H|].
    split; [intros fragments H; injection H as <-; exists fragment;
            reflexivity|].
    intros fragment' batch rest Hres Hbatches Hrows.
    injection Hres as <-.
    unfold sample_resolved. cbn zeta.
    change PARQUET_ENCODING_RATIO_ESTIMATE_NUM_ROWS with 1024.
    change (metadata (subset fragment [0%nat])) with (metadata fragment).
    rewrite Hbatches.
    replace (0 <? batch_num_rows batch) with true
      by (symmetry; apply Z.ltb_lt; exact Hrows).
    rewrite (py_truediv_nonzero (inject_Z (nbytes batch))
               (inject_Z (batch_num_rows batch)))
      by (apply inject_Z_nonzero; lia).
    simpl bind. unfold py_truediv.
    destruct (Qeq_bool (inject_Z (num_rows (metadata fragment))) 0) eqn:Ez.
    + apply Qeq_bool_eq in Ez. unfold Qeq in Ez. simpl in Ez.
      split; [intros _; lia | intros _; reflexivity].
    + simpl. split; [intros H; discriminate H|].
      intros Hz. rewrite Hz in Ez. discriminate Ez.
  - simpl. split; [reflexivity|].
    split; [intros e H; injection H as <-; reflexivity|].
    split; [intros fragments H; discriminate H|].
    intros fragment batch rest H. discriminate H.
Qed.

(** ** The properties on the concrete instances *)

Lemma sample_fragment_without_rows_witness :
  fst (_deserialize_fragments_with_retry resolve_empty_file half_jitter
         [0%nat] fresh_world) = Ok [empty_file]
  /\ fst (_sample_fragment resolve_empty_file half_jitter None tt 0%nat
            fresh_world) = Ok sample_absent.
Proof.
  split; [reflexivity|].
  apply (sample_fragment_without_rows nat (option (list string)) unit
           resolve_empty_file half_jitter None tt 0%nat fresh_world
           empty_file []); [reflexivity | exact I].
Defined.

Lemma get_read_tasks_task_count_witness :
  1 <= 10
  /\ exists read_tasks self',
       get_read_tasks rotating_permutation no_metadata_provider
         (example_datasource [0; 1; 2; 3; 4; 5; 6]%nat seven_paths
            (Some 1%nat)) 10
       = (Ok read_tasks, self')
       /\ length read_tasks = 7%nat
       /\ Forall (fun t => length (task_fragments t) = 1%nat) read_tasks.
Proof.
  assert (Hc : constructed
                 (example_datasource [0; 1; 2; 3; 4; 5; 6]%nat seven_paths
                    (Some 1%nat)))
    by (apply example_datasource_constructed; reflexivity).
  assert (Hn : 1 <= 10) by lia.
  split; [exact Hn|].
  destruct (get_read_tasks_task_count nat unit unit unit nat
              rotating_permutation no_metadata_provider
              (example_datasource [0; 1; 2; 3; 4; 5; 6]%nat seven_paths
                 (Some 1%nat)) 10
              rotating_permutation_valid Hc Hn)
    as (tasks & self' & Hrun & Hlen & Hone).
  { right. discriminate. }
  exists tasks, self'. split; [exact Hrun|]. split; [exact Hlen|].
  apply Hone. simpl. lia.
Defined.

Lemma get_read_tasks_nonpositive_parallelism_witness :
  0 <= 0
  /\ fst (get_read_tasks rotating_permutation no_metadata_provider
            (example_datasource [10; 11]%nat ["a"; "b"]%string None) 0)
     = Raise (ValueError "number sections must be larger than 0.").
Proof.
  split; [lia|].
  apply (proj2 (get_read_tasks_nonpositive_parallelism nat unit unit unit nat
                  rotating_permutation no_metadata_provider
                  (example_datasource [10; 11]%nat ["a"; "b"]%string None) 0
                  ltac:(lia))).
  reflexivity.
Defined.

Lemma get_read_tasks_task_contents_witness :
  exists read_tasks self',
    get_read_tasks rotating_permutation counting_provider
      (example_datasource [10; 11]%nat ["a"; "b"]%string None) 1
    = (Ok read_tasks, self')
    /\ Forall (fun t => task_fragments t <> []
                        /\ task_path_root t = "bucket/"%string
                        /\ size_bytes (task_metadata t) <> None)
         read_tasks.
Proof.
  eexists. eexists. split; [lazy; reflexivity|].
  eapply Forall_impl;
    [|apply (get_read_tasks_task_contents nat unit unit unit nat
               rotating_permutation counting_provider
               (example_datasource [10; 11]%nat ["a"; "b"]%string None) 1
               _ _ eq_refl)].
  intros t (_ & _ & _ & _ & Hroot & _ & Hne & paths & prefetched & _ & Hsize).
  split; [exact Hne|]. split; [exact Hroot|].
  simpl in Hsize. destruct Hsize as (_ & scaled & ->). discriminate.
Defined.

Lemma init_estimates_witness :
  exists self tr',
    __init__ (corpus_environment [file_a; file_b] None) plain_args []
    = (Ok self, tr')
    /\ exists ratio rows,
         _encoding_ratio self = Fin ratio /\ (2 <= ratio)%Q
         /\ _default_read_batch_size_rows self = Fin rows
         /\ (1 <= rows <= 10000)%Q.
Proof.
  destruct (__init__ (corpus_environment [file_a; file_b] None) plain_args [])
    as [[self|e] tr'] eqn:E; [|exfalso; revert E; lazy; discriminate].
  exists self, tr'. split; [reflexivity|].
  destruct (init_estimates string unit unit unit nat
              (corpus_environment [file_a; file_b] None) plain_args [] tr'
              self E) as [H _].
  destruct H as (ratio & rows & H1 & H2 & _ & H3 & H4).
  { revert E. lazy. intros E. injection E as <- _. discriminate. }
  exists ratio, rows. auto.
Defined.

Lemma init_call_order_witness :
  exists self tr',
    __init__ (corpus_environment [file_a; file_b] None) plain_args []
    = (Ok self, tr')
    /\ exists file_samples,
         tr' = [] ++ [EvOpenDataset; EvPrefetch] ++ map EvSample file_samples
         /\ (length file_samples <= 10)%nat.
Proof.
  destruct (__init__ (corpus_environment [file_a; file_b] None) plain_args [])
    as [[self|e] tr'] eqn:E; [|exfalso; revert E; lazy; discriminate].
  exists self, tr'. split; [reflexivity|].
  destruct (init_call_order string unit unit unit nat
              (corpus_environment [file_a; file_b] None) plain_args [] tr'
              self E) as (idxs & files & _ & _ & Htr & _ & Hten & _).
  exists files. split; [exact Htr | exact Hten].
Defined.

Lemma init_returns_witness :
  exists self tr',
    __init__ (corpus_environment [file_a; file_b] None) plain_args []
    = (Ok self, tr').
Proof.
  apply (init_returns string unit unit unit nat
           (corpus_environment [file_a; file_b] None) plain_args []
           {| fragments := [file_a; file_b]; schema := tt |} tt None
           eq_refl eq_refl eq_refl eq_refl).
  intros p _. exists sample_6144_2048. split; [reflexivity|].
  split; intros q Hq; injection Hq as <-; intros Hz; discriminate Hz.
Defined.

Lemma init_zero_division_witness :
  __init__ (sampling_environment sample_without_memory_bytes) plain_args []
  = (Raise ZeroDivisionError,
     [EvOpenDataset; EvPrefetch; EvSample "bucket/a.parquet"%string;
      EvSample "bucket/b.parquet"%string]).
Proof.
  apply (init_zero_division string unit unit unit nat
           (sampling_environment sample_without_memory_bytes) plain_args [] _
           {| fragments := [file_a; file_b]; schema := tt |} tt None
           [sample_without_memory_bytes; sample_without_memory_bytes]
           eq_refl eq_refl eq_refl eq_refl eq_refl).
  right. exists sample_without_memory_bytes, 0%Q.
  split; [left; reflexivity|]. split; reflexivity.
Defined.

Lemma init_read_errors_witness :
  __init__ (failing_environment (Raise (OSError "no such bucket")) (Ok None))
    plain_args []
  = (Raise (OSError "read failed: no such bucket"), [EvOpenDataset]).
Proof.
  exact (proj1 (init_read_errors string unit unit unit nat
                  (failing_environment (Raise (OSError "no such bucket"))
                     (Ok None))
                  plain_args [] eq_refl)
           (OSError "no such bucket") eq_refl).
Defined.

Lemma init_size_estimate_witness :
  exists self tr',
    __init__ (corpus_environment [file_a; file_b] None) plain_args []
    = (Ok self, tr')
    /\ estimate_inmemory_data_size self
       = Ok (Some (py_mul 0 (_encoding_ratio self)))
    /\ estimate_inmemory_data_size
         (snd (get_read_tasks rotating_permutation no_metadata_provider self 1))
       = Raise AttributeError.
Proof.
  destruct (__init__ (corpus_environment [file_a; file_b] None) plain_args [])
    as [[self|e] tr'] eqn:E; [|exfalso; revert E; lazy; discriminate].
  exists self, tr'. split; [reflexivity|].
  destruct (init_size_estimate string unit unit unit nat
              (corpus_environment [file_a; file_b] None) plain_args
              rotating_permutation no_metadata_provider [] tr' self 1 E)
    as (pq_ds & fetched & Hopen & Hfetch & Hest & Hafter).
  simpl in Hopen. injection Hopen as <-.
  simpl in Hfetch. injection Hfetch as <-.
  split; [exact Hest|].
  apply Hafter; [reflexivity | discriminate].
Defined.

Lemma read_fragments_pops_witness :
  _read_fragments resolve_number half_jitter row_count_reader None
    [("batch_size"%string, Some tt)] (Fin 10000) None tt "bucket/"
    [1; 2]%nat false fresh_world
  = (Yielded [3; 3], [],
     {| attempts := 1; draws := 0; slept := []; logged := [] |})
  /\ forall w2 w2' tables2 args2,
       _read_fragments resolve_number half_jitter row_count_reader None []
         (Fin 10000) None tt "bucket/" [1; 2]%nat false w2
       = (Yielded tables2, args2, w2') ->
       args2 = []
       /\ exists fragments,
            fst (_deserialize_fragments_with_retry resolve_number half_jitter
                   [1; 2]%nat w2) = Ok fragments
            /\ tables2
               = flat_map
                   (read_fragment row_count_reader None [] (inr false)
                      (inr (Fin 10000)) None tt "bucket/" false)
                   fragments.
Proof.
  split; [reflexivity|].
  exact (proj2 (proj2 (proj2
           (read_fragments_pops nat nat unit unit unit Z Z unit
              resolve_number half_jitter row_count_reader None
              [("batch_size"%string, Some tt)] [] (Fin 10000) None tt
              "bucket/" [1; 2]%nat false fresh_world
              {| attempts := 1; draws := 0; slept := []; logged := [] |}
              [3; 3] eq_refl)))).
Defined.

Lemma read_fragments_tables_witness :
  exists fragments,
    fst (_deserialize_fragments_with_retry resolve_number half_jitter
           [1; 2]%nat fresh_world) = Ok fragments
    /\ [3; 3]
       = map (apply_udf row_count_reader tt)
           (filter (fun table => 0 <? table)
              (flat_map
                 (fun fragment0 =>
                    map (build_table row_count_reader None tt "bucket/" false
                           fragment0)
                      [3; 0])
                 fragments)).
Proof.
  destruct (read_fragments_tables nat nat unit unit unit Z Z unit
              resolve_number half_jitter row_count_reader (Some tt)
              [("batch_size"%string, Some tt)] [] (Fin 10000) None tt
              "bucket/" [1; 2]%nat false fresh_world
              {| attempts := 1; draws := 0; slept := []; logged := [] |}
              [3; 3] eq_refl)
    as (fragments & Hres & Htables & _).
  exists fragments. split; [exact Hres | exact Htables].
Defined.

Lemma planned_tasks_read_witness :
  exists read_tasks self',
    get_read_tasks rotating_permutation no_metadata_provider
      (example_datasource [10; 11]%nat ["a"; "b"]%string None) 1
    = (Ok read_tasks, self')
    /\ Forall (fun task =>
                 fst (fst (run_read_task resolve_number half_jitter
                             row_count_reader task [] fresh_world))
                 <> AssertionError)
         read_tasks.
Proof.
  eexists. eexists. split; [lazy; reflexivity|].
  eapply Forall_impl;
    [|apply (planned_tasks_read nat nat unit unit unit Z Z unit
               resolve_number half_jitter row_count_reader nat
               rotating_permutation no_metadata_provider
               (example_datasource [10; 11]%nat ["a"; "b"]%string None) _ 1
               _ eq_refl)].
  intros t [_ H]. exact (H [] fresh_world).
Defined.
